(** * locate-thumbnail: the crop-box recovery pipeline of [bin/locate-thumbnail.py]

    A shallow embedding of the functions of the script and the properties
    of its geometric pipeline.

    Modelling conventions.
    - Python and OpenCV floating-point numbers (match distances, the ratio
      threshold, homography entries, projected coordinates, the resize scale)
      are idealised as exact rationals [Q]; no rounding of the arithmetic is
      modelled.
    - Python integers are [Z]; array shapes are [nat].
    - A raised exception is a value [Raise e] of the type [result]; code that
      logs, prints or writes files runs in the state-and-exception monad [M]
      over the record [World].
    - Library calls whose result is not determined by the script (feature
      detection, k-NN matching, RANSAC, resampling, image decoding, drawing)
      are variables of the section [Pipeline]. *)

From Stdlib Require Import String ZArith QArith Qround List Bool Lia Lqa Sorted.
Import ListNotations.

Set Implicit Arguments.

Open Scope Z_scope.

(* ================================================================== *)
(** ** Python run-time: exceptions, indexing, numbers *)
(* ================================================================== *)

Module Py.

Inductive exn : Type :=
| ValueError
| IndexError
| AssertionError
| ZeroDivisionError
| UnboundLocalError
| IOError
| cv2_error.

Inductive result (A : Type) : Type :=
| Ok (a : A)
| Raise (e : exn).

Arguments Ok {A} a.
Arguments Raise {A} e.

Definition rbind {A B} (r : result A) (k : A -> result B) : result B :=
  match r with
  | Ok a => k a
  | Raise e => Raise e
  end.

(** [l[i]] on a Python sequence: a negative index counts from the end,
    an index outside [-len, len) raises [IndexError]. *)
Definition getitem {A} (l : list A) (i : Z) : result A :=
  let n := Z.of_nat (length l) in
  let j := if i <? 0 then i + n else i in
  if (0 <=? j) && (j <? n)
  then match nth_error l (Z.to_nat j) with
       | Some a => Ok a
       | None => Raise IndexError
       end
  else Raise IndexError.

(** [a < b] on floats, idealised. *)
Definition Qltb (a b : Q) : bool :=
  (Qnum a * QDen b <? Qnum b * QDen a)%Z.

(** [[f(x) for x in l]], stopping at the first exception. *)
Fixpoint mapM {A B} (f : A -> result B) (l : list A) : result (list B) :=
  match l with
  | [] => Ok []
  | a :: l' => rbind (f a) (fun b => rbind (mapM f l') (fun bs => Ok (b :: bs)))
  end.

End Py.

Import Py.

Declare Scope result_scope.
Delimit Scope result_scope with result.
Notation "x <-- r ;; k" := (rbind r (fun x => k))
  (at level 100, r at next level, right associativity) : result_scope.
Notation "' p <-- r ;; k" := (rbind r (fun x => let p := x in k))
  (at level 100, p pattern, r at next level, right associativity) : result_scope.

(* ================================================================== *)
(** ** Feature matches *)
(* ================================================================== *)

(** [cv2.KeyPoint]: only the location [pt] is read by the script. *)
Record KeyPoint : Type := mkKeyPoint { pt : Q * Q }.

(** [cv2.DMatch]. *)
Record DMatch : Type := mkDMatch {
  queryIdx : Z;
  trainIdx : Z;
  distance : Q
}.

(** The default of the keyword argument [ratio] of [filter_matches]. *)
Definition filter_matches_default_ratio : Q := 3 # 4.

(** The body of the [for m1, m2 in matches] loop of [filter_matches];
    [kp_pairs] is the list built so far. *)
Fixpoint filter_matches_loop (kp1 kp2 : list KeyPoint)
    (matches : list (DMatch * DMatch)) (ratio : Q)
    (kp_pairs : list (KeyPoint * KeyPoint))
  : result (list (KeyPoint * KeyPoint)) :=
  match matches with
  | [] => Ok kp_pairs
  | (m1, m2) :: rest =>
      if Qltb (distance m1) (distance m2 * ratio)
      then (a <-- getitem kp1 (queryIdx m1) ;;
            b <-- getitem kp2 (trainIdx m1) ;;
            filter_matches_loop kp1 kp2 rest ratio (kp_pairs ++ [(a, b)]))%result
      else filter_matches_loop kp1 kp2 rest ratio kp_pairs
  end.

Definition filter_matches (kp1 kp2 : list KeyPoint)
    (matches : list (DMatch * DMatch)) (ratio : Q)
  : result (list (KeyPoint * KeyPoint)) :=
  filter_matches_loop kp1 kp2 matches ratio [].

(** The correspondence a raw match pair stands for: the template keypoint
    [kp1[m1.queryIdx]] and the source keypoint [kp2[m1.trainIdx]]. *)
Definition correspondence (kp1 kp2 : list KeyPoint) (m : DMatch * DMatch)
  : result (KeyPoint * KeyPoint) :=
  (a <-- getitem kp1 (queryIdx (fst m)) ;;
   b <-- getitem kp2 (trainIdx (fst m)) ;;
   Ok (a, b))%result.

(** The ratio test as the specification words it:
    [distance(nearest) < ratio * distance(second_nearest)]. *)
Definition passes_ratio_test (ratio : Q) (m : DMatch * DMatch) : bool :=
  Qltb (distance (fst m)) (ratio * distance (snd m)).

(** The template keypoint a raw match pair was computed for. *)
Definition template_index (m : DMatch * DMatch) : Z := queryIdx (fst m).

(** Both indices of the nearest neighbour are positions of the keypoint
    lists, as [knnMatch] returns them. *)
Definition indices_in_range (kp1 kp2 : list KeyPoint) (m : DMatch * DMatch)
  : Prop :=
  0 <= queryIdx (fst m) < Z.of_nat (length kp1) /\
  0 <= trainIdx (fst m) < Z.of_nat (length kp2).

(* ================================================================== *)
(** ** Images as numpy arrays *)
(* ================================================================== *)

(** One pixel: its blue, green and red samples. *)
Definition Pixel : Type := (Z * Z * Z)%type.

(** A numpy image array: [shape[:2] = (height, width)] and the pixel at
    row [i], column [j]. *)
Record Image : Type := mkImage {
  height : nat;
  width : nat;
  pixel : nat -> nat -> Pixel
}.

Definition shape (img : Image) : nat * nat := (height img, width img).

(** Two arrays with the same shape and the same pixels. *)
Definition same_image (a b : Image) : Prop :=
  height a = height b /\ width a = width b /\
  forall i j, (i < height a)%nat -> (j < width a)%nat ->
    pixel a i j = pixel b i j.

Module Numpy.

(** [m.swapaxes(0, 1)]. *)
Definition swapaxes (m : Image) : Image :=
  {| height := width m; width := height m;
     pixel := fun i j => pixel m j i |}.

(** [numpy.flipud(m)]: rows in reverse order. *)
Definition flipud (m : Image) : Image :=
  {| height := height m; width := width m;
     pixel := fun i j => pixel m (height m - 1 - i)%nat j |}.

(** [numpy.fliplr(m)]: columns in reverse order. *)
Definition fliplr (m : Image) : Image :=
  {| height := height m; width := width m;
     pixel := fun i j => pixel m i (width m - 1 - j)%nat |}.

(** [numpy.rot90(m, k)]: [k] quarter turns counter-clockwise. *)
Definition rot90 (m : Image) (k : Z) : Image :=
  let k := k mod 4 in
  if k =? 0 then m
  else if k =? 1 then swapaxes (fliplr m)
  else if k =? 2 then fliplr (flipud m)
  else fliplr (swapaxes m).

(** [slice(start, stop).indices(len)] for step 1: a negative bound counts
    from the end, and every bound is then clipped to [0, len]. *)
Definition slice_bound (v : Z) (len : nat) : Z :=
  let n := Z.of_nat len in
  if v <? 0
  then (if v + n <? 0 then 0 else v + n)
  else (if n <? v then n else v).

Definition slice_indices (s : Z * Z) (len : nat) : Z * Z :=
  (slice_bound (fst s) len, slice_bound (snd s) len).

(** [img[r0:r1, c0:c1]] for [rows = (r0, r1)] and [cols = (c0, c1)]:
    basic slicing, which never raises. *)
Definition getitem_slices (img : Image) (rows cols : Z * Z) : Image :=
  let '(r0, r1) := slice_indices rows (height img) in
  let '(c0, c1) := slice_indices cols (width img) in
  {| height := Z.to_nat (r1 - r0);
     width := Z.to_nat (c1 - c0);
     pixel := fun i j => pixel img (Z.to_nat r0 + i)%nat (Z.to_nat c0 + j)%nat |}.

(** Index of the first occurrence of the least element, scanning [l]
    from position [i] with the best candidate [(bi, bv)] so far. *)
Fixpoint argmin_from (l : list Z) (i : nat) (bi : nat) (bv : Z) : nat :=
  match l with
  | [] => bi
  | v :: l' => if v <? bv then argmin_from l' (S i) i v
               else argmin_from l' (S i) bi bv
  end.

Fixpoint argmax_from (l : list Z) (i : nat) (bi : nat) (bv : Z) : nat :=
  match l with
  | [] => bi
  | v :: l' => if bv <? v then argmax_from l' (S i) i v
               else argmax_from l' (S i) bi bv
  end.

(** [numpy.argmin(l)]; an empty sequence raises [ValueError]. *)
Definition argmin (l : list Z) : result nat :=
  match l with
  | [] => Raise ValueError
  | v :: l' => Ok (argmin_from l' 1 0 v)
  end.

Definition argmax (l : list Z) : result nat :=
  match l with
  | [] => Raise ValueError
  | v :: l' => Ok (argmax_from l' 1 0 v)
  end.

(** Conversion of a float to [numpy.int32]: the fraction is dropped
    (rounding toward zero).  A value outside the range of [int32] is
    converted to the least [int32], as the x86 conversion does. *)
Definition int32 (q : Q) : Z :=
  let t := Z.quot (Qnum q) (QDen q) in
  if (- 2 ^ 31 <=? t) && (t <? 2 ^ 31) then t else - 2 ^ 31.

End Numpy.

(** [min(l)] and [max(l)] of Python; an empty sequence raises
    [ValueError]. *)
Definition py_min (l : list Z) : result Z :=
  match l with
  | [] => Raise ValueError
  | v :: l' => Ok (fold_left Z.min l' v)
  end.

Definition py_max (l : list Z) : result Z :=
  match l with
  | [] => Raise ValueError
  | v :: l' => Ok (fold_left Z.max l' v)
  end.

(** [xs, ys = zip] of the unpacked two-element rows of [rows]; unpacking
    the empty zip into two names raises [ValueError]. *)
Definition unzip_rows {A B} (rows : list (A * B)) : result (list A * list B) :=
  match rows with
  | [] => Raise ValueError
  | _ => Ok (map fst rows, map snd rows)
  end.

(** [int(round(x))] of Python 2, where [round] rounds a half away from
    zero. *)
Definition int_round (x : Q) : Z :=
  if Qle_bool 0 x then Qfloor (x + (1 # 2)) else Qceiling (x - (1 # 2)).

Module Cv2.

(** [cv2.flip(img, flipCode)]: 0 flips around the x axis, a positive code
    around the y axis, a negative code around both. *)
Definition flip (img : Image) (flipCode : Z) : Image :=
  if flipCode =? 0 then Numpy.flipud img
  else if 0 <? flipCode then Numpy.fliplr img
  else Numpy.fliplr (Numpy.flipud img).

(** A 3x3 homography matrix, row by row. *)
Record Homography : Type := mkHomography {
  m00 : Q; m01 : Q; m02 : Q;
  m10 : Q; m11 : Q; m12 : Q;
  m20 : Q; m21 : Q; m22 : Q
}.

(** One point through [cv2.perspectiveTransform]: the homogeneous
    coordinate [w] divides the transformed point; a point with [w = 0]
    is sent to the origin (OpenCV tests [|w|] against the machine epsilon,
    which the exact arithmetic here turns into [w = 0]). *)
Definition perspective_point (H : Homography) (p : Q * Q) : Q * Q :=
  let '(x, y) := p in
  let w := (x * m20 H + y * m21 H + m22 H)%Q in
  if Qeq_bool w 0 then (0%Q, 0%Q)
  else (((x * m00 H + y * m01 H + m02 H) * (1 / w))%Q,
        ((x * m10 H + y * m11 H + m12 H) * (1 / w))%Q).

Definition perspectiveTransform (pts : list (Q * Q)) (H : Homography)
  : list (Q * Q) :=
  map (perspective_point H) pts.

End Cv2.

Import Cv2.

(* ================================================================== *)
(** ** Effects: logging, standard output, files and windows *)
(* ================================================================== *)

Inductive Level : Type := DEBUG | INFO | WARNING.

(** The messages of the script, each with the values it formats. *)
Inductive Message : Type :=
| MsgFeatures (template source : nat)
| MsgResizing (from : nat * nat) (to : Z * Z)
| MsgReconstructing
| MsgThumbnailBounds (corners : list (Z * Z))
| MsgMasterDimensions (s : nat * nat)
| MsgThumbnailDimensions (s : nat * nat)
| MsgReconstructedDimensions (s : nat * nat) (rotation : Z)
| MsgFindingHomography
| MsgInliers (inliers matched : nat)
| MsgAttempting (thumbnail source : string)
| MsgFoundMatches (n : nat)
| MsgFoundOnly (n : nat)
| MsgSavedReconstruction (filename : string)
| MsgSavedVisualization (filename : string).

(** A crop box [((y_min, y_max), (x_min, x_max))]. *)
Definition CropBox : Type := ((Z * Z) * (Z * Z))%type.

(** The JSON object printed for a located thumbnail. *)
Record Report : Type := mkReport {
  master_source : string;
  master_dimensions : nat * nat;          (* height, width *)
  thumbnail_source : string;
  thumbnail_dimensions : nat * nat;       (* height, width *)
  bounding_box_height : Z;
  bounding_box_width : Z;
  bounding_box_x : Z;
  bounding_box_y : Z;
  rotation_degrees : Z
}.

Record World : Type := mkWorld {
  log : list (Level * Message);
  stdout : list Report;
  written : list (string * Image);
  shown : list (Message * Image)
}.

Definition M (A : Type) : Type := World -> World * result A.

Definition ret {A} (a : A) : M A := fun w => (w, Ok a).

Definition bind {A B} (c : M A) (k : A -> M B) : M B :=
  fun w => match c w with
           | (w', Ok a) => k a w'
           | (w', Raise e) => (w', Raise e)
           end.

Definition lift {A} (r : result A) : M A := fun w => (w, r).

Declare Scope M_scope.
Delimit Scope M_scope with M.
Notation "x <- c ;; k" := (bind c (fun x => k))
  (at level 100, c at next level, right associativity) : M_scope.
Notation "' p <- c ;; k" := (bind c (fun x => let p := x in k))
  (at level 100, p pattern, c at next level, right associativity) : M_scope.
Notation "c ;; k" := (bind c (fun _ => k))
  (at level 100, right associativity) : M_scope.

Definition logging (l : Level) (m : Message) : M unit :=
  fun w => ({| log := log w ++ [(l, m)]; stdout := stdout w;
               written := written w; shown := shown w |}, Ok tt).

(** [print(json.dumps(report))]. *)
Definition print_json (r : Report) : M unit :=
  fun w => ({| log := log w; stdout := stdout w ++ [r];
               written := written w; shown := shown w |}, Ok tt).

Definition imwrite (filename : string) (img : Image) : M unit :=
  fun w => ({| log := log w; stdout := stdout w;
               written := written w ++ [(filename, img)]; shown := shown w |},
            Ok tt).

(** [cv2.imshow(title, img); cv2.waitKey(); cv2.destroyAllWindows()]. *)
Definition imshow (title : Message) (img : Image) : M unit :=
  fun w => ({| log := log w; stdout := stdout w;
               written := written w; shown := shown w ++ [(title, img)] |},
            Ok tt).

(** [assert c]. *)
Definition assert (c : bool) : M unit :=
  if c then ret tt else lift (Raise AssertionError).

(* ================================================================== *)
(** ** The functions of the script *)
(* ================================================================== *)

Definition high_corners_eqb (a b : nat * nat * nat * nat) : bool :=
  let '(a0, a1, a2, a3) := a in
  let '(b0, b1, b2, b3) := b in
  Nat.eqb a0 b0 && Nat.eqb a1 b1 && Nat.eqb a2 b2 && Nat.eqb a3 b3.

(** The tuple [(argmin(ys), argmax(ys), argmin(xs), argmax(xs))] computed
    by [autorotate_image]. *)
Definition high_corners_of (corners : list (Z * Z))
  : result (nat * nat * nat * nat) :=
  ('(corners_x, corners_y) <-- unzip_rows corners ;;
   a <-- Numpy.argmin corners_y ;;
   b <-- Numpy.argmax corners_y ;;
   c <-- Numpy.argmin corners_x ;;
   d <-- Numpy.argmax corners_x ;;
   Ok (a, b, c, d))%result.

Definition autorotate_image (img : Image) (corners : list (Z * Z))
  : result (Z * Image) :=
  (high_corners <-- high_corners_of corners ;;
   if high_corners_eqb high_corners (0, 1, 3, 1)%nat then
     Ok (90, Numpy.rot90 img 1)
   else if high_corners_eqb high_corners (3, 0, 1, 0)%nat then
     Ok (180, Cv2.flip img (-1))
   else if high_corners_eqb high_corners (1, 3, 0, 2)%nat then
     Ok (270, Numpy.rot90 img 3)
   else
     Ok (0, img))%result.

(** True division [a / b] of two Python integers. *)
Definition true_div (a b : Z) : result Q :=
  if b =? 0 then Raise ZeroDivisionError
  else Ok (inject_Z a / inject_Z b)%Q.

(** The [new_dims = (width, height)] that [fit_image_within] asks
    [cv2.resize] for; [None] when the image is returned as it is. *)
Definition fit_new_dims (current_h current_w : nat) (max_height max_width : Z)
  : result (option (Z * Z)) :=
  if (Z.of_nat current_h <=? max_height) && (Z.of_nat current_w <=? max_width)
  then Ok None
  else
    (scale <-- (if (current_w <? current_h)%nat
                then true_div max_height (Z.of_nat current_h)
                else true_div max_width (Z.of_nat current_w)) ;;
     Ok (Some (int_round (inject_Z (Z.of_nat current_w) * scale),
               int_round (inject_Z (Z.of_nat current_h) * scale))))%result.

(** The corners of a [thumb_w] x [thumb_h] template, as
    [reconstruct_thumbnail] lists them. *)
Definition template_corners (thumb_w thumb_h : nat) : list (Q * Q) :=
  let w := inject_Z (Z.of_nat thumb_w) in
  let h := inject_Z (Z.of_nat thumb_h) in
  [(0%Q, 0%Q); (w, 0%Q); (w, h); (0%Q, h)].

(** [numpy.int32] of the projected corners. *)
Definition projected_corners (thumb_w thumb_h : nat) (H : Homography)
  : list (Z * Z) :=
  map (fun p => (Numpy.int32 (fst p), Numpy.int32 (snd p)))
      (Cv2.perspectiveTransform (template_corners thumb_w thumb_h) H).

(** The default of the keyword argument [downsize_reconstruction] of
    [reconstruct_thumbnail]. *)
Definition reconstruct_thumbnail_default_downsize : bool := false.

(** The local variables of [locate_thumbnail] that outlive its [if]:
    [title] is bound only in the branch with enough matches ([None]: not
    bound); the three others are Python's [None] in the other branch. *)
Record Locals : Type := mkLocals {
  title : option Message;
  new_thumbnail : option Image;
  corners : option CropBox;
  mask : option (list bool)
}.

Section Pipeline.

(** [image_mining.utils.open_image]: the base name and the decoded image
    of a file. *)
Variable open_image : string -> result (string * Image).

(** Descriptor arrays, and [cv2.SURF(400, 5, 5).detectAndCompute(img, None)]. *)
Variable Descriptors : Type.
Variable detectAndCompute : Image -> list KeyPoint * Descriptors.

(** [cv2.BFMatcher(cv2.NORM_L2).knnMatch(desc1, trainDescriptors=desc2, k=2)]. *)
Variable knnMatch : Descriptors -> Descriptors -> result (list (DMatch * DMatch)).

(** [cv2.findHomography(p1, p2, cv2.RANSAC, 5.0)]. *)
Variable cv2_findHomography :
  list (Q * Q) -> list (Q * Q) -> result (Homography * list bool).

(** [cv2.resize(img, dsize, interpolation=cv2.INTER_AREA)]. *)
Variable cv2_resize : Image -> Z * Z -> result Image.

(** [os.path.splitext]. *)
Variable splitext : string -> string * string.

(** The array assembly and the drawing of [visualize_matches]: the two
    images side by side, the fitted reconstruction below the thumbnail,
    the crop box outlined, the matches marked. *)
Variable draw_matches :
  Image -> Image -> option Image -> option CropBox ->
  list (KeyPoint * KeyPoint) -> option (list bool) -> result Image.

Local Open Scope M_scope.

Definition match_images (template source : Image)
  : M (list (KeyPoint * KeyPoint)) :=
  let '(kp1, desc1) := detectAndCompute template in
  let '(kp2, desc2) := detectAndCompute source in
  logging DEBUG (MsgFeatures (length kp1) (length kp2)) ;;
  raw_matches <- lift (knnMatch desc1 desc2) ;;
  kp_pairs <- lift (filter_matches kp1 kp2 raw_matches
                                   filter_matches_default_ratio) ;;
  ret kp_pairs.

Definition fit_image_within (img : Image) (max_height max_width : Z)
  : M Image :=
  let '(current_h, current_w) := shape img in
  new_dims <- lift (fit_new_dims current_h current_w max_height max_width) ;;
  match new_dims with
  | None => ret img
  | Some new_dims =>
      logging INFO (MsgResizing (shape img) new_dims) ;;
      lift (cv2_resize img new_dims)
  end.

Definition reconstruct_thumbnail (thumbnail_image source_image : Image)
    (kp_pairs : list (KeyPoint * KeyPoint)) (H : Homography)
    (downsize_reconstruction : bool)
  : M (Image * CropBox * Z) :=
  logging INFO MsgReconstructing ;;
  let '(thumb_h, thumb_w) := shape thumbnail_image in
  let '(source_h, source_w) := shape source_image in
  let corners := projected_corners thumb_w thumb_h H in
  logging INFO (MsgThumbnailBounds corners) ;;
  ' (corners_x, corners_y) <- lift (unzip_rows corners) ;;
  y_min <- lift (py_min corners_y) ;;
  y_max <- lift (py_max corners_y) ;;
  x_min <- lift (py_min corners_x) ;;
  x_max <- lift (py_max corners_x) ;;
  let new_thumb_crop : CropBox := ((y_min, y_max), (x_min, x_max)) in
  let new_thumb :=
    Numpy.getitem_slices source_image (fst new_thumb_crop) (snd new_thumb_crop) in
  ' (new_thumb_rotation, new_thumb) <- lift (autorotate_image new_thumb corners) ;;
  let '(new_thumb_h, new_thumb_w) := shape new_thumb in
  new_thumb <-
    (if downsize_reconstruction
        && ((thumb_h <? new_thumb_h)%nat || (thumb_w <? new_thumb_w)%nat)
     then fit_image_within new_thumb (Z.of_nat thumb_h) (Z.of_nat thumb_w)
     else ret new_thumb) ;;
  logging INFO (MsgMasterDimensions (shape source_image)) ;;
  logging INFO (MsgThumbnailDimensions (shape thumbnail_image)) ;;
  logging INFO (MsgReconstructedDimensions (shape new_thumb) new_thumb_rotation) ;;
  ret (new_thumb, new_thumb_crop, new_thumb_rotation).

Definition visualize_matches (source_image original_thumbnail : Image)
    (reconstructed_thumbnail : option Image) (corners : option CropBox)
    (kp_pairs : list (KeyPoint * KeyPoint)) (mask : option (list bool))
  : M Image :=
  let '(thumb_h, thumb_w) := shape original_thumbnail in
  reconstructed_thumbnail <-
    match reconstructed_thumbnail with
    | Some r =>
        r' <- fit_image_within r (Z.of_nat thumb_h) (Z.of_nat thumb_w) ;;
        ret (Some r')
    | None => ret None
    end ;;
  lift (draw_matches source_image original_thumbnail reconstructed_thumbnail
                     corners kp_pairs mask).

Definition find_homography (kp_pairs : list (KeyPoint * KeyPoint))
  : M (Homography * list bool) :=
  ' (mkp1, mkp2) <- lift (unzip_rows kp_pairs) ;;
  let p1 := map pt mkp1 in
  let p2 := map pt mkp2 in
  assert (4 <=? length kp_pairs)%nat ;;
  logging DEBUG MsgFindingHomography ;;
  ' (H, mask) <- lift (cv2_findHomography p1 p2) ;;
  logging INFO (MsgInliers (count_occ bool_dec mask true) (length mask)) ;;
  ret (H, mask).

Definition locate_thumbnail (thumbnail_filename source_filename : string)
    (display save_visualization save_reconstruction : bool)
    (reconstruction_format : string)
  : M unit :=
  ' (thumbnail_basename, thumbnail_image) <- lift (open_image thumbnail_filename) ;;
  ' (source_basename, source_image) <- lift (open_image source_filename) ;;
  logging INFO (MsgAttempting thumbnail_filename source_filename) ;;
  kp_pairs <- match_images thumbnail_image source_image ;;
  locals <-
    (if (4 <=? length kp_pairs)%nat then
       let title := MsgFoundMatches (length kp_pairs) in
       logging INFO title ;;
       ' (H, mask) <- find_homography kp_pairs ;;
       ' (new_thumbnail, corners, rotation) <-
          reconstruct_thumbnail thumbnail_image source_image kp_pairs H
                                reconstruct_thumbnail_default_downsize ;;
       print_json
         {| master_source := source_filename;
            master_dimensions := (height source_image, width source_image);
            thumbnail_source := thumbnail_filename;
            thumbnail_dimensions := (height thumbnail_image, width thumbnail_image);
            bounding_box_height := snd (fst corners) - fst (fst corners);
            bounding_box_width := snd (snd corners) - fst (snd corners);
            bounding_box_x := fst (snd corners);
            bounding_box_y := fst (fst corners);
            rotation_degrees := rotation |} ;;
       (if save_reconstruction then
          let new_filename :=
            (thumbnail_basename ++ ".reconstructed." ++ reconstruction_format)%string in
          imwrite new_filename new_thumbnail ;;
          logging INFO (MsgSavedReconstruction new_filename)
        else ret tt) ;;
       ret {| title := Some title; new_thumbnail := Some new_thumbnail;
              corners := Some corners; mask := Some mask |}
     else
       logging WARNING (MsgFoundOnly (length kp_pairs)) ;;
       ret {| title := None; new_thumbnail := None;
              corners := None; mask := None |}) ;;
  vis_image <-
    (if display || save_visualization then
       v <- visualize_matches source_image thumbnail_image
              (new_thumbnail locals) (corners locals) kp_pairs (mask locals) ;;
       ret (Some v)
     else ret None) ;;
  (if save_visualization then
     match vis_image with
     | Some v =>
         let '(root, ext) := splitext thumbnail_filename in
         let vis_filename := (root ++ ".visualized" ++ ext)%string in
         imwrite vis_filename v ;;
         logging INFO (MsgSavedVisualization vis_filename)
     | None => lift (Raise UnboundLocalError)
     end
   else ret tt) ;;
  (if display then
     match title locals, vis_image with
     | Some t, Some v => imshow t v
     | _, _ => lift (Raise UnboundLocalError)
     end
   else ret tt).

End Pipeline.

(* ================================================================== *)
(** ** The command line: [main] *)
(* ================================================================== *)

(** The namespace [parser.parse_args()] returns. *)
Record Args : Type := mkArgs {
  args_files : list string;
  args_save_visualization : bool;
  args_save_thumbnail : bool;
  args_thumbnail_format : string;
  args_display : bool;
  args_debug : bool
}.

(** How [main] ends: it returns, [parser.error] exits with its message, or
    an exception leaves it. *)
Inductive Exit : Type :=
| Finished
| ParserError (message : string)
| Uncaught (e : exn).

(** The world together with the records of [logging.error]: the two file
    names and the exception of each pair that failed. *)
Record MainState : Type := mkMainState {
  world : World;
  error_log : list (string * string * exn)
}.

Section Main.

Variable open_image : string -> result (string * Image).
Variable Descriptors : Type.
Variable detectAndCompute : Image -> list KeyPoint * Descriptors.
Variable knnMatch : Descriptors -> Descriptors -> result (list (DMatch * DMatch)).
Variable cv2_findHomography :
  list (Q * Q) -> list (Q * Q) -> result (Homography * list bool).
Variable cv2_resize : Image -> Z * Z -> result Image.
Variable splitext : string -> string * string.
Variable draw_matches :
  Image -> Image -> option Image -> option CropBox ->
  list (KeyPoint * KeyPoint) -> option (list bool) -> result Image.

(** [pdb.pm()], the post-mortem debugger of the [--debug] option. *)
Variable pdb_pm : World -> World.

(** The loop [for i in xrange(0, len(args.files), 2)] over the files that
    are left; a last file without a partner is an [IndexError] of
    [args.files[i + 1]], outside the [try]. *)
Fixpoint main_loop (args : Args) (files : list string) (st : MainState)
  : MainState * Exit :=
  match files with
  | [] => (st, Finished)
  | [thumbnail] => (st, Uncaught IndexError)
  | thumbnail :: source :: rest =>
      let '(w', r) :=
        locate_thumbnail open_image detectAndCompute knnMatch cv2_findHomography
          cv2_resize splitext draw_matches thumbnail source
          (args_display args) (args_save_visualization args)
          (args_save_thumbnail args) (args_thumbnail_format args) (world st) in
      let st' :=
        match r with
        | Ok _ => {| world := w'; error_log := error_log st |}
        | Raise e =>
            {| world := if args_debug args then pdb_pm w' else w';
               error_log := error_log st ++ [(thumbnail, source, e)] |}
        end in
      main_loop args rest st'
  end.

Definition main (args : Args) (st : MainState) : MainState * Exit :=
  if negb (Nat.eqb (length (args_files args) mod 2) 0) then
    (st, ParserError "Files must be provided in thumbnail and master pairs")
  else if negb (String.eqb (args_thumbnail_format args) "jpg"
                || String.eqb (args_thumbnail_format args) "png") then
    (st, ParserError "Thumbnail format must be either jpg or png")
  else
    main_loop args (args_files args) st.

End Main.

(* ================================================================== *)
(** ** Vocabulary of the properties *)
(* ================================================================== *)

(** [m] is the least (greatest) element of [l]. *)
Definition is_min (m : Z) (l : list Z) : Prop :=
  In m l /\ Forall (fun v => m <= v) l.

Definition is_max (m : Z) (l : list Z) : Prop :=
  In m l /\ Forall (fun v => v <= m) l.

(** [box] is the axis-aligned bounding box of the [x, y] points
    [corners]: [(min y, max y), (min x, max x)]. *)
Definition bounding_box_of (corners : list (Z * Z)) (box : CropBox) : Prop :=
  is_min (fst (fst box)) (map snd corners) /\
  is_max (snd (fst box)) (map snd corners) /\
  is_min (fst (snd box)) (map fst corners) /\
  is_max (snd (snd box)) (map fst corners).

(** The crop box lies within the pixel bounds of [source_image]: rows in
    [0, source_height), columns in [0, source_width), as slice bounds. *)
Definition clamped_to (source_image : Image) (crop : CropBox) : Prop :=
  0 <= fst (fst crop) /\ snd (fst crop) <= Z.of_nat (height source_image) /\
  0 <= fst (snd crop) /\ snd (snd crop) <= Z.of_nat (width source_image).

Definition positive_area (crop : CropBox) : Prop :=
  fst (fst crop) < snd (fst crop) /\ fst (snd crop) < snd (snd crop).

(** The failure modes of the Region Reconstructor as the specification
    words them: a reconstruction that is not reported as failed has a crop
    box clamped to the bounds of the source, of positive area, and a region
    that is not empty. *)
Definition clamps_or_fails (run : World -> World * result (Image * CropBox * Z))
    (source_image : Image) : Prop :=
  forall w w' img crop rotation,
    run w = (w', Ok (img, crop, rotation)) ->
    clamped_to source_image crop /\ positive_area crop /\
    (0 < height img)%nat /\ (0 < width img)%nat.

(** [r] is the position of the first least (greatest) element of [l]. *)
Definition first_min_at (l : list Z) (r : nat) : Prop :=
  (r < length l)%nat /\
  (forall k, (k < length l)%nat -> nth r l 0 <= nth k l 0) /\
  (forall k, (k < r)%nat -> nth r l 0 < nth k l 0).

Definition first_max_at (l : list Z) (r : nat) : Prop :=
  (r < length l)%nat /\
  (forall k, (k < length l)%nat -> nth k l 0 <= nth r l 0) /\
  (forall k, (k < r)%nat -> nth k l 0 < nth r l 0).

(** The log record of a saved visualization, the only record the
    script writes after the branch on the number of matches. *)
Definition is_saved_visualization (r : Level * Message) : Prop :=
  exists filename, r = (INFO, MsgSavedVisualization filename).

(** Every report a computation prints satisfies [P]. *)
Definition emits (P : Report -> Prop) {A} (c : M A) : Prop :=
  forall w, exists new, stdout (fst (c w)) = stdout w ++ new /\ Forall P new.

(** Every value a computation returns satisfies [Q]. *)
Definition returns {A} (Q : A -> Prop) (c : M A) : Prop :=
  forall w w' a, c w = (w', Ok a) -> Q a.

(** The height and the width of the bounding box of a report are not
    negative. *)
Definition bounding_box_nonnegative (r : Report) : Prop :=
  0 <= bounding_box_height r /\ 0 <= bounding_box_width r.

(** The bounds of a crop box are in order. *)
Definition crop_ordered (crop : CropBox) : Prop :=
  fst (fst crop) <= snd (fst crop) /\ fst (snd crop) <= snd (snd crop).

(** The world after the log records [msgs] were appended. *)
Definition logged (w : World) (msgs : list (Level * Message)) : World :=
  {| log := log w ++ msgs; stdout := stdout w;
     written := written w; shown := shown w |}.

(** What the last step of [reconstruct_thumbnail] does with the
    rotation-normalised region [img], the crop box and the rotation. *)
Definition reconstruct_finish (cv2_resize : Image -> Z * Z -> result Image)
    (thumbnail_image source_image : Image)
    (downsize_reconstruction : bool) (img : Image) (crop : CropBox) (rotation : Z)
  : M (Image * CropBox * Z) :=
  (new_thumb <-
     (if downsize_reconstruction
         && ((height thumbnail_image <? height img)%nat
             || (width thumbnail_image <? width img)%nat)
      then fit_image_within cv2_resize img (Z.of_nat (height thumbnail_image))
                            (Z.of_nat (width thumbnail_image))
      else ret img) ;;
   logging INFO (MsgMasterDimensions (shape source_image)) ;;
   logging INFO (MsgThumbnailDimensions (shape thumbnail_image)) ;;
   logging INFO (MsgReconstructedDimensions (shape new_thumb) rotation) ;;
   ret (new_thumb, crop, rotation))%M.

(** The world after log records, reports, files and windows were added. *)
Definition extended (w : World) (msgs : list (Level * Message))
    (reports : list Report) (files : list (string * Image))
    (windows : list (Message * Image)) : World :=
  {| log := log w ++ msgs; stdout := stdout w ++ reports;
     written := written w ++ files; shown := shown w ++ windows |}.

(** The warning of a pair with too few matches. *)
Definition is_found_only (r : Level * Message) : bool :=
  match r with
  | (WARNING, MsgFoundOnly _) => true
  | _ => false
  end.

Definition found_only_count (msgs : list (Level * Message)) : nat :=
  length (filter is_found_only msgs).

(** The four rotation classes. *)
Definition rotation_class (r : Z) : Prop :=
  r = 0 \/ r = 90 \/ r = 180 \/ r = 270.

(** [i] is a valid index of a Python sequence of length [n]. *)
Definition valid_index (n : nat) (i : Z) : Prop :=
  - Z.of_nat n <= i < Z.of_nat n.

(** Both indices of the nearest neighbour can be looked up in the
    keypoint lists. *)
Definition lookup_valid (kp1 kp2 : list KeyPoint) (m : DMatch * DMatch) : Prop :=
  valid_index (length kp1) (queryIdx (fst m)) /\
  valid_index (length kp2) (trainIdx (fst m)).

(** A computation prints at most [n] reports, each satisfying [P]. *)
Definition emits_at_most (n : nat) (P : Report -> Prop) {A} (c : M A) : Prop :=
  forall w, exists new, stdout (fst (c w)) = stdout w ++ new /\
                        Forall P new /\ (length new <= n)%nat.

(** The report [locate_thumbnail] prints for a crop box and a rotation. *)
Definition report_of (thumbnail_filename source_filename : string)
    (thumbnail_image source_image : Image) (crop : CropBox) (rotation : Z)
  : Report :=
  {| master_source := source_filename;
     master_dimensions := (height source_image, width source_image);
     thumbnail_source := thumbnail_filename;
     thumbnail_dimensions := (height thumbnail_image, width thumbnail_image);
     bounding_box_height := snd (fst crop) - fst (fst crop);
     bounding_box_width := snd (snd crop) - fst (snd crop);
     bounding_box_x := fst (snd crop);
     bounding_box_y := fst (fst crop);
     rotation_degrees := rotation |}.

(* ================================================================== *)
(** ** Sample inputs *)
(* ================================================================== *)

Module Sample.

Definition kp (x y : Z) : KeyPoint := mkKeyPoint (inject_Z x, inject_Z y).

(** Keypoints of a template and of a source image. *)
Definition kp1 : list KeyPoint := [kp 1 1; kp 5 2; kp 3 7; kp 8 8].
Definition kp2 : list KeyPoint := [kp 11 11; kp 15 12; kp 13 17; kp 18 18].

Definition dm (q t : Z) (d : Q) : DMatch := mkDMatch q t d.

(** The two nearest neighbours of each template keypoint; the second
    entry fails the ratio test at 0.75 and passes it at 0.9. *)
Definition raw_matches : list (DMatch * DMatch) :=
  [ (dm 0 0 1, dm 0 1 2);
    (dm 1 1 3, dm 1 2 (7 # 2));
    (dm 2 2 1, dm 2 0 4);
    (dm 3 3 2, dm 3 1 5) ].

(** An image whose pixel at row [i], column [j] records [i] and [j]. *)
Definition grid (h w : nat) : Image :=
  mkImage h w (fun i j => (Z.of_nat i, Z.of_nat j, 0)).

(** The homography of the translation by [(tx, ty)]. *)
Definition translation (tx ty : Z) : Homography :=
  mkHomography 1 0 (inject_Z tx) 0 1 (inject_Z ty) 0 0 1.

(** A resampler standing for [cv2.resize]: nearest neighbour, and an
    error for a destination without area. *)
Definition resize_nearest (img : Image) (dsize : Z * Z) : result Image :=
  let '(w, h) := dsize in
  if (0 <? w) && (0 <? h) then
    Ok (mkImage (Z.to_nat h) (Z.to_nat w)
          (fun i j => pixel img (i * height img / Z.to_nat h)%nat
                                (j * width img / Z.to_nat w)%nat))
  else Raise cv2_error.

Definition world0 : World := mkWorld [] [] [] [].

(** An estimator standing for [cv2.findHomography]: a fixed translation
    with every correspondence an inlier. *)
Definition find_translation (p1 p2 : list (Q * Q))
  : result (Homography * list bool) :=
  Ok (translation 30 40, map (fun _ => true) p1).

(** Correspondences: two, and four. *)
Definition two_pairs : list (KeyPoint * KeyPoint) :=
  [(kp 1 1, kp 11 11); (kp 5 2, kp 15 12)].
Definition four_pairs : list (KeyPoint * KeyPoint) :=
  [(kp 1 1, kp 11 11); (kp 5 2, kp 15 12);
   (kp 3 7, kp 13 17); (kp 8 8, kp 18 18)].

(** Collaborators of a run of [locate_thumbnail]: a decoder knowing two
    files, a detector that finds the sample keypoints, and two matchers,
    one returning the sample matches (three of which pass the ratio
    test) and one returning four unambiguous matches. *)
Definition open_image (filename : string) : result (string * Image) :=
  if String.eqb filename "thumb.jpg" then Ok ("thumb"%string, grid 20 20)
  else if String.eqb filename "master.jpg" then Ok ("master"%string, grid 100 100)
  else Raise IOError.

Definition detectAndCompute (img : Image) : list KeyPoint * nat :=
  if (height img <=? 20)%nat then (kp1, 1%nat) else (kp2, 2%nat).

Definition knn_ambiguous (desc1 desc2 : nat) : result (list (DMatch * DMatch)) :=
  Ok raw_matches.

Definition knn_clear (desc1 desc2 : nat) : result (list (DMatch * DMatch)) :=
  Ok [ (dm 0 0 1, dm 0 1 2); (dm 1 1 1, dm 1 2 3);
       (dm 2 2 1, dm 2 0 4); (dm 3 3 2, dm 3 1 5) ].

Definition splitext (filename : string) : string * string :=
  (substring 0 (String.length filename - 4) filename,
   substring (String.length filename - 4) 4 filename).

(** A matcher and an estimator that fail. *)
Definition knn_error (desc1 desc2 : nat) : result (list (DMatch * DMatch)) :=
  Raise cv2_error.

Definition find_error (p1 p2 : list (Q * Q)) : result (Homography * list bool) :=
  Raise cv2_error.

(** A debugger that leaves the world as it is. *)
Definition pdb_pm (w : World) : World := w.

(** The state before [main] runs. *)
Definition state0 : MainState := mkMainState (mkWorld [] [] [] []) [].

(** A drawing that returns the source image. *)
Definition draw_matches (source_image original_thumbnail : Image)
    (reconstructed_thumbnail : option Image) (corners : option CropBox)
    (kp_pairs : list (KeyPoint * KeyPoint)) (mask : option (list bool))
  : result Image :=
  Ok source_image.

(** Corner lists, as [x, y] rows, with the three recognised orderings
    and an axis-aligned one. *)
Definition corners_90 : list (Z * Z) := [(5, 0); (10, 10); (5, 5); (0, 5)].
Definition corners_180 : list (Z * Z) := [(10, 10); (0, 5); (5, 5); (5, 0)].
Definition corners_270 : list (Z * Z) := [(0, 5); (5, 0); (10, 5); (5, 10)].
Definition corners_upright : list (Z * Z) := [(0, 0); (10, 0); (10, 10); (0, 10)].

End Sample.

(* ================================================================== *)
(** ** Properties of [filter_matches] *)
(* ================================================================== *)

Section FilterMatches.

Variables kp1 kp2 : list KeyPoint.

Lemma Qltb_lt (a b : Q) : Qltb a b = true <-> (a < b)%Q.
Proof. unfold Qltb, Qlt. apply Z.ltb_lt. Qed.

Lemma Qmult_comm_eq (a b : Q) : (a * b)%Q = (b * a)%Q.
Proof.
  unfold Qmult. f_equal; [apply Z.mul_comm | apply Pos.mul_comm].
Qed.

(** The test of the loop is the ratio test. *)
Lemma loop_test_is_ratio_test (ratio : Q) (m1 m2 : DMatch) :
  Qltb (distance m1) (distance m2 * ratio) = passes_ratio_test ratio (m1, m2).
Proof. unfold passes_ratio_test; simpl. now rewrite Qmult_comm_eq. Qed.

(** The accumulator of the loop is a prefix of its result. *)
Lemma filter_matches_loop_spec (ratio : Q) (matches : list (DMatch * DMatch)) :
  forall kp_pairs,
    filter_matches_loop kp1 kp2 matches ratio kp_pairs =
    rbind (mapM (correspondence kp1 kp2) (filter (passes_ratio_test ratio) matches))
          (fun l => Ok (kp_pairs ++ l)).
Proof.
  induction matches as [|[m1 m2] rest IH]; intros acc; simpl.
  - now rewrite app_nil_r.
  - rewrite loop_test_is_ratio_test.
    destruct (passes_ratio_test ratio (m1, m2)); [|apply IH].
    simpl. unfold correspondence; simpl.
    destruct (getitem kp1 (queryIdx m1)) as [a|e]; simpl; [|reflexivity].
    destruct (getitem kp2 (trainIdx m1)) as [b|e]; simpl; [|reflexivity].
    rewrite IH.
    destruct (mapM _ _) as [l|e]; simpl; [|reflexivity].
    now rewrite <- app_assoc.
Qed.

Lemma filter_matches_spec (ratio : Q) (matches : list (DMatch * DMatch)) :
  filter_matches kp1 kp2 matches ratio =
  mapM (correspondence kp1 kp2) (filter (passes_ratio_test ratio) matches).
Proof.
  unfold filter_matches. rewrite filter_matches_loop_spec.
  now destruct (mapM _ _).
Qed.

Lemma getitem_in_range {A} (l : list A) (i : Z) :
  0 <= i < Z.of_nat (length l) -> exists a, getitem l i = Ok a.
Proof.
  intros Hi. unfold getitem.
  replace (i <? 0) with false by (symmetry; apply Z.ltb_ge; lia).
  replace (0 <=? i) with true by (symmetry; apply Z.leb_le; lia).
  replace (i <? Z.of_nat (length l)) with true by (symmetry; apply Z.ltb_lt; lia).
  simpl. destruct (nth_error l (Z.to_nat i)) eqn:E; [eauto|].
  apply nth_error_None in E. lia.
Qed.

Lemma correspondence_in_range (m : DMatch * DMatch) :
  indices_in_range kp1 kp2 m -> exists p, correspondence kp1 kp2 m = Ok p.
Proof.
  intros [Hq Ht]. unfold correspondence.
  destruct (getitem_in_range kp1 Hq) as [a ->].
  destruct (getitem_in_range kp2 Ht) as [b ->].
  simpl. eauto.
Qed.

Lemma mapM_total {A B} (f : A -> result B) (l : list A) :
  Forall (fun a => exists b, f a = Ok b) l -> exists bs, mapM f l = Ok bs.
Proof.
  induction 1 as [|a l [b Hb] _ [bs IH]]; simpl; [eauto|].
  rewrite Hb, IH. simpl. eauto.
Qed.

(** A larger threshold lets every match through that a smaller one does,
    when the second-nearest distance is not negative. *)
Lemma ratio_test_monotone (r1 r2 : Q) (m : DMatch * DMatch) :
  (r1 <= r2)%Q -> (0 <= distance (snd m))%Q ->
  passes_ratio_test r1 m = true -> passes_ratio_test r2 m = true.
Proof.
  unfold passes_ratio_test. intros Hr Hd H1.
  apply Qltb_lt in H1. apply Qltb_lt.
  eapply Qlt_le_trans; [exact H1|].
  apply Qmult_le_compat_r; assumption.
Qed.

Lemma mapM_filter_monotone (r1 r2 : Q) (matches : list (DMatch * DMatch)) :
  (r1 <= r2)%Q ->
  Forall (fun m => 0 <= distance (snd m))%Q matches ->
  forall l2,
    mapM (correspondence kp1 kp2) (filter (passes_ratio_test r2) matches) = Ok l2 ->
    exists l1,
      mapM (correspondence kp1 kp2) (filter (passes_ratio_test r1) matches) = Ok l1 /\
      (length l1 <= length l2)%nat.
Proof.
  intros Hr Hd. induction Hd as [|m rest Hm _ IH]; simpl; intros l2 H2.
  - exists []. split; [reflexivity|]. simpl. lia.
  - destruct (passes_ratio_test r2 m) eqn:T2.
    + simpl in H2.
      destruct (correspondence kp1 kp2 m) as [p|e] eqn:Ec; simpl in H2; [|discriminate].
      destruct (mapM _ (filter (passes_ratio_test r2) rest)) as [bs|e] eqn:E2;
        simpl in H2; [|discriminate].
      injection H2 as <-.
      destruct (IH bs eq_refl) as [l1 [E1 Hlen]].
      destruct (passes_ratio_test r1 m); simpl.
      * rewrite Ec, E1. simpl. eexists; split; [reflexivity|]. simpl. lia.
      * exists l1. split; [assumption|]. simpl. lia.
    + destruct (passes_ratio_test r1 m) eqn:T1.
      * apply (ratio_test_monotone m Hr Hm) in T1. congruence.
      * now apply IH.
Qed.

Lemma StronglySorted_map_filter {A B} (R : B -> B -> Prop) (f : A -> B)
    (p : A -> bool) (l : list A) :
  StronglySorted R (map f l) -> StronglySorted R (map f (filter p l)).
Proof.
  induction l as [|a l IH]; simpl; intros Hs; [constructor|].
  inversion Hs as [|? ? Hs' Ha]; subst.
  destruct (p a); simpl; [|now apply IH].
  constructor; [now apply IH|].
  rewrite Forall_forall in *. intros y Hy.
  apply in_map_iff in Hy as [x [<- Hx]].
  apply filter_In in Hx as [Hx _].
  apply Ha. now apply in_map.
Qed.

(** A run that returns lists, position by position, the correspondences
    of the matches it mapped. *)
Lemma mapM_Forall2 {A B} (f : A -> result B) (l : list A) :
  forall bs, mapM f l = Ok bs -> Forall2 (fun a b => f a = Ok b) l bs.
Proof.
  induction l as [|a l IH]; simpl; intros bs H.
  - injection H as <-. constructor.
  - destruct (f a) as [b|e] eqn:Ef; simpl in H; [|discriminate].
    destruct (mapM f l) as [bs'|e]; simpl in H; [|discriminate].
    injection H as <-. constructor; auto.
Qed.

(** With all indices in range the loop never raises. *)
Lemma filter_matches_total (ratio : Q) (matches : list (DMatch * DMatch)) :
  Forall (indices_in_range kp1 kp2) matches ->
  exists kp_pairs, filter_matches kp1 kp2 matches ratio = Ok kp_pairs.
Proof.
  intros Hr. rewrite filter_matches_spec. apply mapM_total.
  apply Forall_forall. intros m Hm. apply filter_In in Hm as [Hm _].
  rewrite Forall_forall in Hr. apply correspondence_in_range. now apply Hr.
Qed.

End FilterMatches.

(** C4: [filter_matches] keeps the correspondence of a raw pair [(m1, m2)]
    exactly when [distance m1 < ratio * distance m2]; the pairs it returns
    are the correspondences of the kept matches, one by one and in the order
    of [matches], so that matches listed by increasing template keypoint
    index yield correspondences in that order; a run whose indices are all
    positions of the keypoint lists returns; and the default ratio is 0.75. *)
Theorem filter_matches_ratio_test
    (kp1 kp2 : list KeyPoint) (matches : list (DMatch * DMatch)) (ratio : Q) :
  let kept := filter (passes_ratio_test ratio) matches in
  (forall m, In m kept <->
             In m matches /\ (distance (fst m) < ratio * distance (snd m))%Q) /\
  filter_matches kp1 kp2 matches ratio = mapM (correspondence kp1 kp2) kept /\
  (forall kp_pairs,
      filter_matches kp1 kp2 matches ratio = Ok kp_pairs ->
      Forall2 (fun m p => correspondence kp1 kp2 m = Ok p) kept kp_pairs) /\
  (Forall (indices_in_range kp1 kp2) matches ->
   exists kp_pairs, filter_matches kp1 kp2 matches ratio = Ok kp_pairs) /\
  (StronglySorted Z.lt (map template_index matches) ->
   StronglySorted Z.lt (map template_index kept)) /\
  filter_matches_default_ratio = (3 # 4)%Q.
Proof.
  intros kept. subst kept.
  split; [|split; [|split; [|split; [|split]]]].
  - intros m. rewrite filter_In. unfold passes_ratio_test.
    now rewrite Qltb_lt.
  - apply filter_matches_spec.
  - intros kp_pairs H. rewrite filter_matches_spec in H.
    now apply mapM_Forall2.
  - apply filter_matches_total.
  - apply StronglySorted_map_filter.
  - reflexivity.
Qed.

Lemma filter_matches_ratio_test_witness :
  Forall (indices_in_range Sample.kp1 Sample.kp2) Sample.raw_matches /\
  StronglySorted Z.lt (map template_index Sample.raw_matches) /\
  StronglySorted Z.lt
    (map template_index (filter (passes_ratio_test (3 # 4)) Sample.raw_matches)) /\
  exists kp_pairs,
    filter_matches Sample.kp1 Sample.kp2 Sample.raw_matches (3 # 4) = Ok kp_pairs /\
    Forall2 (fun m p => correspondence Sample.kp1 Sample.kp2 m = Ok p)
            (filter (passes_ratio_test (3 # 4)) Sample.raw_matches) kp_pairs.
Proof.
  assert (Hr : Forall (indices_in_range Sample.kp1 Sample.kp2) Sample.raw_matches)
    by (repeat constructor; simpl; lia).
  assert (Hs : StronglySorted Z.lt (map template_index Sample.raw_matches))
    by (repeat constructor).
  destruct (filter_matches_ratio_test Sample.kp1 Sample.kp2 Sample.raw_matches (3 # 4))
    as (_ & _ & Hpairs & Htotal & Hsorted & _).
  destruct (Htotal Hr) as [kp_pairs Hk].
  split; [exact Hr|]. split; [exact Hs|]. split; [exact (Hsorted Hs)|].
  exists kp_pairs. split; [exact Hk | exact (Hpairs kp_pairs Hk)].
Defined.

(** C8: for a fixed list of raw matches whose second-nearest distances are
    not negative and two thresholds [r1 <= r2], whenever [filter_matches]
    returns at [r2] it returns at [r1] with no more correspondences; and it
    returns at every threshold when the indices of the matches are
    positions of the keypoint lists. *)
Theorem filter_matches_monotone
    (kp1 kp2 : list KeyPoint) (matches : list (DMatch * DMatch)) (r1 r2 : Q) :
  (r1 <= r2)%Q ->
  Forall (fun m => 0 <= distance (snd m))%Q matches ->
  (forall l2,
      filter_matches kp1 kp2 matches r2 = Ok l2 ->
      exists l1, filter_matches kp1 kp2 matches r1 = Ok l1 /\
                 (length l1 <= length l2)%nat) /\
  (Forall (indices_in_range kp1 kp2) matches ->
   exists l1 l2,
     filter_matches kp1 kp2 matches r1 = Ok l1 /\
     filter_matches kp1 kp2 matches r2 = Ok l2 /\
     (length l1 <= length l2)%nat).
Proof.
  intros Hr Hd.
  assert (Hmono : forall l2,
             filter_matches kp1 kp2 matches r2 = Ok l2 ->
             exists l1, filter_matches kp1 kp2 matches r1 = Ok l1 /\
                        (length l1 <= length l2)%nat).
  { intros l2. rewrite !filter_matches_spec. now apply mapM_filter_monotone. }
  split; [exact Hmono|].
  intros Hrange.
  destruct (filter_matches_total r2 Hrange) as [l2 H2].
  destruct (Hmono l2 H2) as [l1 [H1 Hlen]].
  exists l1, l2. auto.
Qed.

Lemma filter_matches_monotone_witness :
  (3 # 4 <= 9 # 10)%Q /\
  Forall (fun m => 0 <= distance (snd m))%Q Sample.raw_matches /\
  exists l1 l2,
    filter_matches Sample.kp1 Sample.kp2 Sample.raw_matches (3 # 4) = Ok l1 /\
    filter_matches Sample.kp1 Sample.kp2 Sample.raw_matches (9 # 10) = Ok l2 /\
    (length l1 <= length l2)%nat.
Proof.
  assert (Hr : (3 # 4 <= 9 # 10)%Q) by (unfold Qle; simpl; lia).
  assert (Hd : Forall (fun m => 0 <= distance (snd m))%Q Sample.raw_matches)
    by (repeat constructor; unfold Qle; simpl; lia).
  assert (Hi : Forall (indices_in_range Sample.kp1 Sample.kp2) Sample.raw_matches)
    by (repeat constructor; simpl; lia).
  split; [exact Hr|]. split; [exact Hd|].
  exact (proj2 (filter_matches_monotone Sample.kp1 Sample.kp2 Hr Hd) Hi).
Defined.

(** On the sample, three matches survive at 0.75 and four at 0.9. *)
Example filter_matches_sample_counts :
  filter_matches Sample.kp1 Sample.kp2 Sample.raw_matches (3 # 4)
  = Ok [(Sample.kp 1 1, Sample.kp 11 11); (Sample.kp 3 7, Sample.kp 13 17);
        (Sample.kp 8 8, Sample.kp 18 18)] /\
  filter_matches Sample.kp1 Sample.kp2 Sample.raw_matches (9 # 10)
  = Ok [(Sample.kp 1 1, Sample.kp 11 11); (Sample.kp 5 2, Sample.kp 15 12);
        (Sample.kp 3 7, Sample.kp 13 17); (Sample.kp 8 8, Sample.kp 18 18)].
Proof. split; reflexivity. Qed.

(** The ratio test is monotone in the threshold only for distances that
    are not negative: with a second-nearest distance of -1 the pair passes
    at threshold 1 and fails at threshold 2. *)
Remark ratio_test_negative_distance :
  let m := (Sample.dm 0 0 (- 3 # 2), Sample.dm 0 1 (- 1 # 1)) in
  passes_ratio_test 1 m = true /\ passes_ratio_test 2 m = false.
Proof. split; reflexivity. Qed.

(* ================================================================== *)
(** ** Properties of the numpy and Python helpers *)
(* ================================================================== *)

Section MinMax.

Lemma fold_min_spec (l : list Z) :
  forall v, is_min (fold_left Z.min l v) (v :: l).
Proof.
  induction l as [|a l IH]; intros v; simpl.
  - split; [now left|]. constructor; [lia|constructor].
  - destruct (IH (Z.min v a)) as [Hin Hall].
    inversion Hall as [|? ? Hhd Htl]; subst.
    split.
    + destruct Hin as [Hin|Hin]; [|now right; right].
      rewrite <- Hin. destruct (Z.min_spec v a) as [[_ ->]|[_ ->]]; simpl; auto.
    + constructor; [lia|]. constructor; [lia|assumption].
Qed.

Lemma fold_max_spec (l : list Z) :
  forall v, is_max (fold_left Z.max l v) (v :: l).
Proof.
  induction l as [|a l IH]; intros v; simpl.
  - split; [now left|]. constructor; [lia|constructor].
  - destruct (IH (Z.max v a)) as [Hin Hall].
    inversion Hall as [|? ? Hhd Htl]; subst.
    split.
    + destruct Hin as [Hin|Hin]; [|now right; right].
      rewrite <- Hin. destruct (Z.max_spec v a) as [[_ ->]|[_ ->]]; simpl; auto.
    + constructor; [lia|]. constructor; [lia|assumption].
Qed.

Lemma py_min_spec (l : list Z) (m : Z) : py_min l = Ok m -> is_min m l.
Proof.
  destruct l as [|v l]; simpl; [discriminate|].
  intros H. injection H as <-. apply fold_min_spec.
Qed.

Lemma py_max_spec (l : list Z) (m : Z) : py_max l = Ok m -> is_max m l.
Proof.
  destruct l as [|v l]; simpl; [discriminate|].
  intros H. injection H as <-. apply fold_max_spec.
Qed.

Lemma py_min_total (l : list Z) : l <> [] -> exists m, py_min l = Ok m.
Proof. destruct l; [congruence|]. simpl. eauto. Qed.

Lemma py_max_total (l : list Z) : l <> [] -> exists m, py_max l = Ok m.
Proof. destruct l; [congruence|]. simpl. eauto. Qed.

Lemma is_min_le_is_max (a b : Z) (l : list Z) :
  is_min a l -> is_max b l -> a <= b.
Proof.
  intros [Ha _] [_ Hb]. rewrite Forall_forall in Hb. now apply Hb.
Qed.

Lemma is_min_unique (a b : Z) (l : list Z) : is_min a l -> is_min b l -> a = b.
Proof.
  intros [Ha Hla] [Hb Hlb]. rewrite Forall_forall in Hla, Hlb.
  specialize (Hla _ Hb). specialize (Hlb _ Ha). lia.
Qed.

Lemma is_max_unique (a b : Z) (l : list Z) : is_max a l -> is_max b l -> a = b.
Proof.
  intros [Ha Hla] [Hb Hlb]. rewrite Forall_forall in Hla, Hlb.
  specialize (Hla _ Hb). specialize (Hlb _ Ha). lia.
Qed.

End MinMax.

Section ArgMin.

Lemma argmin_from_spec (l : list Z) :
  forall (pre : list Z) (bi : nat) (bv : Z),
    (bi < length pre)%nat ->
    nth bi pre 0 = bv ->
    (forall k, (k < length pre)%nat -> bv <= nth k pre 0) ->
    (forall k, (k < bi)%nat -> bv < nth k pre 0) ->
    first_min_at (pre ++ l) (Numpy.argmin_from l (length pre) bi bv).
Proof.
  induction l as [|v l IH]; intros pre bi bv Hbi Hbv Hmin Hfirst; simpl.
  - rewrite app_nil_r. unfold first_min_at. rewrite Hbv. auto.
  - replace (pre ++ v :: l) with ((pre ++ [v]) ++ l)
      by (now rewrite <- app_assoc).
    replace (S (length pre)) with (length (pre ++ [v]))
      by (rewrite length_app; simpl; lia).
    destruct (v <? bv) eqn:E.
    + apply Z.ltb_lt in E. apply IH.
      * rewrite length_app; simpl; lia.
      * now rewrite nth_middle.
      * intros k Hk. rewrite length_app in Hk; simpl in Hk.
        destruct (Nat.eq_dec k (length pre)) as [->|Hne].
        -- rewrite nth_middle. lia.
        -- rewrite app_nth1 by lia. specialize (Hmin k). lia.
      * intros k Hk. rewrite app_nth1 by lia. specialize (Hmin k). lia.
    + apply Z.ltb_ge in E. apply IH.
      * rewrite length_app; simpl; lia.
      * now rewrite app_nth1 by lia.
      * intros k Hk. rewrite length_app in Hk; simpl in Hk.
        destruct (Nat.eq_dec k (length pre)) as [->|Hne].
        -- rewrite nth_middle. lia.
        -- rewrite app_nth1 by lia. apply Hmin. lia.
      * intros k Hk. rewrite app_nth1 by lia. now apply Hfirst.
Qed.

Lemma argmax_from_spec (l : list Z) :
  forall (pre : list Z) (bi : nat) (bv : Z),
    (bi < length pre)%nat ->
    nth bi pre 0 = bv ->
    (forall k, (k < length pre)%nat -> nth k pre 0 <= bv) ->
    (forall k, (k < bi)%nat -> nth k pre 0 < bv) ->
    first_max_at (pre ++ l) (Numpy.argmax_from l (length pre) bi bv).
Proof.
  induction l as [|v l IH]; intros pre bi bv Hbi Hbv Hmax Hfirst; simpl.
  - rewrite app_nil_r. unfold first_max_at. rewrite Hbv. auto.
  - replace (pre ++ v :: l) with ((pre ++ [v]) ++ l)
      by (now rewrite <- app_assoc).
    replace (S (length pre)) with (length (pre ++ [v]))
      by (rewrite length_app; simpl; lia).
    destruct (bv <? v) eqn:E.
    + apply Z.ltb_lt in E. apply IH.
      * rewrite length_app; simpl; lia.
      * now rewrite nth_middle.
      * intros k Hk. rewrite length_app in Hk; simpl in Hk.
        destruct (Nat.eq_dec k (length pre)) as [->|Hne].
        -- rewrite nth_middle. lia.
        -- rewrite app_nth1 by lia. specialize (Hmax k). lia.
      * intros k Hk. rewrite app_nth1 by lia. specialize (Hmax k). lia.
    + apply Z.ltb_ge in E. apply IH.
      * rewrite length_app; simpl; lia.
      * now rewrite app_nth1 by lia.
      * intros k Hk. rewrite length_app in Hk; simpl in Hk.
        destruct (Nat.eq_dec k (length pre)) as [->|Hne].
        -- rewrite nth_middle. lia.
        -- rewrite app_nth1 by lia. apply Hmax. lia.
      * intros k Hk. rewrite app_nth1 by lia. now apply Hfirst.
Qed.

(** [numpy.argmin] returns the position of the first least element. *)
Lemma argmin_spec (l : list Z) (r : nat) :
  Numpy.argmin l = Ok r -> first_min_at l r.
Proof.
  destruct l as [|v l]; simpl; [discriminate|].
  intros E. injection E as <-.
  apply (argmin_from_spec l [v] (bi := 0)); simpl; try lia; auto.
  intros [|k] Hk; simpl in *; lia.
Qed.

Lemma argmax_spec (l : list Z) (r : nat) :
  Numpy.argmax l = Ok r -> first_max_at l r.
Proof.
  destruct l as [|v l]; simpl; [discriminate|].
  intros E. injection E as <-.
  apply (argmax_from_spec l [v] (bi := 0)); simpl; try lia; auto.
  intros [|k] Hk; simpl in *; lia.
Qed.

End ArgMin.

Section Rotations.

Variable img : Image.

(** One quarter turn: the shape is transposed and row [i] of the result
    is column [width - 1 - i] of the array. *)
Lemma rot90_1_pixels :
  height (Numpy.rot90 img 1) = width img /\
  width (Numpy.rot90 img 1) = height img /\
  forall i j, pixel (Numpy.rot90 img 1) i j = pixel img j (width img - 1 - i)%nat.
Proof. repeat split. Qed.

Lemma rot90_3_pixels :
  height (Numpy.rot90 img 3) = width img /\
  width (Numpy.rot90 img 3) = height img /\
  forall i j, pixel (Numpy.rot90 img 3) i j = pixel img (height img - 1 - j)%nat i.
Proof. repeat split. Qed.

Lemma flip_both_pixels :
  height (Cv2.flip img (-1)) = height img /\
  width (Cv2.flip img (-1)) = width img /\
  forall i j, pixel (Cv2.flip img (-1)) i j
              = pixel img (height img - 1 - i)%nat (width img - 1 - j)%nat.
Proof. repeat split. Qed.

(** Mirroring on both axes is two quarter turns. *)
Lemma flip_both_is_two_turns :
  same_image (Cv2.flip img (-1)) (Numpy.rot90 (Numpy.rot90 img 1) 1).
Proof. repeat split. Qed.

(** [rot90 img 3] is three quarter turns. *)
Lemma rot90_3_is_three_turns :
  same_image (Numpy.rot90 img 3)
             (Numpy.rot90 (Numpy.rot90 (Numpy.rot90 img 1) 1) 1).
Proof.
  split; [reflexivity|]. split; [reflexivity|].
  intros i j Hi Hj. cbn in *. f_equal. lia.
Qed.

End Rotations.

(* ================================================================== *)
(** ** Equations of the monad *)
(* ================================================================== *)

Section MonadLaws.

Context {A B : Type}.

Lemma bind_ret (a : A) (k : A -> M B) (w : World) : bind (ret a) k w = k a w.
Proof. reflexivity. Qed.

Lemma bind_lift_ok (a : A) (k : A -> M B) (w : World) :
  bind (lift (Ok a)) k w = k a w.
Proof. reflexivity. Qed.

Lemma bind_lift_raise (e : exn) (k : A -> M B) (w : World) :
  bind (lift (Raise e)) k w = (w, Raise e).
Proof. reflexivity. Qed.

Lemma bind_logging (l : Level) (m : Message) (k : unit -> M B) (w : World) :
  bind (logging l m) k w = k tt (logged w [(l, m)]).
Proof. reflexivity. Qed.

Lemma bind_bind {C} (c : M A) (f : A -> M B) (g : B -> M C) (w : World) :
  bind (bind c f) g w = bind c (fun a => bind (f a) g) w.
Proof. unfold bind. destruct (c w) as [w' [a|e]]; reflexivity. Qed.

End MonadLaws.

Lemma logged_logged (w : World) (a b : list (Level * Message)) :
  logged (logged w a) b = logged w (a ++ b).
Proof. unfold logged; simpl. now rewrite app_assoc. Qed.

Lemma logged_nil (w : World) : logged w [] = w.
Proof. destruct w; unfold logged; simpl. now rewrite app_nil_r. Qed.

Lemma stdout_logged (w : World) (a : list (Level * Message)) :
  stdout (logged w a) = stdout w.
Proof. reflexivity. Qed.

(* ================================================================== *)
(** ** Properties of [reconstruct_thumbnail] and [autorotate_image] *)
(* ================================================================== *)

Section Reconstruction.

Variable cv2_resize : Image -> Z * Z -> result Image.

(** The projection keeps the four corners, in their order. *)
Lemma projected_corners_four (thumb_w thumb_h : nat) (H : Homography) :
  let project := fun p => let q := Cv2.perspective_point H p in
                          (Numpy.int32 (fst q), Numpy.int32 (snd q)) in
  let w := inject_Z (Z.of_nat thumb_w) in
  let h := inject_Z (Z.of_nat thumb_h) in
  projected_corners thumb_w thumb_h H =
  [project (0%Q, 0%Q); project (w, 0%Q); project (w, h); project (0%Q, h)].
Proof. reflexivity. Qed.

Lemma projected_corners_cons (thumb_w thumb_h : nat) (H : Homography) :
  exists c rest, projected_corners thumb_w thumb_h H = c :: rest.
Proof. rewrite projected_corners_four. eauto. Qed.

Lemma high_corners_total (c : Z * Z) (rest : list (Z * Z)) :
  exists hc, high_corners_of (c :: rest) = Ok hc.
Proof. unfold high_corners_of. simpl. eauto. Qed.

(** On a non-empty list of corners [autorotate_image] returns one of its
    four answers. *)
Lemma autorotate_image_total (img : Image) (c : Z * Z) (rest : list (Z * Z)) :
  exists rotation img',
    autorotate_image img (c :: rest) = Ok (rotation, img') /\
    ((rotation, img') = (90, Numpy.rot90 img 1) \/
     (rotation, img') = (180, Cv2.flip img (-1)) \/
     (rotation, img') = (270, Numpy.rot90 img 3) \/
     (rotation, img') = (0, img)).
Proof.
  unfold autorotate_image.
  destruct (high_corners_total c rest) as [hc ->]. simpl.
  destruct (high_corners_eqb hc (0, 1, 3, 1)%nat); [eauto 8|].
  destruct (high_corners_eqb hc (3, 0, 1, 0)%nat); [eauto 8|].
  destruct (high_corners_eqb hc (1, 3, 0, 2)%nat); eauto 8.
Qed.

(** The crop box computed from a non-empty list of corners. *)
Lemma crop_box_exists (c : Z * Z) (rest : list (Z * Z)) :
  exists y_min y_max x_min x_max,
    py_min (map snd (c :: rest)) = Ok y_min /\
    py_max (map snd (c :: rest)) = Ok y_max /\
    py_min (map fst (c :: rest)) = Ok x_min /\
    py_max (map fst (c :: rest)) = Ok x_max /\
    bounding_box_of (c :: rest) ((y_min, y_max), (x_min, x_max)).
Proof.
  destruct (py_min_total (l := map snd (c :: rest))) as [y_min Hy0]; [discriminate|].
  destruct (py_max_total (l := map snd (c :: rest))) as [y_max Hy1]; [discriminate|].
  destruct (py_min_total (l := map fst (c :: rest))) as [x_min Hx0]; [discriminate|].
  destruct (py_max_total (l := map fst (c :: rest))) as [x_max Hx1]; [discriminate|].
  exists y_min, y_max, x_min, x_max. repeat (split; [assumption|]).
  unfold bounding_box_of. cbn [fst snd].
  auto using py_min_spec, py_max_spec.
Qed.

(** [reconstruct_thumbnail] up to its last step: the crop box is the
    bounding box of the projected corners, the region is the slice of the
    source at that box, normalised by [autorotate_image]. *)
Lemma reconstruct_thumbnail_run (thumbnail_image source_image : Image)
    (kp_pairs : list (KeyPoint * KeyPoint)) (H : Homography)
    (downsize_reconstruction : bool) (w : World) :
  let corners :=
    projected_corners (width thumbnail_image) (height thumbnail_image) H in
  exists crop rotation img,
    bounding_box_of corners crop /\
    autorotate_image
      (Numpy.getitem_slices source_image (fst crop) (snd crop)) corners
    = Ok (rotation, img) /\
    reconstruct_thumbnail cv2_resize thumbnail_image source_image kp_pairs H
                          downsize_reconstruction w
    = reconstruct_finish cv2_resize thumbnail_image source_image
        downsize_reconstruction img crop rotation
        (logged w [(INFO, MsgReconstructing); (INFO, MsgThumbnailBounds corners)]).
Proof.
  intros corners.
  destruct (projected_corners_cons (width thumbnail_image)
              (height thumbnail_image) H) as [c [rest Hc]].
  fold corners in Hc.
  destruct (crop_box_exists c rest) as (y0 & y1 & x0 & x1 & Hy0 & Hy1 & Hx0 & Hx1 & Hbox).
  destruct (autorotate_image_total
              (Numpy.getitem_slices source_image (y0, y1) (x0, x1)) c rest)
    as (rotation & img & Hrot & _).
  exists ((y0, y1), (x0, x1)), rotation, img.
  rewrite Hc. split; [exact Hbox|]. split; [exact Hrot|].
  unfold reconstruct_thumbnail, shape. cbv beta iota zeta.
  fold corners. rewrite Hc.
  rewrite !bind_logging, logged_logged. cbn [unzip_rows app].
  rewrite bind_lift_ok, Hy0, bind_lift_ok, Hy1, bind_lift_ok, Hx0,
    bind_lift_ok, Hx1, bind_lift_ok.
  cbn [fst snd]. rewrite Hrot, bind_lift_ok.
  reflexivity.
Qed.

Lemma fit_image_within_logs (img : Image) (max_height max_width : Z) (w : World) :
  exists msgs r,
    fit_image_within cv2_resize img max_height max_width w = (logged w msgs, r).
Proof.
  unfold fit_image_within, shape.
  destruct (fit_new_dims (height img) (width img) max_height max_width)
    as [[dims|]|e].
  - rewrite bind_lift_ok, bind_logging. unfold lift. eauto.
  - rewrite bind_lift_ok. exists [], (Ok img). now rewrite logged_nil.
  - rewrite bind_lift_raise. exists [], (Raise e). now rewrite logged_nil.
Qed.

Lemma reconstruct_finish_no_downsize (thumbnail_image source_image img : Image)
    (crop : CropBox) (rotation : Z) (w : World) :
  reconstruct_finish cv2_resize thumbnail_image source_image false img crop rotation w
  = (logged w [(INFO, MsgMasterDimensions (shape source_image));
               (INFO, MsgThumbnailDimensions (shape thumbnail_image));
               (INFO, MsgReconstructedDimensions (shape img) rotation)],
     Ok (img, crop, rotation)).
Proof.
  unfold reconstruct_finish. cbn [andb].
  rewrite bind_ret, !bind_logging, !logged_logged. reflexivity.
Qed.

Lemma reconstruct_finish_inv (thumbnail_image source_image img : Image)
    (downsize_reconstruction : bool) (crop : CropBox) (rotation : Z) (w : World) :
  exists msgs r,
    reconstruct_finish cv2_resize thumbnail_image source_image
      downsize_reconstruction img crop rotation w = (logged w msgs, r) /\
    forall img' crop' rotation',
      r = Ok (img', crop', rotation') -> crop' = crop /\ rotation' = rotation.
Proof.
  unfold reconstruct_finish.
  destruct (downsize_reconstruction && _).
  - destruct (fit_image_within_logs img (Z.of_nat (height thumbnail_image))
                (Z.of_nat (width thumbnail_image)) w) as (msgs & [img1|e] & Hw);
      unfold bind at 1; rewrite Hw.
    + rewrite !bind_logging, !logged_logged. unfold ret.
      do 2 eexists; split; [reflexivity|].
      intros img' crop' rotation' E. injection E as _ <- <-. auto.
    + do 2 eexists; split; [reflexivity|]. discriminate.
  - rewrite bind_ret, !bind_logging, !logged_logged. unfold ret.
    do 2 eexists; split; [reflexivity|].
    intros img' crop' rotation' E. injection E as _ <- <-. auto.
Qed.

Lemma perspective_point_division (H : Homography) (x y : Q) :
  let d := (x * m20 H + y * m21 H + m22 H)%Q in
  (~ d == 0 ->
   fst (Cv2.perspective_point H (x, y)) == (x * m00 H + y * m01 H + m02 H) / d /\
   snd (Cv2.perspective_point H (x, y)) == (x * m10 H + y * m11 H + m12 H) / d)%Q /\
  (d == 0 -> Cv2.perspective_point H (x, y) = (0, 0))%Q.
Proof.
  intros d. unfold Cv2.perspective_point. fold d.
  destruct (Qeq_bool d 0) eqn:E.
  - apply Qeq_bool_iff in E. split; [intros Hd; contradiction|reflexivity].
  - apply Qeq_bool_neq in E. split; [|intros Hd; contradiction].
    intros _. cbn [fst snd]. split; field; assumption.
Qed.

Lemma slice_bound_range (v : Z) (len : nat) :
  0 <= Numpy.slice_bound v len <= Z.of_nat len.
Proof.
  unfold Numpy.slice_bound.
  destruct (v <? 0) eqn:E1.
  - destruct (v + Z.of_nat len <? 0) eqn:E2.
    + lia.
    + apply Z.ltb_lt in E1. apply Z.ltb_ge in E2. lia.
  - apply Z.ltb_ge in E1.
    destruct (Z.of_nat len <? v) eqn:E2.
    + lia.
    + apply Z.ltb_ge in E2. lia.
Qed.

(** Every pixel of a slice is a pixel of the array, at a position inside
    the array. *)
Lemma getitem_slices_in_range (img : Image) (rows cols : Z * Z) :
  let region := Numpy.getitem_slices img rows cols in
  let r0 := Numpy.slice_bound (fst rows) (height img) in
  let r1 := Numpy.slice_bound (snd rows) (height img) in
  let c0 := Numpy.slice_bound (fst cols) (width img) in
  let c1 := Numpy.slice_bound (snd cols) (width img) in
  height region = Z.to_nat (r1 - r0) /\
  width region = Z.to_nat (c1 - c0) /\
  forall i j, (i < height region)%nat -> (j < width region)%nat ->
    (Z.to_nat r0 + i < height img)%nat /\
    (Z.to_nat c0 + j < width img)%nat /\
    pixel region i j = pixel img (Z.to_nat r0 + i)%nat (Z.to_nat c0 + j)%nat.
Proof.
  intros region r0 r1 c0 c1.
  assert (Hr0 := slice_bound_range (fst rows) (height img)).
  assert (Hr1 := slice_bound_range (snd rows) (height img)).
  assert (Hc0 := slice_bound_range (fst cols) (width img)).
  assert (Hc1 := slice_bound_range (snd cols) (width img)).
  fold r0 in Hr0. fold r1 in Hr1. fold c0 in Hc0. fold c1 in Hc1.
  subst region. unfold Numpy.getitem_slices, Numpy.slice_indices.
  fold r0 r1 c0 c1. cbn [height width pixel].
  split; [reflexivity|]. split; [reflexivity|].
  intros i j Hi Hj. repeat split; lia.
Qed.

(** [reconstruct_thumbnail] as a whole: it only logs; its crop box is the
    bounding box of the projected corners and its region the normalised
    slice; without downsizing it returns. *)
Lemma reconstruct_thumbnail_spec (thumbnail_image source_image : Image)
    (kp_pairs : list (KeyPoint * KeyPoint)) (H : Homography)
    (downsize_reconstruction : bool) (w : World) :
  let corners :=
    projected_corners (width thumbnail_image) (height thumbnail_image) H in
  exists crop rotation img msgs r,
    bounding_box_of corners crop /\
    autorotate_image
      (Numpy.getitem_slices source_image (fst crop) (snd crop)) corners
    = Ok (rotation, img) /\
    reconstruct_thumbnail cv2_resize thumbnail_image source_image kp_pairs H
                          downsize_reconstruction w
    = (logged w msgs, r) /\
    (forall img' crop' rotation',
        r = Ok (img', crop', rotation') -> crop' = crop /\ rotation' = rotation) /\
    (downsize_reconstruction = false -> r = Ok (img, crop, rotation)).
Proof.
  intros corners.
  destruct (reconstruct_thumbnail_run thumbnail_image source_image kp_pairs H
              downsize_reconstruction w) as (crop & rotation & img & Hbox & Hrot & Hrun).
  fold corners in Hbox, Hrot, Hrun.
  destruct (reconstruct_finish_inv thumbnail_image source_image img
              downsize_reconstruction crop rotation
              (logged w [(INFO, MsgReconstructing);
                         (INFO, MsgThumbnailBounds corners)]))
    as (msgs & r & Hfin & Hinv).
  rewrite logged_logged in Hfin.
  exists crop, rotation, img,
    ([(INFO, MsgReconstructing); (INFO, MsgThumbnailBounds corners)] ++ msgs), r.
  split; [exact Hbox|]. split; [exact Hrot|].
  split; [now rewrite Hrun, Hfin|].
  split; [exact Hinv|].
  intros ->. rewrite reconstruct_finish_no_downsize in Hfin.
  now injection Hfin as _ <-.
Qed.

End Reconstruction.

(** C6: [reconstruct_thumbnail] lists the template corners as (0,0), (w,0),
    (w,h), (0,h); each is projected through [H] by perspective division
    (a corner whose homogeneous coordinate is 0 goes to the origin) and
    converted to [int32]; the crop box returned is the axis-aligned bounding
    box [(min y, max y), (min x, max x)] of the four projected corners, and
    the call returns it whenever downsizing is off. *)
Theorem reconstruct_thumbnail_crop_box
    (cv2_resize : Image -> Z * Z -> result Image)
    (thumbnail_image source_image : Image)
    (kp_pairs : list (KeyPoint * KeyPoint)) (H : Homography) (w : World) :
  let thumb_w := inject_Z (Z.of_nat (width thumbnail_image)) in
  let thumb_h := inject_Z (Z.of_nat (height thumbnail_image)) in
  let project := fun p => (Numpy.int32 (fst (Cv2.perspective_point H p)),
                           Numpy.int32 (snd (Cv2.perspective_point H p))) in
  let corners :=
    projected_corners (width thumbnail_image) (height thumbnail_image) H in
  template_corners (width thumbnail_image) (height thumbnail_image)
  = [(0%Q, 0%Q); (thumb_w, 0%Q); (thumb_w, thumb_h); (0%Q, thumb_h)] /\
  corners = [project (0%Q, 0%Q); project (thumb_w, 0%Q);
             project (thumb_w, thumb_h); project (0%Q, thumb_h)] /\
  (forall x y,
      let d := (x * m20 H + y * m21 H + m22 H)%Q in
      (~ d == 0 ->
       fst (Cv2.perspective_point H (x, y)) == (x * m00 H + y * m01 H + m02 H) / d /\
       snd (Cv2.perspective_point H (x, y)) == (x * m10 H + y * m11 H + m12 H) / d)%Q /\
      (d == 0 -> Cv2.perspective_point H (x, y) = (0, 0))%Q) /\
  exists crop,
    bounding_box_of corners crop /\
    (exists w' img rotation,
        reconstruct_thumbnail cv2_resize thumbnail_image source_image kp_pairs H
                              false w = (w', Ok (img, crop, rotation))) /\
    (forall downsize_reconstruction w' img crop' rotation,
        reconstruct_thumbnail cv2_resize thumbnail_image source_image kp_pairs H
                              downsize_reconstruction w
        = (w', Ok (img, crop', rotation)) ->
        crop' = crop).
Proof.
  intros thumb_w thumb_h project corners.
  split; [reflexivity|]. split; [reflexivity|].
  split; [intros x y; apply perspective_point_division|].
  destruct (reconstruct_thumbnail_spec cv2_resize thumbnail_image source_image
              kp_pairs H false w)
    as (crop & rotation & img & msgs & r & Hbox & _ & Hrun & _ & Hret).
  exists crop. split; [exact Hbox|]. split.
  - rewrite Hrun, (Hret eq_refl). eauto.
  - intros downsize w' img' crop' rotation' Hrun'.
    destruct (reconstruct_thumbnail_spec cv2_resize thumbnail_image source_image
                kp_pairs H downsize w)
      as (crop2 & rot2 & img2 & msgs2 & r2 & Hbox2 & _ & Hrun2 & Hinv2 & _).
    rewrite Hrun2 in Hrun'. injection Hrun' as _ ->.
    destruct (Hinv2 _ _ _ eq_refl) as [-> _].
    destruct Hbox as (A1 & A2 & A3 & A4), Hbox2 as (B1 & B2 & B3 & B4).
    destruct crop as [[a b] [c d]], crop2 as [[a2 b2] [c2 d2]]; cbn [fst snd] in *.
    rewrite (is_min_unique B1 A1), (is_max_unique B2 A2),
            (is_min_unique B3 A3), (is_max_unique B4 A4).
    reflexivity.
Qed.

Lemma reconstruct_thumbnail_crop_box_witness :
  exists w' img rotation,
    reconstruct_thumbnail Sample.resize_nearest (Sample.grid 20 20)
      (Sample.grid 100 100) [] (Sample.translation 30 40) false Sample.world0
    = (w', Ok (img, ((40, 60), (30, 50)), rotation)).
Proof.
  destruct (reconstruct_thumbnail_crop_box Sample.resize_nearest (Sample.grid 20 20)
              (Sample.grid 100 100) [] (Sample.translation 30 40) Sample.world0)
    as (_ & _ & _ & crop & _ & (w' & img & rotation & Hrun) & Hunique).
  exists w', img, rotation. rewrite Hrun.
  assert (E : exists w1 img1 rotation1,
             reconstruct_thumbnail Sample.resize_nearest (Sample.grid 20 20)
               (Sample.grid 100 100) [] (Sample.translation 30 40) false Sample.world0
             = (w1, Ok (img1, ((40, 60), (30, 50)), rotation1)))
    by (vm_compute; do 3 eexists; reflexivity).
  destruct E as (w1 & img1 & rotation1 & E).
  rewrite <- (Hunique false w1 img1 _ rotation1 E). reflexivity.
Defined.

(** C1, as the code has it: [reconstruct_thumbnail] does not clamp.  With
    downsizing off it always returns, its crop box is the bounding box of
    the projected corners as they are, and the region is the numpy slice of
    the source at that box: each bound is resolved into [0, length] (a
    negative bound counting from the end of the axis), so every pixel of
    the region is a pixel of the source at a position inside it, and a box
    that resolves to no rows or no columns gives an empty region. *)
Theorem reconstruct_thumbnail_slices_without_clamping
    (cv2_resize : Image -> Z * Z -> result Image)
    (thumbnail_image source_image : Image)
    (kp_pairs : list (KeyPoint * KeyPoint)) (H : Homography) (w : World) :
  let corners :=
    projected_corners (width thumbnail_image) (height thumbnail_image) H in
  exists crop rotation img w',
    reconstruct_thumbnail cv2_resize thumbnail_image source_image kp_pairs H
                          false w = (w', Ok (img, crop, rotation)) /\
    bounding_box_of corners crop /\
    let region := Numpy.getitem_slices source_image (fst crop) (snd crop) in
    let r0 := Numpy.slice_bound (fst (fst crop)) (height source_image) in
    let r1 := Numpy.slice_bound (snd (fst crop)) (height source_image) in
    let c0 := Numpy.slice_bound (fst (snd crop)) (width source_image) in
    let c1 := Numpy.slice_bound (snd (snd crop)) (width source_image) in
    autorotate_image region corners = Ok (rotation, img) /\
    0 <= r0 <= Z.of_nat (height source_image) /\
    0 <= r1 <= Z.of_nat (height source_image) /\
    0 <= c0 <= Z.of_nat (width source_image) /\
    0 <= c1 <= Z.of_nat (width source_image) /\
    height region = Z.to_nat (r1 - r0) /\
    width region = Z.to_nat (c1 - c0) /\
    (forall i j, (i < height region)%nat -> (j < width region)%nat ->
       (Z.to_nat r0 + i < height source_image)%nat /\
       (Z.to_nat c0 + j < width source_image)%nat /\
       pixel region i j
       = pixel source_image (Z.to_nat r0 + i)%nat (Z.to_nat c0 + j)%nat).
Proof.
  intros corners.
  destruct (reconstruct_thumbnail_spec cv2_resize thumbnail_image source_image
              kp_pairs H false w)
    as (crop & rotation & img & msgs & r & Hbox & Hrot & Hrun & _ & Hret).
  exists crop, rotation, img, (logged w msgs).
  split; [now rewrite Hrun, (Hret eq_refl)|].
  split; [exact Hbox|].
  intros region r0 r1 c0 c1.
  split; [exact Hrot|].
  repeat (split; [apply slice_bound_range|]).
  apply getitem_slices_in_range.
Qed.

Lemma reconstruct_thumbnail_slices_without_clamping_witness :
  exists crop rotation img w',
    reconstruct_thumbnail Sample.resize_nearest (Sample.grid 20 20)
      (Sample.grid 100 100) [] (Sample.translation 30 40) false Sample.world0
    = (w', Ok (img, crop, rotation)) /\
    pixel (Numpy.getitem_slices (Sample.grid 100 100) (fst crop) (snd crop)) 0 0
    = pixel (Sample.grid 100 100)
        (Z.to_nat (Numpy.slice_bound (fst (fst crop)) 100) + 0)
        (Z.to_nat (Numpy.slice_bound (fst (snd crop)) 100) + 0).
Proof.
  destruct (reconstruct_thumbnail_slices_without_clamping Sample.resize_nearest
              (Sample.grid 20 20) (Sample.grid 100 100) []
              (Sample.translation 30 40) Sample.world0)
    as (crop & rotation & img & w' & Hrun & Hbox & Hrot & _ & _ & _ & _ & Hh & Hw & Hpix).
  exists crop, rotation, img, w'. split; [exact Hrun|].
  assert (E : exists w1 img1 rotation1,
             reconstruct_thumbnail Sample.resize_nearest (Sample.grid 20 20)
               (Sample.grid 100 100) [] (Sample.translation 30 40) false Sample.world0
             = (w1, Ok (img1, ((40, 60), (30, 50)), rotation1)))
    by (vm_compute; do 3 eexists; reflexivity).
  destruct E as (w1 & img1 & rotation1 & E).
  rewrite Hrun in E. injection E as _ _ Hcrop _.
  subst crop.
  refine (proj2 (proj2 (Hpix 0%nat 0%nat _ _))).
  - rewrite Hh. vm_compute. lia.
  - rewrite Hw. vm_compute. lia.
Defined.

(** C1, as the specification words it, fails: a translation by (-10, -10)
    of a 20 x 20 template over a 100 x 100 source projects the corners to
    (-10,-10), (10,-10), (10,10), (-10,10); the crop box returned is
    ((-10, 10), (-10, 10)), with negative bounds, and the call returns an
    empty 0 x 0 region instead of reporting a failure. *)
Lemma reconstruct_thumbnail_out_of_bounds_projection :
  (exists w' img,
      reconstruct_thumbnail Sample.resize_nearest (Sample.grid 20 20)
        (Sample.grid 100 100) [] (Sample.translation (-10) (-10)) false
        Sample.world0
      = (w', Ok (img, ((-10, 10), (-10, 10)), 0)) /\
      height img = 0%nat /\ width img = 0%nat) /\
  ~ clamps_or_fails
      (reconstruct_thumbnail Sample.resize_nearest (Sample.grid 20 20)
         (Sample.grid 100 100) [] (Sample.translation (-10) (-10)) false)
      (Sample.grid 100 100).
Proof.
  assert (E : exists w' img,
             reconstruct_thumbnail Sample.resize_nearest (Sample.grid 20 20)
               (Sample.grid 100 100) [] (Sample.translation (-10) (-10)) false
               Sample.world0
             = (w', Ok (img, ((-10, 10), (-10, 10)), 0)) /\
             height img = 0%nat /\ width img = 0%nat)
    by (vm_compute; do 2 eexists; split; [reflexivity|split; reflexivity]).
  split; [exact E|].
  destruct E as (w' & img & E & _).
  intros Hspec. destruct (Hspec _ _ _ _ _ E) as ((Hneg & _) & _).
  cbn in Hneg. lia.
Qed.

(* ================================================================== *)
(** ** The rotation classifier *)
(* ================================================================== *)

Lemma high_corners_eqb_eq (a b : nat * nat * nat * nat) :
  high_corners_eqb a b = true <-> a = b.
Proof.
  destruct a as [[[a0 a1] a2] a3], b as [[[b0 b1] b2] b3].
  unfold high_corners_eqb. rewrite !andb_true_iff, !Nat.eqb_eq.
  split.
  - intros [[[-> ->] ->] ->]. reflexivity.
  - intros E. injection E as -> -> -> ->. auto.
Qed.

Lemma high_corners_eqb_neq (a b : nat * nat * nat * nat) :
  a <> b -> high_corners_eqb a b = false.
Proof.
  intros Hne. destruct (high_corners_eqb a b) eqn:E; [|reflexivity].
  apply high_corners_eqb_eq in E. contradiction.
Qed.

(** C5: for four corners, [autorotate_image] computes the positions of the
    first least and greatest [y] and of the first least and greatest [x];
    the tuple (0,1,3,1) gives 90 and one quarter turn of the pixels,
    (3,0,1,0) gives 180 and the pixels mirrored on both axes, (1,3,0,2)
    gives 270 and three quarter turns, and every other tuple gives 0 and
    the image as it is. *)
Theorem autorotate_image_classification (img : Image) (c0 c1 c2 c3 : Z * Z) :
  let corners := [c0; c1; c2; c3] in
  let xs := map fst corners in
  let ys := map snd corners in
  exists a b c d,
    high_corners_of corners = Ok (a, b, c, d) /\
    first_min_at ys a /\ first_max_at ys b /\
    first_min_at xs c /\ first_max_at xs d /\
    ((a, b, c, d) = (0, 1, 3, 1)%nat ->
     autorotate_image img corners = Ok (90, Numpy.rot90 img 1)) /\
    ((a, b, c, d) = (3, 0, 1, 0)%nat ->
     autorotate_image img corners = Ok (180, Cv2.flip img (-1))) /\
    ((a, b, c, d) = (1, 3, 0, 2)%nat ->
     autorotate_image img corners = Ok (270, Numpy.rot90 img 3)) /\
    ((a, b, c, d) <> (0, 1, 3, 1)%nat ->
     (a, b, c, d) <> (3, 0, 1, 0)%nat ->
     (a, b, c, d) <> (1, 3, 0, 2)%nat ->
     autorotate_image img corners = Ok (0, img)) /\
    (height (Numpy.rot90 img 1) = width img /\
     width (Numpy.rot90 img 1) = height img /\
     forall i j, pixel (Numpy.rot90 img 1) i j
                 = pixel img j (width img - 1 - i)%nat) /\
    (height (Cv2.flip img (-1)) = height img /\
     width (Cv2.flip img (-1)) = width img /\
     forall i j, pixel (Cv2.flip img (-1)) i j
                 = pixel img (height img - 1 - i)%nat (width img - 1 - j)%nat) /\
    same_image (Numpy.rot90 img 3)
               (Numpy.rot90 (Numpy.rot90 (Numpy.rot90 img 1) 1) 1).
Proof.
  intros corners xs ys.
  destruct (Numpy.argmin ys) as [a|] eqn:Ea; [|discriminate].
  destruct (Numpy.argmax ys) as [b|] eqn:Eb; [|discriminate].
  destruct (Numpy.argmin xs) as [c|] eqn:Ec; [|discriminate].
  destruct (Numpy.argmax xs) as [d|] eqn:Ed; [|discriminate].
  assert (Hhc : high_corners_of corners = Ok (a, b, c, d)).
  { unfold high_corners_of. cbn [unzip_rows corners rbind].
    fold corners. fold xs. fold ys. now rewrite Ea, Eb, Ec, Ed. }
  exists a, b, c, d.
  split; [exact Hhc|].
  split; [now apply argmin_spec|]. split; [now apply argmax_spec|].
  split; [now apply argmin_spec|]. split; [now apply argmax_spec|].
  unfold autorotate_image. rewrite Hhc. cbn [rbind].
  split; [intros ->; reflexivity|].
  split; [intros ->; reflexivity|].
  split; [intros ->; reflexivity|].
  split.
  - intros H1 H2 H3.
    now rewrite (high_corners_eqb_neq H1), (high_corners_eqb_neq H2),
                (high_corners_eqb_neq H3).
  - split; [apply rot90_1_pixels|]. split; [apply flip_both_pixels|].
    apply rot90_3_is_three_turns.
Qed.

Lemma autorotate_image_classification_witness :
  let img := Sample.grid 3 5 in
  autorotate_image img Sample.corners_90 = Ok (90, Numpy.rot90 img 1) /\
  autorotate_image img Sample.corners_180 = Ok (180, Cv2.flip img (-1)) /\
  autorotate_image img Sample.corners_270 = Ok (270, Numpy.rot90 img 3) /\
  autorotate_image img Sample.corners_upright = Ok (0, img).
Proof.
  intros img. split; [|split; [|split]].
  - destruct (autorotate_image_classification img (5, 0) (10, 10) (5, 5) (0, 5))
      as (a & b & c & d & Hhc & _ & _ & _ & _ & H90 & _).
    apply H90. vm_compute in Hhc. injection Hhc as <- <- <- <-. reflexivity.
  - destruct (autorotate_image_classification img (10, 10) (0, 5) (5, 5) (5, 0))
      as (a & b & c & d & Hhc & _ & _ & _ & _ & _ & H180 & _).
    apply H180. vm_compute in Hhc. injection Hhc as <- <- <- <-. reflexivity.
  - destruct (autorotate_image_classification img (0, 5) (5, 0) (10, 5) (5, 10))
      as (a & b & c & d & Hhc & _ & _ & _ & _ & _ & _ & H270 & _).
    apply H270. vm_compute in Hhc. injection Hhc as <- <- <- <-. reflexivity.
  - destruct (autorotate_image_classification img (0, 0) (10, 0) (10, 10) (0, 10))
      as (a & b & c & d & Hhc & _ & _ & _ & _ & _ & _ & _ & H0 & _).
    vm_compute in Hhc. injection Hhc as <- <- <- <-.
    apply H0; discriminate.
Defined.

(* ================================================================== *)
(** ** Properties of [fit_image_within] *)
(* ================================================================== *)

Section Rounding.

(** [int(round(x))] is within one half of [x]. *)
Lemma int_round_close (x : Q) :
  (inject_Z (int_round x) - (1 # 2) <= x /\
   x <= inject_Z (int_round x) + (1 # 2))%Q.
Proof.
  unfold int_round. destruct (Qle_bool 0 x).
  - pose proof (Qfloor_le (x + (1 # 2))) as H1.
    pose proof (Qlt_floor (x + (1 # 2))) as H2.
    rewrite inject_Z_plus in H2. change (inject_Z 1) with 1%Q in H2.
    split; lra.
  - pose proof (Qle_ceiling (x - (1 # 2))) as H1.
    pose proof (Qceiling_lt (x - (1 # 2))) as H2.
    unfold Z.sub in H2. rewrite inject_Z_plus in H2.
    change (inject_Z (Z.opp 1)) with (Qmake (-1) 1) in H2.
    split; lra.
Qed.

(** Rounding an integer gives the integer. *)
Lemma int_round_integer (x : Q) (n : Z) : (x == inject_Z n)%Q -> int_round x = n.
Proof.
  intros E. unfold int_round.
  assert (Hf : Qfloor (x + (1 # 2)) = n).
  { rewrite E. unfold Qfloor, Qplus, inject_Z. cbn [Qnum Qden].
    replace (n * 2 + 1 * 1)%Z with (1 + n * 2)%Z by lia.
    change (Z.pos (1 * 2)) with 2%Z.
    rewrite Z.div_add by lia. reflexivity. }
  assert (Hc : Qceiling (x - (1 # 2)) = n).
  { rewrite E. unfold Qceiling, Qfloor, Qminus, Qopp, Qplus, inject_Z.
    cbn [Qnum Qden].
    change (Z.pos (1 * 2)) with 2%Z.
    replace (- (n * 2 + - (1) * 1))%Z with (1 + (- n) * 2)%Z by lia.
    rewrite Z.div_add by lia. change (1 / 2)%Z with 0%Z. lia. }
  destruct (Qle_bool 0 x); assumption.
Qed.

Lemma inject_Z_nonzero (n : Z) : n <> 0 -> ~ (inject_Z n == 0)%Q.
Proof. intros Hn E. apply Hn. unfold Qeq, inject_Z in E. simpl in E. lia. Qed.

(** The size [fit_image_within] asks for: one scale for both sides, each
    rounded to the nearest integer, and the longer side of the image (the
    width when they are equal) scaled exactly to its maximum. *)
Lemma fit_new_dims_scaled (current_h current_w : nat) (max_height max_width : Z)
    (new_w new_h : Z) :
  fit_new_dims current_h current_w max_height max_width = Ok (Some (new_w, new_h)) ->
  exists scale : Q,
    (inject_Z new_w - (1 # 2) <= inject_Z (Z.of_nat current_w) * scale
     <= inject_Z new_w + (1 # 2))%Q /\
    (inject_Z new_h - (1 # 2) <= inject_Z (Z.of_nat current_h) * scale
     <= inject_Z new_h + (1 # 2))%Q /\
    ((current_w < current_h)%nat -> new_h = max_height) /\
    ((current_h <= current_w)%nat -> new_w = max_width).
Proof.
  unfold fit_new_dims.
  destruct ((Z.of_nat current_h <=? max_height) && (Z.of_nat current_w <=? max_width));
    [discriminate|].
  destruct (current_w <? current_h)%nat eqn:Ecmp; unfold true_div.
  - apply Nat.ltb_lt in Ecmp.
    destruct (Z.of_nat current_h =? 0) eqn:Ez; [apply Z.eqb_eq in Ez; lia|].
    apply Z.eqb_neq in Ez. cbn [rbind]. intros E. injection E as <- <-.
    exists (inject_Z max_height / inject_Z (Z.of_nat current_h))%Q.
    pose proof (inject_Z_nonzero Ez) as Hnz.
    repeat split; try apply int_round_close; [|lia].
    intros _. apply int_round_integer. field. exact Hnz.
  - apply Nat.ltb_ge in Ecmp.
    destruct (Z.of_nat current_w =? 0) eqn:Ez; [discriminate|].
    apply Z.eqb_neq in Ez. cbn [rbind]. intros E. injection E as <- <-.
    exists (inject_Z max_width / inject_Z (Z.of_nat current_w))%Q.
    pose proof (inject_Z_nonzero Ez) as Hnz.
    repeat split; try apply int_round_close; [lia|].
    intros _. apply int_round_integer. field. exact Hnz.
Qed.

End Rounding.

(** C9: an image whose height and width are within the maxima is returned
    as it is: [cv2.resize] is not called and nothing is logged. *)
Theorem fit_image_within_identity
    (cv2_resize : Image -> Z * Z -> result Image)
    (img : Image) (max_height max_width : Z) (w : World) :
  Z.of_nat (height img) <= max_height ->
  Z.of_nat (width img) <= max_width ->
  fit_image_within cv2_resize img max_height max_width w = (w, Ok img).
Proof.
  intros Hh Hw. unfold fit_image_within, shape, fit_new_dims.
  apply Z.leb_le in Hh. apply Z.leb_le in Hw. rewrite Hh, Hw. reflexivity.
Qed.

Lemma fit_image_within_identity_witness :
  fit_image_within Sample.resize_nearest (Sample.grid 10 20) 10 20 Sample.world0
  = (Sample.world0, Ok (Sample.grid 10 20)).
Proof.
  apply (fit_image_within_identity Sample.resize_nearest (Sample.grid 10 20)
           (max_height := 10) (max_width := 20) Sample.world0); simpl; lia.
Defined.

(** C3 at a 100 x 90 image (height x width) and the maxima 100 and 50: the
    height is the larger side, the scale is 100/100, and [cv2.resize] is
    asked for the size (90, 100); the result is 90 wide, above the maximal
    width 50.  With the maxima 200 and 50 the image is enlarged to
    180 x 200. *)
Theorem fit_image_within_exceeds_max_width
    (cv2_resize : Image -> Z * Z -> result Image) (w : World) :
  let img := Sample.grid 100 90 in
  fit_image_within cv2_resize img 100 50 w
  = (logged w [(INFO, MsgResizing (100, 90)%nat (90, 100))],
     cv2_resize img (90, 100)) /\
  fit_image_within cv2_resize img 200 50 w
  = (logged w [(INFO, MsgResizing (100, 90)%nat (180, 200))],
     cv2_resize img (180, 200)) /\
  exists out,
    fit_image_within Sample.resize_nearest img 100 50 w
    = (logged w [(INFO, MsgResizing (100, 90)%nat (90, 100))], Ok out) /\
    height out = 100%nat /\ width out = 90%nat /\
    ~ Z.of_nat (width out) <= 50.
Proof.
  intros img.
  assert (E1 : fit_new_dims 100 90 100 50 = Ok (Some (90, 100)))
    by (vm_compute; reflexivity).
  assert (E2 : fit_new_dims 100 90 200 50 = Ok (Some (180, 200)))
    by (vm_compute; reflexivity).
  assert (R1 : forall f, fit_image_within f img 100 50 w
                         = (logged w [(INFO, MsgResizing (100, 90)%nat (90, 100))],
                            f img (90, 100))).
  { intros f. unfold fit_image_within, shape. subst img.
    cbn [height width Sample.grid]. rewrite E1.
    now rewrite bind_lift_ok, bind_logging. }
  split; [apply R1|]. split.
  - unfold fit_image_within, shape. subst img.
    cbn [height width Sample.grid]. rewrite E2.
    now rewrite bind_lift_ok, bind_logging.
  - rewrite R1. eexists. split; [reflexivity|].
    split; [reflexivity|]. split; [reflexivity|]. cbn. lia.
Qed.

(* ================================================================== *)
(** ** Properties of [find_homography] *)
(* ================================================================== *)

(** C7: with fewer than four correspondences [find_homography] raises
    before it logs or calls the estimator ([ValueError] from the unpacking
    of an empty list, [AssertionError] from the assertion otherwise) and
    leaves the world as it was; with four or more the assertion passes and
    the estimator is called on the two point lists, in pairing order. *)
Theorem find_homography_guard
    (cv2_findHomography : list (Q * Q) -> list (Q * Q) -> result (Homography * list bool))
    (kp_pairs : list (KeyPoint * KeyPoint)) (w : World) :
  (kp_pairs = [] ->
   find_homography cv2_findHomography kp_pairs w = (w, Raise ValueError)) /\
  (kp_pairs <> [] -> (length kp_pairs < 4)%nat ->
   find_homography cv2_findHomography kp_pairs w = (w, Raise AssertionError)) /\
  ((4 <= length kp_pairs)%nat ->
   find_homography cv2_findHomography kp_pairs w
   = match cv2_findHomography (map pt (map fst kp_pairs))
                              (map pt (map snd kp_pairs)) with
     | Ok (H, mask) =>
         (logged w [(DEBUG, MsgFindingHomography);
                    (INFO, MsgInliers (count_occ bool_dec mask true) (length mask))],
          Ok (H, mask))
     | Raise e => (logged w [(DEBUG, MsgFindingHomography)], Raise e)
     end).
Proof.
  split; [intros ->; reflexivity|].
  destruct kp_pairs as [|p rest]; [split; [congruence|simpl; lia]|].
  unfold find_homography. cbn [unzip_rows]. rewrite bind_lift_ok.
  split.
  - intros _ Hlen. apply Nat.leb_gt in Hlen. rewrite Hlen. reflexivity.
  - intros Hlen. apply Nat.leb_le in Hlen. rewrite Hlen.
    unfold assert. rewrite bind_ret, bind_logging.
    destruct (cv2_findHomography _ _) as [[H mask]|e].
    + rewrite bind_lift_ok, bind_logging, logged_logged. reflexivity.
    + reflexivity.
Qed.

Lemma find_homography_guard_witness :
  find_homography Sample.find_translation [] Sample.world0
  = (Sample.world0, Raise ValueError) /\
  find_homography Sample.find_translation Sample.two_pairs Sample.world0
  = (Sample.world0, Raise AssertionError) /\
  find_homography Sample.find_translation Sample.four_pairs Sample.world0
  = (logged Sample.world0 [(DEBUG, MsgFindingHomography); (INFO, MsgInliers 4 4)],
     Ok (Sample.translation 30 40, [true; true; true; true])).
Proof.
  split; [|split].
  - apply (proj1 (find_homography_guard Sample.find_translation [] Sample.world0)).
    reflexivity.
  - apply (proj1 (proj2 (find_homography_guard Sample.find_translation
                           Sample.two_pairs Sample.world0))).
    + discriminate.
    + simpl; lia.
  - rewrite (proj2 (proj2 (find_homography_guard Sample.find_translation
                             Sample.four_pairs Sample.world0)))
      by (simpl; lia).
    reflexivity.
Defined.

(* ================================================================== *)
(** ** Properties of [locate_thumbnail] *)
(* ================================================================== *)

Section Locate.

Variable open_image : string -> result (string * Image).
Variable Descriptors : Type.
Variable detectAndCompute : Image -> list KeyPoint * Descriptors.
Variable knnMatch : Descriptors -> Descriptors -> result (list (DMatch * DMatch)).
Variable cv2_findHomography :
  list (Q * Q) -> list (Q * Q) -> result (Homography * list bool).
Variable cv2_resize : Image -> Z * Z -> result Image.
Variable splitext : string -> string * string.
Variable draw_matches :
  Image -> Image -> option Image -> option CropBox ->
  list (KeyPoint * KeyPoint) -> option (list bool) -> result Image.

Lemma bind_run {A B} (c : M A) (k : A -> M B) (w w' : World) (a : A) :
  c w = (w', Ok a) -> bind c k w = k a w'.
Proof. intros E. unfold bind. now rewrite E. Qed.

Lemma bind_run_raise {A B} (c : M A) (k : A -> M B) (w w' : World) (e : exn) :
  c w = (w', Raise e) -> bind c k w = (w', Raise e).
Proof. intros E. unfold bind. now rewrite E. Qed.

(** [match_images] only logs. *)
Lemma match_images_logs (template source : Image) (w : World) :
  exists r,
    match_images detectAndCompute knnMatch template source w
    = (logged w [(DEBUG, MsgFeatures (length (fst (detectAndCompute template)))
                                     (length (fst (detectAndCompute source))))],
       r).
Proof.
  unfold match_images.
  destruct (detectAndCompute template) as [kp1 desc1].
  destruct (detectAndCompute source) as [kp2 desc2].
  rewrite bind_logging. cbn [fst].
  destruct (knnMatch desc1 desc2) as [raw|e].
  - rewrite bind_lift_ok.
    destruct (filter_matches kp1 kp2 raw filter_matches_default_ratio) as [l|e].
    + rewrite bind_lift_ok. unfold ret. eauto.
    + rewrite bind_lift_raise. eauto.
  - rewrite bind_lift_raise. eauto.
Qed.

(** Without a reconstruction to fit, [visualize_matches] only draws. *)
Lemma visualize_matches_none (source_image original_thumbnail : Image)
    (corners : option CropBox) (kp_pairs : list (KeyPoint * KeyPoint))
    (mask : option (list bool)) (w : World) :
  visualize_matches cv2_resize draw_matches source_image original_thumbnail
    None corners kp_pairs mask w
  = (w, draw_matches source_image original_thumbnail None corners kp_pairs mask).
Proof. unfold visualize_matches, shape. now rewrite bind_ret. Qed.

Lemma locate_thumbnail_few_matches
    (thumbnail_filename source_filename : string)
    (display save_visualization save_reconstruction : bool)
    (reconstruction_format : string) (w : World)
    (thumbnail_basename source_basename : string)
    (thumbnail_image source_image : Image)
    (w1 : World) (kp_pairs : list (KeyPoint * KeyPoint)) :
  open_image thumbnail_filename = Ok (thumbnail_basename, thumbnail_image) ->
  open_image source_filename = Ok (source_basename, source_image) ->
  match_images detectAndCompute knnMatch thumbnail_image source_image
    (logged w [(INFO, MsgAttempting thumbnail_filename source_filename)])
  = (w1, Ok kp_pairs) ->
  (length kp_pairs < 4)%nat ->
  exists w' r tail,
    locate_thumbnail open_image detectAndCompute knnMatch cv2_findHomography
      cv2_resize splitext draw_matches thumbnail_filename source_filename
      display save_visualization save_reconstruction reconstruction_format w
    = (w', r) /\
    stdout w' = stdout w /\
    log w' = log w1 ++ (WARNING, MsgFoundOnly (length kp_pairs)) :: tail /\
    Forall is_saved_visualization tail /\
    (display = false -> save_visualization = false ->
     w' = logged w1 [(WARNING, MsgFoundOnly (length kp_pairs))] /\ r = Ok tt).
Proof.
  intros Ho1 Ho2 Hm Hlen.
  assert (Hout : stdout w1 = stdout w).
  { destruct (match_images_logs thumbnail_image source_image
                (logged w [(INFO, MsgAttempting thumbnail_filename source_filename)]))
      as [r Hr].
    rewrite Hr in Hm. injection Hm as <- _. reflexivity. }
  unfold locate_thumbnail.
  rewrite Ho1, bind_lift_ok. cbv beta iota zeta.
  rewrite Ho2, bind_lift_ok. cbv beta iota zeta.
  rewrite bind_logging, (@bind_run _ _ _ _ _ _ _ Hm).
  apply Nat.leb_gt in Hlen. rewrite Hlen.
  rewrite bind_bind, bind_logging, bind_ret.
  cbn [title new_thumbnail corners mask].
  set (w2 := logged w1 [(WARNING, MsgFoundOnly (length kp_pairs))]).
  destruct display, save_visualization; cbn [orb];
    try rewrite bind_bind;
    try (unfold bind at 1; rewrite visualize_matches_none;
         destruct (draw_matches source_image thumbnail_image None None kp_pairs None)
           as [v|e]).
  all: try (exists w2, (Raise e), []; repeat split; auto; discriminate).
  - rewrite bind_ret.
    destruct (splitext thumbnail_filename) as [root ext].
    do 3 eexists. split; [reflexivity|]. cbn [stdout log logged w2].
    split; [exact Hout|]. rewrite <- app_assoc. cbn [app].
    split; [reflexivity|]. split; [|discriminate].
    repeat constructor. eexists; reflexivity.
  - rewrite bind_ret.
    exists w2, (Raise UnboundLocalError), []. repeat split; auto; discriminate.
  - rewrite bind_ret.
    destruct (splitext thumbnail_filename) as [root ext].
    do 3 eexists. split; [reflexivity|]. cbn [stdout log logged w2].
    split; [exact Hout|]. rewrite <- app_assoc. cbn [app].
    split; [reflexivity|]. split; [|discriminate].
    repeat constructor. eexists; reflexivity.
  - exists w2, (Ok tt), []. repeat split; auto.
Qed.

(** With too few matches and [display] set, the window title was never
    bound: the call ends in [UnboundLocalError] once the visualization
    is drawn. *)
Remark locate_thumbnail_few_matches_display
    (thumbnail_filename source_filename : string)
    (save_reconstruction : bool) (reconstruction_format : string) (w : World)
    (thumbnail_basename source_basename : string)
    (thumbnail_image source_image vis : Image)
    (w1 : World) (kp_pairs : list (KeyPoint * KeyPoint)) :
  open_image thumbnail_filename = Ok (thumbnail_basename, thumbnail_image) ->
  open_image source_filename = Ok (source_basename, source_image) ->
  match_images detectAndCompute knnMatch thumbnail_image source_image
    (logged w [(INFO, MsgAttempting thumbnail_filename source_filename)])
  = (w1, Ok kp_pairs) ->
  (length kp_pairs < 4)%nat ->
  draw_matches source_image thumbnail_image None None kp_pairs None = Ok vis ->
  locate_thumbnail open_image detectAndCompute knnMatch cv2_findHomography
    cv2_resize splitext draw_matches thumbnail_filename source_filename
    true false save_reconstruction reconstruction_format w
  = (logged w1 [(WARNING, MsgFoundOnly (length kp_pairs))],
     Raise UnboundLocalError).
Proof.
  intros Ho1 Ho2 Hm Hlen Hd.
  unfold locate_thumbnail.
  rewrite Ho1, bind_lift_ok. cbv beta iota zeta.
  rewrite Ho2, bind_lift_ok. cbv beta iota zeta.
  rewrite bind_logging, (@bind_run _ _ _ _ _ _ _ Hm).
  apply Nat.leb_gt in Hlen. rewrite Hlen.
  rewrite bind_bind, bind_logging, bind_ret.
  cbn [title new_thumbnail corners mask orb].
  rewrite bind_bind. unfold bind at 1.
  rewrite visualize_matches_none, Hd. now rewrite bind_ret.
Qed.

End Locate.

(** With too few matches the outcome of [locate_thumbnail] does not depend
    on the estimator or on the resampler: neither is called. *)
Lemma locate_thumbnail_few_matches_skips
    (open_image : string -> result (string * Image))
    (Descriptors : Type)
    (detectAndCompute : Image -> list KeyPoint * Descriptors)
    (knnMatch : Descriptors -> Descriptors -> result (list (DMatch * DMatch)))
    (estimator estimator' :
       list (Q * Q) -> list (Q * Q) -> result (Homography * list bool))
    (resize resize' : Image -> Z * Z -> result Image)
    (splitext : string -> string * string)
    (draw_matches :
       Image -> Image -> option Image -> option CropBox ->
       list (KeyPoint * KeyPoint) -> option (list bool) -> result Image)
    (thumbnail_filename source_filename : string)
    (display save_visualization save_reconstruction : bool)
    (reconstruction_format : string) (w : World)
    (thumbnail_basename source_basename : string)
    (thumbnail_image source_image : Image)
    (w1 : World) (kp_pairs : list (KeyPoint * KeyPoint)) :
  open_image thumbnail_filename = Ok (thumbnail_basename, thumbnail_image) ->
  open_image source_filename = Ok (source_basename, source_image) ->
  match_images detectAndCompute knnMatch thumbnail_image source_image
    (logged w [(INFO, MsgAttempting thumbnail_filename source_filename)])
  = (w1, Ok kp_pairs) ->
  (length kp_pairs < 4)%nat ->
  locate_thumbnail open_image detectAndCompute knnMatch estimator
    resize splitext draw_matches thumbnail_filename source_filename
    display save_visualization save_reconstruction reconstruction_format w
  = locate_thumbnail open_image detectAndCompute knnMatch estimator'
      resize' splitext draw_matches thumbnail_filename source_filename
      display save_visualization save_reconstruction reconstruction_format w.
Proof.
  intros Ho1 Ho2 Hm Hlen.
  unfold locate_thumbnail.
  rewrite Ho1, !bind_lift_ok. cbv beta iota zeta.
  rewrite Ho2, !bind_lift_ok. cbv beta iota zeta.
  rewrite !bind_logging, !(@bind_run _ _ _ _ _ _ _ Hm).
  apply Nat.leb_gt in Hlen. rewrite Hlen.
  rewrite !bind_bind, !bind_logging, !bind_ret.
  cbn [title new_thumbnail corners mask].
  destruct (display || save_visualization); [|reflexivity].
  rewrite !bind_bind. unfold bind at 1 3.
  now rewrite !visualize_matches_none.
Qed.

(** C2: when [match_images] returns fewer than four correspondences,
    [locate_thumbnail] prints no report on standard output and logs the
    warning carrying the number of matches; after it only the record of a
    saved visualization may follow, so neither [find_homography] nor
    [reconstruct_thumbnail] ran, and the outcome is the same whatever the
    estimator and the resampler are.  Without display and visualization
    the call returns with the warning as its last log record. *)
Theorem locate_thumbnail_insufficient_matches
    (open_image : string -> result (string * Image))
    (Descriptors : Type)
    (detectAndCompute : Image -> list KeyPoint * Descriptors)
    (knnMatch : Descriptors -> Descriptors -> result (list (DMatch * DMatch)))
    (cv2_findHomography :
       list (Q * Q) -> list (Q * Q) -> result (Homography * list bool))
    (cv2_resize : Image -> Z * Z -> result Image)
    (splitext : string -> string * string)
    (draw_matches :
       Image -> Image -> option Image -> option CropBox ->
       list (KeyPoint * KeyPoint) -> option (list bool) -> result Image)
    (thumbnail_filename source_filename : string)
    (display save_visualization save_reconstruction : bool)
    (reconstruction_format : string) (w : World)
    (thumbnail_basename source_basename : string)
    (thumbnail_image source_image : Image)
    (w1 : World) (kp_pairs : list (KeyPoint * KeyPoint)) :
  open_image thumbnail_filename = Ok (thumbnail_basename, thumbnail_image) ->
  open_image source_filename = Ok (source_basename, source_image) ->
  match_images detectAndCompute knnMatch thumbnail_image source_image
    (logged w [(INFO, MsgAttempting thumbnail_filename source_filename)])
  = (w1, Ok kp_pairs) ->
  (length kp_pairs < 4)%nat ->
  (exists w' r tail,
      locate_thumbnail open_image detectAndCompute knnMatch cv2_findHomography
        cv2_resize splitext draw_matches thumbnail_filename source_filename
        display save_visualization save_reconstruction reconstruction_format w
      = (w', r) /\
      stdout w' = stdout w /\
      log w' = log w1 ++ (WARNING, MsgFoundOnly (length kp_pairs)) :: tail /\
      Forall is_saved_visualization tail /\
      (display = false -> save_visualization = false ->
       w' = logged w1 [(WARNING, MsgFoundOnly (length kp_pairs))] /\ r = Ok tt)) /\
  (forall estimator' resize',
      locate_thumbnail open_image detectAndCompute knnMatch cv2_findHomography
        cv2_resize splitext draw_matches thumbnail_filename source_filename
        display save_visualization save_reconstruction reconstruction_format w
      = locate_thumbnail open_image detectAndCompute knnMatch estimator'
          resize' splitext draw_matches thumbnail_filename source_filename
          display save_visualization save_reconstruction reconstruction_format w).
Proof.
  intros Ho1 Ho2 Hm Hlen. split.
  - eapply locate_thumbnail_few_matches; eassumption.
  - intros estimator' resize'.
    eapply locate_thumbnail_few_matches_skips; eassumption.
Qed.

Lemma locate_thumbnail_insufficient_matches_witness :
  exists w',
    locate_thumbnail Sample.open_image Sample.detectAndCompute Sample.knn_ambiguous
      Sample.find_translation Sample.resize_nearest Sample.splitext
      Sample.draw_matches "thumb.jpg" "master.jpg" false false false "jpg"
      Sample.world0
    = (w', Ok tt) /\
    stdout w' = [] /\
    log w' = [(INFO, MsgAttempting "thumb.jpg" "master.jpg");
              (DEBUG, MsgFeatures 4 4);
              (WARNING, MsgFoundOnly 3)].
Proof.
  destruct (match_images Sample.detectAndCompute Sample.knn_ambiguous
              (Sample.grid 20 20) (Sample.grid 100 100)
              (logged Sample.world0 [(INFO, MsgAttempting "thumb.jpg" "master.jpg")]))
    as [w1 [kp_pairs|e]] eqn:Hm.
  - pose proof Hm as Hv. vm_compute in Hv. injection Hv as Hw1 Hkp.
    assert (Hlen : (length kp_pairs < 4)%nat) by (rewrite <- Hkp; simpl; lia).
    destruct (locate_thumbnail_insufficient_matches
                Sample.open_image Sample.detectAndCompute Sample.knn_ambiguous
                Sample.find_translation Sample.resize_nearest Sample.splitext
                Sample.draw_matches "thumb.jpg" "master.jpg" false false false "jpg"
                Sample.world0 eq_refl eq_refl Hm Hlen)
      as [(w' & r & tail & Hrun & Hout & Hlog & Htail & Hret) _].
    destruct (Hret eq_refl eq_refl) as [Hw' Hr].
    exists w'. rewrite Hrun, Hr. split; [reflexivity|].
    split; [exact Hout|].
    rewrite Hw', <- Hw1, <- Hkp. reflexivity.
  - vm_compute in Hm. discriminate.
Defined.

(* ================================================================== *)
(** ** What the pipeline prints *)
(* ================================================================== *)

Section Emits.

Variable P : Report -> Prop.

Lemma emits_logs {A} (c : M A) :
  (forall w, exists msgs r, c w = (logged w msgs, r)) -> emits P c.
Proof.
  intros H w. destruct (H w) as (msgs & r & ->).
  exists []. cbn [fst]. rewrite stdout_logged, app_nil_r. auto.
Qed.

Lemma emits_ret {A} (a : A) : emits P (ret a).
Proof. intros w. exists []. simpl. rewrite app_nil_r. auto. Qed.

Lemma emits_lift {A} (r : result A) : emits P (lift r).
Proof. intros w. exists []. simpl. rewrite app_nil_r. auto. Qed.

Lemma emits_logging (l : Level) (m : Message) : emits P (logging l m).
Proof. intros w. exists []. simpl. rewrite app_nil_r. auto. Qed.

Lemma emits_imwrite (f : string) (img : Image) : emits P (imwrite f img).
Proof. intros w. exists []. simpl. rewrite app_nil_r. auto. Qed.

Lemma emits_imshow (t : Message) (img : Image) : emits P (imshow t img).
Proof. intros w. exists []. simpl. rewrite app_nil_r. auto. Qed.

Lemma emits_print_json (r : Report) : P r -> emits P (print_json r).
Proof. intros H w. exists [r]. simpl. auto. Qed.

Lemma emits_bind {A B} (Q : A -> Prop) (c : M A) (k : A -> M B) :
  emits P c -> returns Q c -> (forall a, Q a -> emits P (k a)) ->
  emits P (bind c k).
Proof.
  intros Hc Hq Hk w. unfold bind.
  destruct (Hc w) as (new1 & E1 & F1).
  destruct (c w) as [w1 [a|e]] eqn:E; cbn [fst] in E1.
  - destruct (Hk a (Hq _ _ _ E) w1) as (new2 & E2 & F2).
    exists (new1 ++ new2). rewrite E2, E1, app_assoc.
    split; [reflexivity|]. apply Forall_app. auto.
  - exists new1. auto.
Qed.

Lemma returns_any {A} (c : M A) : returns (fun _ => True) c.
Proof. intros w w' a _. exact I. Qed.

Lemma emits_seq {A B} (c : M A) (k : A -> M B) :
  emits P c -> (forall a, emits P (k a)) -> emits P (bind c k).
Proof.
  intros Hc Hk. apply emits_bind with (Q := fun _ => True); auto.
  apply returns_any.
Qed.

End Emits.

Section LocateReports.

Variable open_image : string -> result (string * Image).
Variable Descriptors : Type.
Variable detectAndCompute : Image -> list KeyPoint * Descriptors.
Variable knnMatch : Descriptors -> Descriptors -> result (list (DMatch * DMatch)).
Variable cv2_findHomography :
  list (Q * Q) -> list (Q * Q) -> result (Homography * list bool).
Variable cv2_resize : Image -> Z * Z -> result Image.
Variable splitext : string -> string * string.
Variable draw_matches :
  Image -> Image -> option Image -> option CropBox ->
  list (KeyPoint * KeyPoint) -> option (list bool) -> result Image.

Lemma find_homography_logs (kp_pairs : list (KeyPoint * KeyPoint)) (w : World) :
  exists msgs r,
    find_homography cv2_findHomography kp_pairs w = (logged w msgs, r).
Proof.
  unfold find_homography.
  destruct (unzip_rows kp_pairs) as [[mkp1 mkp2]|e].
  - rewrite bind_lift_ok. unfold assert.
    destruct (4 <=? length kp_pairs)%nat.
    + rewrite bind_ret, bind_logging.
      destruct (cv2_findHomography _ _) as [[H mask]|e].
      * rewrite bind_lift_ok, bind_logging, logged_logged. unfold ret. eauto.
      * rewrite bind_lift_raise. eauto.
    + rewrite bind_lift_raise. exists [], (Raise AssertionError).
      now rewrite logged_nil.
  - rewrite bind_lift_raise. exists [], (Raise e). now rewrite logged_nil.
Qed.

(** The crop box [reconstruct_thumbnail] returns has its bounds in
    order. *)
Lemma reconstruct_thumbnail_returns_ordered (thumbnail_image source_image : Image)
    (kp_pairs : list (KeyPoint * KeyPoint)) (H : Homography)
    (downsize_reconstruction : bool) :
  returns (fun r => crop_ordered (snd (fst r)))
          (reconstruct_thumbnail cv2_resize thumbnail_image source_image
             kp_pairs H downsize_reconstruction).
Proof.
  intros w w' [[img crop] rotation] Hrun.
  destruct (reconstruct_thumbnail_spec cv2_resize thumbnail_image source_image
              kp_pairs H downsize_reconstruction w)
    as (crop0 & rot0 & img0 & msgs & r & (B1 & B2 & B3 & B4) & _ & Hrun0 & Hinv & _).
  rewrite Hrun0 in Hrun. injection Hrun as _ ->.
  destruct (Hinv _ _ _ eq_refl) as [-> _].
  cbn [fst snd]. split; eapply is_min_le_is_max; eassumption.
Qed.

Lemma visualize_matches_logs (source_image original_thumbnail : Image)
    (reconstructed : option Image) (corners : option CropBox)
    (kp_pairs : list (KeyPoint * KeyPoint)) (mask : option (list bool))
    (w : World) :
  exists msgs r,
    visualize_matches cv2_resize draw_matches source_image original_thumbnail
      reconstructed corners kp_pairs mask w = (logged w msgs, r).
Proof.
  unfold visualize_matches, shape.
  destruct reconstructed as [img|].
  - destruct (fit_image_within_logs cv2_resize img
                (Z.of_nat (height original_thumbnail))
                (Z.of_nat (width original_thumbnail)) w) as (msgs & [img'|e] & E).
    + rewrite bind_bind, (@bind_run _ _ _ _ _ _ _ E), bind_ret.
      unfold lift. eauto.
    + rewrite bind_bind, (@bind_run_raise _ _ _ _ _ _ _ E). eauto.
  - rewrite bind_ret. unfold lift. exists []. rewrite logged_nil. eauto.
Qed.

(** Every report of [locate_thumbnail] has a bounding box whose height
    and width are not negative. *)
Lemma locate_thumbnail_emits
    (thumbnail_filename source_filename : string)
    (display save_visualization save_reconstruction : bool)
    (reconstruction_format : string) :
  emits bounding_box_nonnegative
    (locate_thumbnail open_image detectAndCompute knnMatch cv2_findHomography
       cv2_resize splitext draw_matches thumbnail_filename source_filename
       display save_visualization save_reconstruction reconstruction_format).
Proof.
  unfold locate_thumbnail.
  apply emits_seq; [apply emits_lift|]. intros [thumbnail_basename thumbnail_image].
  apply emits_seq; [apply emits_lift|]. intros [source_basename source_image].
  apply emits_seq; [apply emits_logging|]. intros _.
  apply emits_seq.
  { apply emits_logs. intros w.
    destruct (match_images_logs detectAndCompute knnMatch thumbnail_image
                source_image w) as [r Hr]. eauto. }
  intros kp_pairs.
  apply emits_seq.
  { destruct (4 <=? length kp_pairs)%nat.
    - apply emits_seq; [apply emits_logging|]. intros _.
      apply emits_seq; [apply emits_logs, find_homography_logs|].
      intros [H mask].
      eapply emits_bind.
      + apply emits_logs. intros w.
        destruct (reconstruct_thumbnail_spec cv2_resize thumbnail_image
                    source_image kp_pairs H
                    reconstruct_thumbnail_default_downsize w)
          as (? & ? & ? & msgs & r & _ & _ & Hrun & _). eauto.
      + apply reconstruct_thumbnail_returns_ordered.
      + intros [[new_thumbnail corners] rotation] [Hy Hx]. cbn [fst snd] in Hy, Hx.
        apply emits_seq.
        * apply emits_print_json. unfold bounding_box_nonnegative.
          cbn [bounding_box_height bounding_box_width]. lia.
        * intros _. apply emits_seq; [|intros _; apply emits_ret].
          destruct save_reconstruction; [|apply emits_ret].
          apply emits_seq; [apply emits_imwrite|intros _; apply emits_logging].
    - apply emits_seq; [apply emits_logging|intros _; apply emits_ret]. }
  intros locals.
  apply emits_seq.
  { destruct (display || save_visualization); [|apply emits_ret].
    apply emits_seq; [|intros v; apply emits_ret].
    apply emits_logs. apply visualize_matches_logs. }
  intros vis_image.
  apply emits_seq.
  { destruct save_visualization; [|apply emits_ret].
    destruct vis_image as [v|]; [|apply emits_lift].
    destruct (splitext thumbnail_filename) as [root ext].
    apply emits_seq; [apply emits_imwrite|intros _; apply emits_logging]. }
  intros _.
  destruct display; [|apply emits_ret].
  destruct (title locals); [|apply emits_lift].
  destruct vis_image; [apply emits_imshow|apply emits_lift].
Qed.

End LocateReports.

(** C10: the crop box [reconstruct_thumbnail] returns has
    [y_min <= y_max] and [x_min <= x_max], and it is returned for every
    homography and template when downsizing is off; every report
    [locate_thumbnail] prints has a height and a width that are not
    negative. *)
Theorem crop_box_bounds_ordered
    (open_image : string -> result (string * Image))
    (Descriptors : Type)
    (detectAndCompute : Image -> list KeyPoint * Descriptors)
    (knnMatch : Descriptors -> Descriptors -> result (list (DMatch * DMatch)))
    (cv2_findHomography :
       list (Q * Q) -> list (Q * Q) -> result (Homography * list bool))
    (cv2_resize : Image -> Z * Z -> result Image)
    (splitext : string -> string * string)
    (draw_matches :
       Image -> Image -> option Image -> option CropBox ->
       list (KeyPoint * KeyPoint) -> option (list bool) -> result Image)
    (thumbnail_image source_image : Image)
    (kp_pairs : list (KeyPoint * KeyPoint)) (H : Homography)
    (thumbnail_filename source_filename : string)
    (display save_visualization save_reconstruction : bool)
    (reconstruction_format : string)
    (w : World) :
  (forall downsize_reconstruction w' img y_min y_max x_min x_max rotation,
      reconstruct_thumbnail cv2_resize thumbnail_image source_image kp_pairs H
                            downsize_reconstruction w
      = (w', Ok (img, ((y_min, y_max), (x_min, x_max)), rotation)) ->
      y_min <= y_max /\ x_min <= x_max) /\
  (exists w' img y_min y_max x_min x_max rotation,
      reconstruct_thumbnail cv2_resize thumbnail_image source_image kp_pairs H
                            false w
      = (w', Ok (img, ((y_min, y_max), (x_min, x_max)), rotation)) /\
      y_min <= y_max /\ x_min <= x_max) /\
  (exists reports,
      stdout (fst (locate_thumbnail open_image detectAndCompute knnMatch
                     cv2_findHomography cv2_resize splitext draw_matches
                     thumbnail_filename source_filename display save_visualization
                     save_reconstruction reconstruction_format w))
      = stdout w ++ reports /\
      Forall (fun r => 0 <= bounding_box_height r /\ 0 <= bounding_box_width r)
             reports).
Proof.
  assert (Hord : forall downsize_reconstruction w' img y_min y_max x_min x_max rotation,
             reconstruct_thumbnail cv2_resize thumbnail_image source_image kp_pairs H
               downsize_reconstruction w
             = (w', Ok (img, ((y_min, y_max), (x_min, x_max)), rotation)) ->
             y_min <= y_max /\ x_min <= x_max).
  { intros downsize w' img y_min y_max x_min x_max rotation Hrun.
    exact (@reconstruct_thumbnail_returns_ordered cv2_resize thumbnail_image
             source_image kp_pairs H downsize _ _ _ Hrun). }
  split; [exact Hord|]. split.
  - destruct (reconstruct_thumbnail_spec cv2_resize thumbnail_image source_image
                kp_pairs H false w)
      as ([[y_min y_max] [x_min x_max]] & rotation & img & msgs & r & _ & _ & Hrun & _ & Hret).
    rewrite (Hret eq_refl) in Hrun.
    exists (logged w msgs), img, y_min, y_max, x_min, x_max, rotation.
    split; [exact Hrun|]. exact (Hord _ _ _ _ _ _ _ _ Hrun).
  - apply (locate_thumbnail_emits open_image detectAndCompute knnMatch
             cv2_findHomography cv2_resize splitext draw_matches).
Qed.

Lemma crop_box_bounds_ordered_witness :
  (40 <= 60 /\ 30 <= 50) /\
  exists r,
    stdout (fst (locate_thumbnail Sample.open_image Sample.detectAndCompute
                   Sample.knn_clear Sample.find_translation Sample.resize_nearest
                   Sample.splitext Sample.draw_matches
                   "thumb.jpg" "master.jpg" false false false "jpg" Sample.world0))
    = [r] /\
    bounding_box_y r = 40 /\ bounding_box_x r = 30 /\
    0 <= bounding_box_height r /\ 0 <= bounding_box_width r.
Proof.
  destruct (crop_box_bounds_ordered Sample.open_image Sample.detectAndCompute
              Sample.knn_clear Sample.find_translation Sample.resize_nearest
              Sample.splitext Sample.draw_matches
              (Sample.grid 20 20) (Sample.grid 100 100) []
              (Sample.translation 30 40)
              "thumb.jpg" "master.jpg" false false false "jpg" Sample.world0)
    as (Hord & _ & reports & Hout & Hall).
  split.
  - assert (E : exists w1 img1 rotation1,
               reconstruct_thumbnail Sample.resize_nearest (Sample.grid 20 20)
                 (Sample.grid 100 100) [] (Sample.translation 30 40) false
                 Sample.world0
               = (w1, Ok (img1, ((40, 60), (30, 50)), rotation1)))
      by (vm_compute; do 3 eexists; reflexivity).
    destruct E as (w1 & img1 & rotation1 & E).
    exact (Hord false w1 img1 40 60 30 50 rotation1 E).
  - rewrite Hout. cbn [Sample.world0 stdout app].
    vm_compute in Hout. subst reports.
    inversion Hall as [|r0 l0 Hr0 _]; subst.
    eexists. split; [reflexivity|]. split; [reflexivity|]. split; [reflexivity|].
    exact Hr0.
Defined.

(** The report of the sample run. *)
Example locate_thumbnail_sample_report :
  stdout (fst (locate_thumbnail Sample.open_image Sample.detectAndCompute
                 Sample.knn_clear Sample.find_translation Sample.resize_nearest
                 Sample.splitext Sample.draw_matches
                 "thumb.jpg" "master.jpg" false false false "jpg" Sample.world0))
  = [ {| master_source := "master.jpg";
         master_dimensions := (100, 100)%nat;
         thumbnail_source := "thumb.jpg";
         thumbnail_dimensions := (20, 20)%nat;
         bounding_box_height := 20;
         bounding_box_width := 20;
         bounding_box_x := 30;
         bounding_box_y := 40;
         rotation_degrees := 0 |} ].
Proof. vm_compute. reflexivity. Qed.


(* ================================================================== *)
(** ** Further properties of [filter_matches] *)
(* ================================================================== *)

Section Indexing.

Context {A : Type}.

Lemma getitem_ok (l : list A) (i : Z) (a : A) :
  getitem l i = Ok a -> valid_index (length l) i /\ In a l.
Proof.
  unfold getitem, valid_index.
  destruct (i <? 0) eqn:Ei;
    [apply Z.ltb_lt in Ei | apply Z.ltb_ge in Ei];
    match goal with
    | |- context [(0 <=? ?j) && (?j <? ?n)] =>
        destruct (0 <=? j) eqn:E0; [apply Z.leb_le in E0|discriminate];
        destruct (j <? n) eqn:E1; [apply Z.ltb_lt in E1|discriminate]
    end; cbn [andb];
    match goal with
    | |- context [nth_error l ?k] => destruct (nth_error l k) eqn:En; [|discriminate]
    end;
    intros E; injection E as <-; (split; [lia|eapply nth_error_In; eassumption]).
Qed.


Lemma getitem_invalid (l : list A) (i : Z) :
  ~ valid_index (length l) i -> getitem l i = Raise IndexError.
Proof.
  intros Hi. destruct (getitem l i) as [a|e] eqn:E.
  - apply getitem_ok in E. tauto.
  - unfold getitem in E.
    destruct ((0 <=? _) && (_ <? _)) in E; [|now injection E as <-].
    destruct (nth_error l _) in E; [discriminate|now injection E as <-].
Qed.


End Indexing.

Section FilterMatchesMore.

Variables kp1 kp2 : list KeyPoint.

Lemma correspondence_ok (m : DMatch * DMatch) (p : KeyPoint * KeyPoint) :
  correspondence kp1 kp2 m = Ok p ->
  lookup_valid kp1 kp2 m /\ In (fst p) kp1 /\ In (snd p) kp2.
Proof.
  unfold correspondence, lookup_valid.
  destruct (getitem kp1 _) as [a|e] eqn:Ea; [|discriminate].
  destruct (getitem kp2 _) as [b|e] eqn:Eb; [|discriminate].
  cbn [rbind]. intros E. injection E as <-.
  apply getitem_ok in Ea, Eb. cbn [fst snd]. tauto.
Qed.





Lemma mapM_length {X Y} (f : X -> result Y) (l : list X) (ys : list Y) :
  mapM f l = Ok ys -> length ys = length l.
Proof.
  intros H. apply mapM_Forall2 in H.
  induction H; simpl; congruence.
Qed.

Lemma mapM_app {X Y} (f : X -> result Y) (l1 l2 : list X) :
  mapM f (l1 ++ l2) =
  rbind (mapM f l1) (fun ys1 => rbind (mapM f l2) (fun ys2 => Ok (ys1 ++ ys2))).
Proof.
  induction l1 as [|x l1 IH]; simpl.
  - now destruct (mapM f l2).
  - destruct (f x) as [y|e]; cbn [rbind]; [|reflexivity].
    rewrite IH. destruct (mapM f l1) as [ys1|e]; cbn [rbind]; [|reflexivity].
    now destruct (mapM f l2).
Qed.

End FilterMatchesMore.

(** X1: every correspondence [filter_matches] returns pairs a keypoint of
    the template list with a keypoint of the source list, and there are as
    many of them as matches passing the ratio test, at most one per raw
    match. *)
Theorem filter_matches_pairs_keypoints
    (kp1 kp2 : list KeyPoint) (matches : list (DMatch * DMatch)) (ratio : Q)
    (kp_pairs : list (KeyPoint * KeyPoint)) :
  filter_matches kp1 kp2 matches ratio = Ok kp_pairs ->
  length kp_pairs = length (filter (passes_ratio_test ratio) matches) /\
  (length kp_pairs <= length matches)%nat /\
  Forall (fun p => In (fst p) kp1 /\ In (snd p) kp2) kp_pairs.
Proof.
  rewrite filter_matches_spec. intros H.
  pose proof (mapM_length _ _ H) as Hlen.
  split; [exact Hlen|]. split.
  - rewrite Hlen. apply filter_length_le.
  - clear Hlen. apply mapM_Forall2 in H.
    induction H as [|m p l ps Hmp _ IH]; [constructor|].
    constructor; [|exact IH].
    apply correspondence_ok in Hmp. tauto.
Qed.

Lemma filter_matches_pairs_keypoints_witness :
  exists kp_pairs,
    filter_matches Sample.kp1 Sample.kp2 Sample.raw_matches (3 # 4) = Ok kp_pairs /\
    length kp_pairs = 3%nat /\
    Forall (fun p => In (fst p) Sample.kp1 /\ In (snd p) Sample.kp2) kp_pairs.
Proof.
  destruct (filter_matches Sample.kp1 Sample.kp2 Sample.raw_matches (3 # 4))
    as [kp_pairs|e] eqn:E; [|vm_compute in E; discriminate].
  destruct (filter_matches_pairs_keypoints _ _ _ _ E) as (Hlen & _ & Hin).
  exists kp_pairs. split; [reflexivity|]. split; [|exact Hin].
  rewrite Hlen. reflexivity.
Defined.



(** X3: a threshold that is not positive rejects every match whose two
    distances are not negative: [filter_matches] returns the empty list. *)
Theorem filter_matches_nonpositive_ratio
    (kp1 kp2 : list KeyPoint) (matches : list (DMatch * DMatch)) (ratio : Q) :
  (ratio <= 0)%Q ->
  Forall (fun m => 0 <= distance (fst m) /\ 0 <= distance (snd m))%Q matches ->
  filter_matches kp1 kp2 matches ratio = Ok [].
Proof.
  intros Hr Hd. rewrite filter_matches_spec.
  replace (filter (passes_ratio_test ratio) matches) with (@nil (DMatch * DMatch));
    [reflexivity|].
  symmetry. induction Hd as [|m rest [H1 H2] _ IH]; [reflexivity|].
  simpl. rewrite IH.
  destruct (passes_ratio_test ratio m) eqn:E; [|reflexivity].
  unfold passes_ratio_test in E. apply Qltb_lt in E.
  assert (ratio * distance (snd m) <= 0)%Q by nra.
  lra.
Qed.

Lemma filter_matches_nonpositive_ratio_witness :
  filter_matches Sample.kp1 Sample.kp2 Sample.raw_matches 0 = Ok [].
Proof.
  apply filter_matches_nonpositive_ratio.
  - unfold Qle; simpl; lia.
  - repeat constructor; unfold Qle; simpl; lia.
Defined.

(** X4: filtering a concatenation of match lists is filtering each list
    and concatenating the results, the first list's exception coming
    first. *)
Theorem filter_matches_app
    (kp1 kp2 : list KeyPoint) (matches1 matches2 : list (DMatch * DMatch))
    (ratio : Q) :
  filter_matches kp1 kp2 (matches1 ++ matches2) ratio =
  rbind (filter_matches kp1 kp2 matches1 ratio)
        (fun l1 => rbind (filter_matches kp1 kp2 matches2 ratio)
                         (fun l2 => Ok (l1 ++ l2))).
Proof.
  rewrite !filter_matches_spec, filter_app. apply mapM_app.
Qed.

(* ================================================================== *)
(** ** Further properties of [autorotate_image] *)
(* ================================================================== *)

Ltac decide_ltb :=
  repeat match goal with
         | |- context [?a <? ?b] =>
             destruct (Z.ltb_spec a b); try lia
         end.

(** X5: the corners of an axis-aligned rectangle, listed clockwise from
    any of its four corners, never match one of the three recognised
    orderings: [autorotate_image] answers 0 and returns the image as it
    is, whichever quarter turn the listing stands for. *)
Theorem autorotate_image_axis_aligned (img : Image) (x0 x1 y0 y1 : Z) :
  x0 < x1 -> y0 < y1 ->
  let top_left := (x0, y0) in
  let top_right := (x1, y0) in
  let bottom_right := (x1, y1) in
  let bottom_left := (x0, y1) in
  autorotate_image img [top_left; top_right; bottom_right; bottom_left]
  = Ok (0, img) /\
  autorotate_image img [top_right; bottom_right; bottom_left; top_left]
  = Ok (0, img) /\
  autorotate_image img [bottom_right; bottom_left; top_left; top_right]
  = Ok (0, img) /\
  autorotate_image img [bottom_left; top_left; top_right; bottom_right]
  = Ok (0, img).
Proof.
  intros Hx Hy. cbv zeta.
  unfold autorotate_image, high_corners_of, unzip_rows,
    Numpy.argmin, Numpy.argmax.
  cbn [map fst snd rbind Numpy.argmin_from Numpy.argmax_from].
  repeat split; decide_ltb; reflexivity.
Qed.

Lemma autorotate_image_axis_aligned_witness :
  autorotate_image (Sample.grid 3 5) [(10, 10); (0, 10); (0, 0); (10, 0)]
  = Ok (0, Sample.grid 3 5).
Proof.
  apply (proj1 (proj2 (proj2
           (autorotate_image_axis_aligned (Sample.grid 3 5)
              (x0 := 0) (x1 := 10) (y0 := 0) (y1 := 10) ltac:(lia) ltac:(lia))))).
Defined.

(** X6: [autorotate_image] raises, with [ValueError], exactly on an empty
    list of corners; otherwise its rotation is one of 0, 90, 180 and 270,
    the image is untouched for 0, keeps its shape for 180 and has its
    height and width exchanged for 90 and 270. *)
Theorem autorotate_image_shape (img : Image) (corners : list (Z * Z)) :
  (corners = [] <-> autorotate_image img corners = Raise ValueError) /\
  (forall rotation img',
      autorotate_image img corners = Ok (rotation, img') ->
      rotation_class rotation /\
      (rotation = 0 -> img' = img) /\
      (rotation = 180 -> shape img' = shape img) /\
      (rotation = 90 \/ rotation = 270 ->
       shape img' = (width img, height img))).
Proof.
  split.
  - destruct corners as [|c rest]; [split; reflexivity|].
    destruct (autorotate_image_total img c rest) as (r & i & E & _).
    rewrite E. split; discriminate.
  - intros rotation img' E.
    destruct corners as [|c rest]; [discriminate|].
    destruct (autorotate_image_total img c rest) as (r & i & E' & Hcases).
    rewrite E' in E. injection E as <- <-.
    unfold rotation_class.
    destruct Hcases as [H|[H|[H|H]]]; injection H as -> ->;
      (split; [tauto|]); repeat split; try reflexivity;
      try discriminate; intros [?|?]; discriminate.
Qed.

Lemma autorotate_image_shape_witness :
  exists img',
    autorotate_image (Sample.grid 3 5) Sample.corners_90 = Ok (90, img') /\
    shape img' = (5, 3)%nat.
Proof.
  destruct (autorotate_image (Sample.grid 3 5) Sample.corners_90)
    as [[rotation img']|e] eqn:E; [|vm_compute in E; discriminate].
  assert (Hr : rotation = 90) by (vm_compute in E; now injection E as <- _).
  subst rotation. exists img'. split; [reflexivity|].
  destruct (proj2 (autorotate_image_shape (Sample.grid 3 5) Sample.corners_90)
              90 img' E) as (_ & _ & _ & Hshape).
  apply Hshape. now left.
Defined.

(* ================================================================== *)
(** ** Further properties of [fit_image_within] *)
(* ================================================================== *)

Lemma int_round_le (x : Q) (n : Z) : (x <= inject_Z n)%Q -> int_round x <= n.
Proof.
  intros Hx. destruct (int_round_close x) as [Hlo _].
  destruct (Z_le_gt_dec (int_round x) n) as [Hle|Hgt]; [exact Hle|].
  assert (Hq : (inject_Z (n + 1) <= inject_Z (int_round x))%Q)
    by (rewrite <- Zle_Qle; lia).
  rewrite inject_Z_plus in Hq. change (inject_Z 1) with 1%Q in Hq. lra.
Qed.

Lemma scaled_side_le (a m b c : Z) :
  0 < b -> a * m <= c * b ->
  (inject_Z a * (inject_Z m / inject_Z b) <= inject_Z c)%Q.
Proof.
  intros Hb Hle.
  assert (Hbq : (0 < inject_Z b)%Q)
    by (change 0%Q with (inject_Z 0); rewrite <- Zlt_Qlt; exact Hb).
  assert (E : (inject_Z a * (inject_Z m / inject_Z b)
               == (inject_Z a * inject_Z m) / inject_Z b)%Q)
    by (field; lra).
  rewrite E. apply Qle_shift_div_r; [exact Hbq|].
  rewrite <- !inject_Z_mult, <- Zle_Qle. exact Hle.
Qed.

(** X7: what [fit_image_within] does with an image that exceeds a maximum.
    A 0 x 0 image ends in [ZeroDivisionError].  Any other image is logged
    and handed to [cv2.resize] with a size obtained from one scale for
    both sides, each side rounded to the nearest integer: the scale is
    [max_height / height] when the image is taller than wide, and
    [max_width / width] otherwise, so that the longer side gets exactly
    its maximum. *)
Theorem fit_image_within_resize_request
    (cv2_resize : Image -> Z * Z -> result Image)
    (img : Image) (max_height max_width : Z) (w : World) :
  ~ (Z.of_nat (height img) <= max_height /\ Z.of_nat (width img) <= max_width) ->
  (height img = 0%nat -> width img = 0%nat ->
   fit_image_within cv2_resize img max_height max_width w
   = (w, Raise ZeroDivisionError)) /\
  ((0 < height img)%nat \/ (0 < width img)%nat ->
   exists new_w new_h scale,
     fit_image_within cv2_resize img max_height max_width w
     = (logged w [(INFO, MsgResizing (shape img) (new_w, new_h))],
        cv2_resize img (new_w, new_h)) /\
     (inject_Z new_w - (1 # 2) <= inject_Z (Z.of_nat (width img)) * scale
      <= inject_Z new_w + (1 # 2))%Q /\
     (inject_Z new_h - (1 # 2) <= inject_Z (Z.of_nat (height img)) * scale
      <= inject_Z new_h + (1 # 2))%Q /\
     ((width img < height img)%nat ->
      scale = (inject_Z max_height / inject_Z (Z.of_nat (height img)))%Q /\
      new_h = max_height) /\
     ((height img <= width img)%nat ->
      scale = (inject_Z max_width / inject_Z (Z.of_nat (width img)))%Q /\
      new_w = max_width)).
Proof.
  intros Hnot.
  assert (Hguard : (Z.of_nat (height img) <=? max_height)
                   && (Z.of_nat (width img) <=? max_width) = false).
  { apply andb_false_iff.
    destruct (Z.leb_spec (Z.of_nat (height img)) max_height);
      destruct (Z.leb_spec (Z.of_nat (width img)) max_width); auto.
    exfalso. apply Hnot. split; assumption. }
  unfold fit_image_within, shape, fit_new_dims. rewrite Hguard. split.
  - intros Hh Hw. rewrite Hh, Hw. reflexivity.
  - intros Hpos.
    destruct (width img <? height img)%nat eqn:Ecmp; unfold true_div.
    + apply Nat.ltb_lt in Ecmp.
      destruct (Z.of_nat (height img) =? 0) eqn:Ez; [apply Z.eqb_eq in Ez; lia|].
      apply Z.eqb_neq in Ez. cbn [rbind].
      rewrite bind_lift_ok, bind_logging.
      do 3 eexists. split; [reflexivity|].
      split; [apply int_round_close|]. split; [apply int_round_close|].
      split; [|lia]. intros _. split; [reflexivity|].
      apply int_round_integer. field. apply inject_Z_nonzero. exact Ez.
    + apply Nat.ltb_ge in Ecmp.
      destruct (Z.of_nat (width img) =? 0) eqn:Ez; [apply Z.eqb_eq in Ez; lia|].
      apply Z.eqb_neq in Ez. cbn [rbind].
      rewrite bind_lift_ok, bind_logging.
      do 3 eexists. split; [reflexivity|].
      split; [apply int_round_close|]. split; [apply int_round_close|].
      split; [lia|]. intros _. split; [reflexivity|].
      apply int_round_integer. field. apply inject_Z_nonzero. exact Ez.
Qed.

Lemma fit_image_within_resize_request_witness :
  exists new_w new_h,
    fit_image_within Sample.resize_nearest (Sample.grid 200 100) 50 50
      Sample.world0
    = (logged Sample.world0 [(INFO, MsgResizing (200, 100)%nat (new_w, new_h))],
       Sample.resize_nearest (Sample.grid 200 100) (new_w, new_h)) /\
    new_h = 50.
Proof.
  assert (Hnot : ~ (Z.of_nat (height (Sample.grid 200 100)) <= 50 /\
                    Z.of_nat (width (Sample.grid 200 100)) <= 50))
    by (simpl; lia).
  destruct (proj2 (fit_image_within_resize_request Sample.resize_nearest
                     (Sample.grid 200 100) Sample.world0 Hnot))
    as (new_w & new_h & scale & Hrun & _ & _ & Htall & _);
    [left; simpl; lia|].
  exists new_w, new_h. split; [exact Hrun|].
  apply Htall. simpl. lia.
Defined.

(** X8: the size requested from [cv2.resize] is within both maxima when the
    longer side of the image is the one that binds: for an image taller
    than wide, when [width * max_height <= max_width * height]; otherwise,
    when [height * max_width <= max_height * width]. *)
Theorem fit_image_within_fits_when_longer_side_binds
    (cv2_resize : Image -> Z * Z -> result Image)
    (img : Image) (max_height max_width : Z) (w : World) :
  ~ (Z.of_nat (height img) <= max_height /\ Z.of_nat (width img) <= max_width) ->
  ((width img < height img)%nat /\
   Z.of_nat (width img) * max_height <= max_width * Z.of_nat (height img)) \/
  ((height img <= width img)%nat /\ (0 < width img)%nat /\
   Z.of_nat (height img) * max_width <= max_height * Z.of_nat (width img)) ->
  exists new_w new_h,
    fit_image_within cv2_resize img max_height max_width w
    = (logged w [(INFO, MsgResizing (shape img) (new_w, new_h))],
       cv2_resize img (new_w, new_h)) /\
    new_w <= max_width /\ new_h <= max_height.
Proof.
  intros Hnot Hbind.
  assert (Hguard : (Z.of_nat (height img) <=? max_height)
                   && (Z.of_nat (width img) <=? max_width) = false).
  { apply andb_false_iff.
    destruct (Z.leb_spec (Z.of_nat (height img)) max_height);
      destruct (Z.leb_spec (Z.of_nat (width img)) max_width); auto.
    exfalso. apply Hnot. split; assumption. }
  unfold fit_image_within, shape, fit_new_dims. rewrite Hguard.
  destruct Hbind as [[Htall Hle]|(Hwide & Hpos & Hle)]; unfold true_div.
  - replace (width img <? height img)%nat with true
      by (symmetry; apply Nat.ltb_lt; exact Htall).
    destruct (Z.of_nat (height img) =? 0) eqn:Ez; [apply Z.eqb_eq in Ez; lia|].
    apply Z.eqb_neq in Ez. cbn [rbind].
    rewrite bind_lift_ok, bind_logging.
    do 2 eexists. split; [reflexivity|]. split.
    + apply int_round_le. apply scaled_side_le; [lia|exact Hle].
    + apply int_round_le. apply scaled_side_le; lia.
  - replace (width img <? height img)%nat with false
      by (symmetry; apply Nat.ltb_ge; exact Hwide).
    destruct (Z.of_nat (width img) =? 0) eqn:Ez; [apply Z.eqb_eq in Ez; lia|].
    apply Z.eqb_neq in Ez. cbn [rbind].
    rewrite bind_lift_ok, bind_logging.
    do 2 eexists. split; [reflexivity|]. split.
    + apply int_round_le. apply scaled_side_le; lia.
    + apply int_round_le. apply scaled_side_le; [lia|exact Hle].
Qed.

Lemma fit_image_within_fits_when_longer_side_binds_witness :
  exists new_w new_h,
    fit_image_within Sample.resize_nearest (Sample.grid 200 100) 50 50
      Sample.world0
    = (logged Sample.world0 [(INFO, MsgResizing (200, 100)%nat (new_w, new_h))],
       Sample.resize_nearest (Sample.grid 200 100) (new_w, new_h)) /\
    new_w <= 50 /\ new_h <= 50.
Proof.
  apply (fit_image_within_fits_when_longer_side_binds Sample.resize_nearest
           (Sample.grid 200 100) (max_height := 50) (max_width := 50)
           Sample.world0).
  - simpl; lia.
  - left. simpl. split; lia.
Defined.

(* ================================================================== *)
(** ** Further properties of [reconstruct_thumbnail] *)
(* ================================================================== *)

Lemma bounding_box_unique (corners : list (Z * Z)) (a b : CropBox) :
  bounding_box_of corners a -> bounding_box_of corners b -> a = b.
Proof.
  intros (A1 & A2 & A3 & A4) (B1 & B2 & B3 & B4).
  destruct a as [[a1 a2] [a3 a4]], b as [[b1 b2] [b3 b4]]; cbn [fst snd] in *.
  rewrite (is_min_unique A1 B1), (is_max_unique A2 B2),
          (is_min_unique A3 B3), (is_max_unique A4 B4).
  reflexivity.
Qed.

Lemma slice_bound_inside (v : Z) (len : nat) :
  0 <= v <= Z.of_nat len -> Numpy.slice_bound v len = v.
Proof.
  intros Hv. unfold Numpy.slice_bound.
  replace (v <? 0) with false by (symmetry; apply Z.ltb_ge; lia).
  replace (Z.of_nat len <? v) with false by (symmetry; apply Z.ltb_ge; lia).
  reflexivity.
Qed.

(** X9: when the bounding box of the projected corners lies within the
    source image, the region cut out before the rotation is that rectangle
    itself: it has [y_max - y_min] rows and [x_max - x_min] columns, the
    height and width of the report, and its pixel at [(i, j)] is the pixel
    of the source at [(y_min + i, x_min + j)]. *)
Theorem reconstruct_thumbnail_in_bounds
    (cv2_resize : Image -> Z * Z -> result Image)
    (thumbnail_image source_image : Image)
    (kp_pairs : list (KeyPoint * KeyPoint)) (H : Homography) (w : World)
    (crop : CropBox) :
  let corners :=
    projected_corners (width thumbnail_image) (height thumbnail_image) H in
  bounding_box_of corners crop ->
  clamped_to source_image crop ->
  let region := Numpy.getitem_slices source_image (fst crop) (snd crop) in
  exists rotation img w',
    reconstruct_thumbnail cv2_resize thumbnail_image source_image kp_pairs H
                          false w = (w', Ok (img, crop, rotation)) /\
    autorotate_image region corners = Ok (rotation, img) /\
    Z.of_nat (height region) = snd (fst crop) - fst (fst crop) /\
    Z.of_nat (width region) = snd (snd crop) - fst (snd crop) /\
    forall i j, (i < height region)%nat -> (j < width region)%nat ->
      pixel region i j
      = pixel source_image (Z.to_nat (fst (fst crop)) + i)%nat
                           (Z.to_nat (fst (snd crop)) + j)%nat.
Proof.
  intros corners Hbox Hclamp region.
  destruct (reconstruct_thumbnail_spec cv2_resize thumbnail_image source_image
              kp_pairs H false w)
    as (crop0 & rotation & img & msgs & r & Hbox0 & Hrot & Hrun & _ & Hret).
  fold corners in Hbox0, Hrot.
  rewrite (bounding_box_unique Hbox0 Hbox) in *.
  exists rotation, img, (logged w msgs).
  split; [now rewrite Hrun, (Hret eq_refl)|]. split; [exact Hrot|].
  destruct Hbox as (B1 & B2 & B3 & B4).
  pose proof (is_min_le_is_max B1 B2) as Hy.
  pose proof (is_min_le_is_max B3 B4) as Hx.
  destruct Hclamp as (C1 & C2 & C3 & C4).
  subst region. unfold Numpy.getitem_slices, Numpy.slice_indices.
  rewrite !slice_bound_inside by lia.
  cbn [height width pixel]. repeat split; try lia.
Qed.

Lemma reconstruct_thumbnail_in_bounds_witness :
  exists rotation img w',
    reconstruct_thumbnail Sample.resize_nearest (Sample.grid 20 20)
      (Sample.grid 100 100) [] (Sample.translation 30 40) false Sample.world0
    = (w', Ok (img, ((40, 60), (30, 50)), rotation)) /\
    pixel (Numpy.getitem_slices (Sample.grid 100 100) (40, 60) (30, 50)) 2 3
    = pixel (Sample.grid 100 100) 42 33.
Proof.
  assert (Hbox : bounding_box_of
                   (projected_corners (width (Sample.grid 20 20))
                      (height (Sample.grid 20 20)) (Sample.translation 30 40))
                   ((40, 60), (30, 50))).
  { vm_compute. repeat split; auto 10; repeat constructor; discriminate. }
  assert (Hclamp : clamped_to (Sample.grid 100 100) ((40, 60), (30, 50)))
    by (unfold clamped_to; simpl; lia).
  destruct (@reconstruct_thumbnail_in_bounds Sample.resize_nearest
              (Sample.grid 20 20) (Sample.grid 100 100) []
              (Sample.translation 30 40) Sample.world0 _ Hbox Hclamp)
    as (rotation & img & w' & Hrun & _ & Hh & Hw & Hpix).
  exists rotation, img, w'. split; [exact Hrun|].
  apply (Hpix 2%nat 3%nat); simpl in Hh, Hw |- *; lia.
Defined.

(** X10: the flag [downsize_reconstruction] changes neither the crop box
    nor the rotation; a region that is no taller and no wider than the
    template is returned as without the flag; a larger region is replaced
    by what [fit_image_within] makes of it with the template's height and
    width as maxima. *)
Theorem reconstruct_thumbnail_downsize
    (cv2_resize : Image -> Z * Z -> result Image)
    (thumbnail_image source_image : Image)
    (kp_pairs : list (KeyPoint * KeyPoint)) (H : Homography) (w : World) :
  exists crop rotation img w0,
    reconstruct_thumbnail cv2_resize thumbnail_image source_image kp_pairs H
                          false w = (w0, Ok (img, crop, rotation)) /\
    (forall w1 img1 crop1 rotation1,
        reconstruct_thumbnail cv2_resize thumbnail_image source_image kp_pairs H
                              true w = (w1, Ok (img1, crop1, rotation1)) ->
        crop1 = crop /\ rotation1 = rotation) /\
    ((height img <= height thumbnail_image)%nat ->
     (width img <= width thumbnail_image)%nat ->
     reconstruct_thumbnail cv2_resize thumbnail_image source_image kp_pairs H
                           true w
     = reconstruct_thumbnail cv2_resize thumbnail_image source_image kp_pairs H
                             false w) /\
    ((height thumbnail_image < height img)%nat \/
     (width thumbnail_image < width img)%nat ->
     forall w1 img1 crop1 rotation1,
       reconstruct_thumbnail cv2_resize thumbnail_image source_image kp_pairs H
                             true w = (w1, Ok (img1, crop1, rotation1)) ->
       exists wf,
         fit_image_within cv2_resize img
           (Z.of_nat (height thumbnail_image)) (Z.of_nat (width thumbnail_image))
           (logged w [(INFO, MsgReconstructing);
                      (INFO, MsgThumbnailBounds
                               (projected_corners (width thumbnail_image)
                                  (height thumbnail_image) H))])
         = (wf, Ok img1)).
Proof.
  destruct (reconstruct_thumbnail_run cv2_resize thumbnail_image source_image
              kp_pairs H false w) as (crop & rotation & img & Hbox & Hrot & Hrun).
  destruct (reconstruct_thumbnail_run cv2_resize thumbnail_image source_image
              kp_pairs H true w) as (crop' & rotation' & img' & Hbox' & Hrot' & Hrun').
  rewrite (bounding_box_unique Hbox' Hbox) in *.
  rewrite Hrot in Hrot'. injection Hrot' as <- <-.
  rewrite reconstruct_finish_no_downsize in Hrun.
  exists crop, rotation, img. eexists. split; [exact Hrun|].
  rewrite Hrun, Hrun'. clear Hrun Hrun'.
  set (w2 := logged w _).
  split; [|split].
  - intros w1 img1 crop1 rotation1 E.
    destruct (reconstruct_finish_inv cv2_resize thumbnail_image source_image img
                true crop rotation w2) as (msgs & r & Hfin & Hinv).
    rewrite Hfin in E. injection E as _ Hr. exact (Hinv _ _ _ Hr).
  - intros Hh Hw. unfold reconstruct_finish.
    replace ((height thumbnail_image <? height img)%nat) with false
      by (symmetry; apply Nat.ltb_ge; exact Hh).
    replace ((width thumbnail_image <? width img)%nat) with false
      by (symmetry; apply Nat.ltb_ge; exact Hw).
    cbn [andb orb].
    rewrite bind_ret, !bind_logging, !logged_logged. reflexivity.
  - intros Hlarge w1 img1 crop1 rotation1. unfold reconstruct_finish.
    replace ((height thumbnail_image <? height img)%nat
             || (width thumbnail_image <? width img)%nat) with true.
    + cbn [andb]. unfold bind at 1.
      destruct (fit_image_within cv2_resize img _ _ w2) as [wf [imgf|e]];
        [|discriminate].
      rewrite !bind_logging. unfold ret. intros E. injection E as _ <- _ _.
      eauto.
    + symmetry. apply orb_true_iff.
      destruct Hlarge as [Hl|Hl]; [left|right]; apply Nat.ltb_lt; exact Hl.
Qed.

Lemma reconstruct_thumbnail_downsize_witness :
  reconstruct_thumbnail Sample.resize_nearest (Sample.grid 20 20)
    (Sample.grid 100 100) [] (Sample.translation 30 40) true Sample.world0
  = reconstruct_thumbnail Sample.resize_nearest (Sample.grid 20 20)
      (Sample.grid 100 100) [] (Sample.translation 30 40) false Sample.world0.
Proof.
  destruct (reconstruct_thumbnail_downsize Sample.resize_nearest (Sample.grid 20 20)
              (Sample.grid 100 100) [] (Sample.translation 30 40) Sample.world0)
    as (crop & rotation & img & w0 & Hrun & _ & Hfits & _).
  vm_compute in Hrun. injection Hrun as _ Himg _ _.
  apply Hfits; rewrite <- Himg; simpl; lia.
Defined.

(* ================================================================== *)
(** ** Runs of [locate_thumbnail] *)
(* ================================================================== *)

Lemma logged_extended (w : World) (msgs : list (Level * Message)) :
  logged w msgs = extended w msgs [] [] [].
Proof. unfold logged, extended. now rewrite !app_nil_r. Qed.

Lemma extended_extended (w : World) a b c d a' b' c' d' :
  extended (extended w a b c d) a' b' c' d'
  = extended w (a ++ a') (b ++ b') (c ++ c') (d ++ d').
Proof. unfold extended; simpl. now rewrite !app_assoc. Qed.

Lemma bind_print_json {B} (r : Report) (k : unit -> M B) (w : World) :
  bind (print_json r) k w = k tt (extended w [] [r] [] []).
Proof. unfold bind, print_json, extended. now rewrite !app_nil_r. Qed.

Lemma bind_imwrite {B} (f : string) (img : Image) (k : unit -> M B) (w : World) :
  bind (imwrite f img) k w = k tt (extended w [] [] [(f, img)] []).
Proof. unfold bind, imwrite, extended. now rewrite !app_nil_r. Qed.

Section LocateRuns.

Variable open_image : string -> result (string * Image).
Variable Descriptors : Type.
Variable detectAndCompute : Image -> list KeyPoint * Descriptors.
Variable knnMatch : Descriptors -> Descriptors -> result (list (DMatch * DMatch)).
Variable cv2_findHomography :
  list (Q * Q) -> list (Q * Q) -> result (Homography * list bool).
Variable cv2_resize : Image -> Z * Z -> result Image.
Variable splitext : string -> string * string.
Variable draw_matches :
  Image -> Image -> option Image -> option CropBox ->
  list (KeyPoint * KeyPoint) -> option (list bool) -> result Image.

Variables thumbnail_filename source_filename : string.
Variable save_reconstruction : bool.
Variable reconstruction_format : string.

Let locate :=
  locate_thumbnail open_image detectAndCompute knnMatch cv2_findHomography
    cv2_resize splitext draw_matches thumbnail_filename source_filename.

(** With four correspondences or more [find_homography] logs and calls
    the estimator. *)
Lemma find_homography_enough (kp_pairs : list (KeyPoint * KeyPoint)) (w : World) :
  (4 <= length kp_pairs)%nat ->
  find_homography cv2_findHomography kp_pairs w
  = match cv2_findHomography (map pt (map fst kp_pairs))
                             (map pt (map snd kp_pairs)) with
    | Ok (H, mask) =>
        (logged w [(DEBUG, MsgFindingHomography);
                   (INFO, MsgInliers (count_occ bool_dec mask true) (length mask))],
         Ok (H, mask))
    | Raise e => (logged w [(DEBUG, MsgFindingHomography)], Raise e)
    end.
Proof.
  intros Hlen. destruct kp_pairs as [|p rest]; [simpl in Hlen; lia|].
  unfold find_homography. cbn [unzip_rows]. rewrite bind_lift_ok.
  apply Nat.leb_le in Hlen. rewrite Hlen.
  unfold assert. rewrite bind_ret, bind_logging.
  destruct (cv2_findHomography _ _) as [[H mask]|e].
  - rewrite bind_lift_ok, bind_logging, logged_logged. reflexivity.
  - reflexivity.
Qed.

Lemma locate_thumbnail_thumbnail_unreadable (display save_visualization : bool)
    (e : exn) (w : World) :
  open_image thumbnail_filename = Raise e ->
  locate display save_visualization save_reconstruction reconstruction_format w
  = (w, Raise e).
Proof.
  intros Ho. unfold locate, locate_thumbnail. now rewrite Ho, bind_lift_raise.
Qed.

Lemma locate_thumbnail_source_unreadable (display save_visualization : bool)
    (e : exn) (w : World)
    (thumbnail_basename : string) (thumbnail_image : Image) :
  open_image thumbnail_filename = Ok (thumbnail_basename, thumbnail_image) ->
  open_image source_filename = Raise e ->
  locate display save_visualization save_reconstruction reconstruction_format w
  = (w, Raise e).
Proof.
  intros Ho1 Ho2. unfold locate, locate_thumbnail.
  rewrite Ho1, bind_lift_ok. cbv beta iota zeta.
  now rewrite Ho2, bind_lift_raise.
Qed.

Lemma locate_thumbnail_matcher_fails (display save_visualization : bool)
    (e : exn) (w w1 : World)
    (thumbnail_basename source_basename : string)
    (thumbnail_image source_image : Image) :
  open_image thumbnail_filename = Ok (thumbnail_basename, thumbnail_image) ->
  open_image source_filename = Ok (source_basename, source_image) ->
  match_images detectAndCompute knnMatch thumbnail_image source_image
    (logged w [(INFO, MsgAttempting thumbnail_filename source_filename)])
  = (w1, Raise e) ->
  locate display save_visualization save_reconstruction reconstruction_format w
  = (w1, Raise e).
Proof.
  intros Ho1 Ho2 Hm. unfold locate, locate_thumbnail.
  rewrite Ho1, bind_lift_ok. cbv beta iota zeta.
  rewrite Ho2, bind_lift_ok. cbv beta iota zeta.
  now rewrite bind_logging, (@bind_run_raise _ _ _ _ _ _ _ Hm).
Qed.

Lemma locate_thumbnail_estimator_fails (display save_visualization : bool)
    (e : exn) (w w1 : World)
    (thumbnail_basename source_basename : string)
    (thumbnail_image source_image : Image)
    (kp_pairs : list (KeyPoint * KeyPoint)) :
  open_image thumbnail_filename = Ok (thumbnail_basename, thumbnail_image) ->
  open_image source_filename = Ok (source_basename, source_image) ->
  match_images detectAndCompute knnMatch thumbnail_image source_image
    (logged w [(INFO, MsgAttempting thumbnail_filename source_filename)])
  = (w1, Ok kp_pairs) ->
  (4 <= length kp_pairs)%nat ->
  cv2_findHomography (map pt (map fst kp_pairs)) (map pt (map snd kp_pairs))
  = Raise e ->
  locate display save_visualization save_reconstruction reconstruction_format w
  = (logged w1 [(INFO, MsgFoundMatches (length kp_pairs));
                (DEBUG, MsgFindingHomography)],
     Raise e).
Proof.
  intros Ho1 Ho2 Hm Hlen He. unfold locate, locate_thumbnail.
  rewrite Ho1, bind_lift_ok. cbv beta iota zeta.
  rewrite Ho2, bind_lift_ok. cbv beta iota zeta.
  rewrite bind_logging, (@bind_run _ _ _ _ _ _ _ Hm).
  pose proof Hlen as Hleb. apply Nat.leb_le in Hleb. rewrite Hleb.
  rewrite !bind_bind, bind_logging.
  pose proof (find_homography_enough kp_pairs
                (logged w1 [(INFO, MsgFoundMatches (length kp_pairs))]) Hlen) as Hf.
  rewrite He, logged_logged in Hf. cbn [app] in Hf.
  now rewrite bind_bind, (@bind_run_raise _ _ _ _ _ _ _ Hf).
Qed.

(** The run with enough matches and an estimate, without display and
    visualization. *)
Lemma locate_thumbnail_succeeds (w w1 : World)
    (thumbnail_basename source_basename : string)
    (thumbnail_image source_image : Image)
    (kp_pairs : list (KeyPoint * KeyPoint)) (H : Homography) (mask : list bool) :
  open_image thumbnail_filename = Ok (thumbnail_basename, thumbnail_image) ->
  open_image source_filename = Ok (source_basename, source_image) ->
  match_images detectAndCompute knnMatch thumbnail_image source_image
    (logged w [(INFO, MsgAttempting thumbnail_filename source_filename)])
  = (w1, Ok kp_pairs) ->
  (4 <= length kp_pairs)%nat ->
  cv2_findHomography (map pt (map fst kp_pairs)) (map pt (map snd kp_pairs))
  = Ok (H, mask) ->
  let corners :=
    projected_corners (width thumbnail_image) (height thumbnail_image) H in
  let new_filename :=
    (thumbnail_basename ++ ".reconstructed." ++ reconstruction_format)%string in
  exists crop rotation img,
    bounding_box_of corners crop /\
    autorotate_image
      (Numpy.getitem_slices source_image (fst crop) (snd crop)) corners
    = Ok (rotation, img) /\
    locate false false save_reconstruction reconstruction_format w
    = (extended w1
         ([(INFO, MsgFoundMatches (length kp_pairs));
           (DEBUG, MsgFindingHomography);
           (INFO, MsgInliers (count_occ bool_dec mask true) (length mask));
           (INFO, MsgReconstructing);
           (INFO, MsgThumbnailBounds corners);
           (INFO, MsgMasterDimensions (shape source_image));
           (INFO, MsgThumbnailDimensions (shape thumbnail_image));
           (INFO, MsgReconstructedDimensions (shape img) rotation)]
          ++ (if save_reconstruction
              then [(INFO, MsgSavedReconstruction new_filename)] else []))
         [report_of thumbnail_filename source_filename thumbnail_image
                    source_image crop rotation]
         (if save_reconstruction then [(new_filename, img)] else [])
         [],
       Ok tt).
Proof.
  intros Ho1 Ho2 Hm Hlen He corners new_filename.
  destruct (reconstruct_thumbnail_run cv2_resize thumbnail_image source_image
              kp_pairs H false
              (logged w1 [(INFO, MsgFoundMatches (length kp_pairs));
                          (DEBUG, MsgFindingHomography);
                          (INFO, MsgInliers (count_occ bool_dec mask true)
                                            (length mask))]))
    as (crop & rotation & img & Hbox & Hrot & Hrun).
  fold corners in Hbox, Hrot, Hrun.
  rewrite reconstruct_finish_no_downsize, logged_logged in Hrun.
  cbn [app] in Hrun.
  exists crop, rotation, img. split; [exact Hbox|]. split; [exact Hrot|].
  unfold locate, locate_thumbnail.
  rewrite Ho1, bind_lift_ok. cbv beta iota zeta.
  rewrite Ho2, bind_lift_ok. cbv beta iota zeta.
  rewrite bind_logging, (@bind_run _ _ _ _ _ _ _ Hm).
  pose proof Hlen as Hleb. apply Nat.leb_le in Hleb. rewrite Hleb.
  rewrite bind_bind, bind_logging, bind_bind.
  pose proof (find_homography_enough kp_pairs
                (logged w1 [(INFO, MsgFoundMatches (length kp_pairs))]) Hlen) as Hf.
  rewrite He, logged_logged in Hf. cbn [app] in Hf.
  rewrite (@bind_run _ _ _ _ _ _ _ Hf). cbv beta iota zeta.
  unfold reconstruct_thumbnail_default_downsize.
  rewrite bind_bind, (@bind_run _ _ _ _ _ _ _ Hrun). cbv beta iota zeta.
  rewrite bind_bind, bind_print_json, logged_extended, extended_extended.
  cbn [app]. fold (report_of thumbnail_filename source_filename thumbnail_image
                     source_image crop rotation).
  fold new_filename.
  destruct save_reconstruction.
  - rewrite !bind_bind, bind_imwrite, extended_extended, bind_logging,
      logged_extended, extended_extended, !bind_ret.
    cbn [orb title]. rewrite !bind_ret. unfold ret.
    rewrite ?logged_extended, ?extended_extended. cbn [app].
    rewrite ?app_nil_r. reflexivity.
  - rewrite bind_bind, !bind_ret. cbn [orb]. rewrite !bind_ret. unfold ret.
    rewrite ?logged_extended, ?extended_extended. cbn [app].
    rewrite ?app_nil_r. reflexivity.
Qed.

Lemma extended_nil (w : World) : extended w [] [] [] [] = w.
Proof. destruct w. unfold extended. simpl. now rewrite !app_nil_r. Qed.

(** Without display and visualization a call has one of three outcomes:
    an exception, the warning of too few matches, or one report. *)
Lemma locate_thumbnail_outcome (w : World) :
  exists msgs reports files r,
    locate false false save_reconstruction reconstruction_format w
    = (extended w msgs reports files [], r) /\
    (((exists e, r = Raise e) /\ reports = [] /\ files = [] /\
      found_only_count msgs = 0%nat) \/
     (r = Ok tt /\ reports = [] /\ files = [] /\
      found_only_count msgs = 1%nat) \/
     (r = Ok tt /\ (exists report, reports = [report]) /\
      found_only_count msgs = 0%nat /\
      length files = if save_reconstruction then 1%nat else 0%nat)).
Proof.
  destruct (open_image thumbnail_filename) as [[tb ti]|e] eqn:Ho1.
  2:{ exists [], [], [], (Raise e).
      rewrite extended_nil. split; [now apply locate_thumbnail_thumbnail_unreadable|].
      left. eauto. }
  destruct (open_image source_filename) as [[sb si]|e] eqn:Ho2.
  2:{ exists [], [], [], (Raise e).
      rewrite extended_nil.
      split; [eapply locate_thumbnail_source_unreadable; eassumption|].
      left. eauto. }
  destruct (match_images_logs detectAndCompute knnMatch ti si
              (logged w [(INFO, MsgAttempting thumbnail_filename source_filename)]))
    as [r1 Hm].
  rewrite logged_logged in Hm. cbn [app] in Hm.
  destruct r1 as [kp_pairs|e].
  2:{ do 2 eexists. exists [], (Raise e).
      erewrite locate_thumbnail_matcher_fails by eassumption.
      rewrite logged_extended.
      split; [reflexivity|]. left. split; [eauto|]. repeat split. }
  destruct (Nat.leb_spec 4 (length kp_pairs)) as [Hlen|Hlen].
  - destruct (cv2_findHomography (map pt (map fst kp_pairs))
                                 (map pt (map snd kp_pairs)))
      as [[H mask]|e] eqn:He.
    + destruct (locate_thumbnail_succeeds w Ho1 Ho2 Hm Hlen He)
        as (crop & rotation & img & _ & _ & Hrun).
      rewrite logged_extended, extended_extended in Hrun. cbn [app] in Hrun.
      do 3 eexists. exists (Ok tt). split; [exact Hrun|].
      right. right. split; [reflexivity|]. split; [eauto|].
      destruct save_reconstruction; split; reflexivity.
    + do 2 eexists. exists [], (Raise e).
      erewrite locate_thumbnail_estimator_fails by eassumption.
      rewrite logged_logged, logged_extended.
      split; [reflexivity|]. left. split; [eauto|]. repeat split.
  - destruct (@locate_thumbnail_few_matches open_image _ detectAndCompute
                knnMatch cv2_findHomography cv2_resize splitext draw_matches
                thumbnail_filename source_filename
                false false save_reconstruction reconstruction_format
                w _ _ _ _ _ _ Ho1 Ho2 Hm Hlen)
      as (w' & r & tail & Hrun & _ & _ & _ & Hret).
    destruct (Hret eq_refl eq_refl) as [-> ->].
    do 2 eexists. exists [], (Ok tt).
    unfold locate. rewrite Hrun, logged_logged, logged_extended.
    split; [reflexivity|]. right. left. repeat split.
Qed.

End LocateRuns.

(** X11: a pair with four correspondences or more and an estimated
    homography, processed without display and visualization: the call
    returns; it prints exactly one report, with the shapes of the two
    images, the bounding box of the projected corners as [y], [x], height
    [y_max - y_min] and width [x_max - x_min], and the rotation found by
    [autorotate_image]; it logs the steps in their order; and it writes the
    reconstruction to [<basename>.reconstructed.<format>] exactly when
    [save_reconstruction] is set. *)
Theorem locate_thumbnail_success_run
    (open_image : string -> result (string * Image))
    (Descriptors : Type)
    (detectAndCompute : Image -> list KeyPoint * Descriptors)
    (knnMatch : Descriptors -> Descriptors -> result (list (DMatch * DMatch)))
    (cv2_findHomography :
       list (Q * Q) -> list (Q * Q) -> result (Homography * list bool))
    (cv2_resize : Image -> Z * Z -> result Image)
    (splitext : string -> string * string)
    (draw_matches :
       Image -> Image -> option Image -> option CropBox ->
       list (KeyPoint * KeyPoint) -> option (list bool) -> result Image)
    (thumbnail_filename source_filename : string)
    (save_reconstruction : bool) (reconstruction_format : string)
    (w w1 : World) (thumbnail_basename source_basename : string)
    (thumbnail_image source_image : Image)
    (kp_pairs : list (KeyPoint * KeyPoint)) (H : Homography) (mask : list bool) :
  open_image thumbnail_filename = Ok (thumbnail_basename, thumbnail_image) ->
  open_image source_filename = Ok (source_basename, source_image) ->
  match_images detectAndCompute knnMatch thumbnail_image source_image
    (logged w [(INFO, MsgAttempting thumbnail_filename source_filename)])
  = (w1, Ok kp_pairs) ->
  (4 <= length kp_pairs)%nat ->
  cv2_findHomography (map pt (map fst kp_pairs)) (map pt (map snd kp_pairs))
  = Ok (H, mask) ->
  let corners :=
    projected_corners (width thumbnail_image) (height thumbnail_image) H in
  let new_filename :=
    (thumbnail_basename ++ ".reconstructed." ++ reconstruction_format)%string in
  exists crop rotation img,
    bounding_box_of corners crop /\
    autorotate_image
      (Numpy.getitem_slices source_image (fst crop) (snd crop)) corners
    = Ok (rotation, img) /\
    locate_thumbnail open_image detectAndCompute knnMatch cv2_findHomography
      cv2_resize splitext draw_matches thumbnail_filename source_filename
      false false save_reconstruction reconstruction_format w
    = (extended w1
         ([(INFO, MsgFoundMatches (length kp_pairs));
           (DEBUG, MsgFindingHomography);
           (INFO, MsgInliers (count_occ bool_dec mask true) (length mask));
           (INFO, MsgReconstructing);
           (INFO, MsgThumbnailBounds corners);
           (INFO, MsgMasterDimensions (shape source_image));
           (INFO, MsgThumbnailDimensions (shape thumbnail_image));
           (INFO, MsgReconstructedDimensions (shape img) rotation)]
          ++ (if save_reconstruction
              then [(INFO, MsgSavedReconstruction new_filename)] else []))
         [report_of thumbnail_filename source_filename thumbnail_image
                    source_image crop rotation]
         (if save_reconstruction then [(new_filename, img)] else [])
         [],
       Ok tt).
Proof.
  intros Ho1 Ho2 Hm Hlen He.
  eapply locate_thumbnail_succeeds; eassumption.
Qed.

Lemma locate_thumbnail_success_run_witness :
  exists w' img,
    locate_thumbnail Sample.open_image Sample.detectAndCompute Sample.knn_clear
      Sample.find_translation Sample.resize_nearest Sample.splitext
      Sample.draw_matches "thumb.jpg" "master.jpg" false false true "png"
      Sample.world0
    = (w', Ok tt) /\
    stdout w' = [report_of "thumb.jpg" "master.jpg" (Sample.grid 20 20)
                           (Sample.grid 100 100) ((40, 60), (30, 50)) 0] /\
    written w' = [("thumb.reconstructed.png"%string, img)].
Proof.
  destruct (match_images Sample.detectAndCompute Sample.knn_clear
              (Sample.grid 20 20) (Sample.grid 100 100)
              (logged Sample.world0 [(INFO, MsgAttempting "thumb.jpg" "master.jpg")]))
    as [w1 [kp_pairs|e]] eqn:Hm; [|vm_compute in Hm; discriminate].
  pose proof Hm as Hv. vm_compute in Hv. injection Hv as Hw1 Hkp.
  assert (Hlen : (4 <= length kp_pairs)%nat) by (rewrite <- Hkp; simpl; lia).
  assert (He : Sample.find_translation (map pt (map fst kp_pairs))
                                       (map pt (map snd kp_pairs))
               = Ok (Sample.translation 30 40,
                     map (fun _ => true) (map pt (map fst kp_pairs))))
    by reflexivity.
  destruct (locate_thumbnail_success_run
              Sample.open_image Sample.detectAndCompute Sample.knn_clear
              Sample.find_translation Sample.resize_nearest Sample.splitext
              Sample.draw_matches "thumb.jpg" "master.jpg" true "png"
              Sample.world0 eq_refl eq_refl Hm Hlen He)
    as (crop & rotation & img & Hbox & Hrot & Hrun).
  assert (Hcrop : crop = ((40, 60), (30, 50))).
  { eapply bounding_box_unique; [exact Hbox|].
    vm_compute. repeat split; auto 10; repeat constructor; discriminate. }
  subst crop.
  assert (Hr : rotation = 0) by (vm_compute in Hrot; now injection Hrot as <- _).
  subst rotation.
  exists (fst (locate_thumbnail Sample.open_image Sample.detectAndCompute
                 Sample.knn_clear Sample.find_translation Sample.resize_nearest
                 Sample.splitext Sample.draw_matches "thumb.jpg" "master.jpg"
                 false false true "png" Sample.world0)), img.
  rewrite Hrun. cbn [fst]. rewrite <- Hw1. split; [reflexivity|].
  split; reflexivity.
Defined.

(** X12: a failure of a collaborator leaves [locate_thumbnail] as the
    exception it raised, whatever the flags: an unreadable thumbnail or
    source before anything is logged, a failure of the matcher after the
    records of [match_images], a failure of the estimator after the record
    of [find_homography]; in no case is a report printed or a file
    written. *)
Theorem locate_thumbnail_failures_propagate
    (open_image : string -> result (string * Image))
    (Descriptors : Type)
    (detectAndCompute : Image -> list KeyPoint * Descriptors)
    (knnMatch : Descriptors -> Descriptors -> result (list (DMatch * DMatch)))
    (cv2_findHomography :
       list (Q * Q) -> list (Q * Q) -> result (Homography * list bool))
    (cv2_resize : Image -> Z * Z -> result Image)
    (splitext : string -> string * string)
    (draw_matches :
       Image -> Image -> option Image -> option CropBox ->
       list (KeyPoint * KeyPoint) -> option (list bool) -> result Image)
    (thumbnail_filename source_filename : string)
    (display save_visualization save_reconstruction : bool)
    (reconstruction_format : string)
    (w w1 : World) (e : exn) (thumbnail_basename source_basename : string)
    (thumbnail_image source_image : Image)
    (kp_pairs : list (KeyPoint * KeyPoint)) :
  let run :=
    locate_thumbnail open_image detectAndCompute knnMatch cv2_findHomography
      cv2_resize splitext draw_matches thumbnail_filename source_filename
      display save_visualization save_reconstruction reconstruction_format w in
  let attempted :=
    logged w [(INFO, MsgAttempting thumbnail_filename source_filename)] in
  (open_image thumbnail_filename = Raise e -> run = (w, Raise e)) /\
  (open_image thumbnail_filename = Ok (thumbnail_basename, thumbnail_image) ->
   open_image source_filename = Raise e -> run = (w, Raise e)) /\
  (open_image thumbnail_filename = Ok (thumbnail_basename, thumbnail_image) ->
   open_image source_filename = Ok (source_basename, source_image) ->
   match_images detectAndCompute knnMatch thumbnail_image source_image attempted
   = (w1, Raise e) ->
   run = (w1, Raise e) /\ stdout w1 = stdout w /\ written w1 = written w) /\
  (open_image thumbnail_filename = Ok (thumbnail_basename, thumbnail_image) ->
   open_image source_filename = Ok (source_basename, source_image) ->
   match_images detectAndCompute knnMatch thumbnail_image source_image attempted
   = (w1, Ok kp_pairs) ->
   (4 <= length kp_pairs)%nat ->
   cv2_findHomography (map pt (map fst kp_pairs)) (map pt (map snd kp_pairs))
   = Raise e ->
   run = (logged w1 [(INFO, MsgFoundMatches (length kp_pairs));
                     (DEBUG, MsgFindingHomography)],
          Raise e) /\
   stdout w1 = stdout w /\ written w1 = written w).
Proof.
  intros run attempted. subst run attempted.
  assert (Hlogs : forall r,
             match_images detectAndCompute knnMatch thumbnail_image source_image
               (logged w [(INFO, MsgAttempting thumbnail_filename source_filename)])
             = (w1, r) -> stdout w1 = stdout w /\ written w1 = written w).
  { intros r Hm.
    destruct (match_images_logs detectAndCompute knnMatch thumbnail_image
                source_image
                (logged w [(INFO, MsgAttempting thumbnail_filename source_filename)]))
      as [r' Hr'].
    rewrite Hr' in Hm. injection Hm as <- _. split; reflexivity. }
  split; [|split; [|split]].
  - intros Ho. now apply locate_thumbnail_thumbnail_unreadable.
  - intros Ho1 Ho2. eapply locate_thumbnail_source_unreadable; eassumption.
  - intros Ho1 Ho2 Hm. split; [|exact (Hlogs _ Hm)].
    eapply locate_thumbnail_matcher_fails; eassumption.
  - intros Ho1 Ho2 Hm Hlen He. split; [|exact (Hlogs _ Hm)].
    eapply locate_thumbnail_estimator_fails; eassumption.
Qed.

Lemma locate_thumbnail_failures_propagate_witness :
  locate_thumbnail Sample.open_image Sample.detectAndCompute Sample.knn_clear
    Sample.find_translation Sample.resize_nearest Sample.splitext
    Sample.draw_matches "missing.jpg" "master.jpg" true true true "jpg"
    Sample.world0
  = (Sample.world0, Raise IOError) /\
  locate_thumbnail Sample.open_image Sample.detectAndCompute Sample.knn_clear
    Sample.find_translation Sample.resize_nearest Sample.splitext
    Sample.draw_matches "thumb.jpg" "missing.jpg" true true true "jpg"
    Sample.world0
  = (Sample.world0, Raise IOError) /\
  snd (locate_thumbnail Sample.open_image Sample.detectAndCompute Sample.knn_error
         Sample.find_translation Sample.resize_nearest Sample.splitext
         Sample.draw_matches "thumb.jpg" "master.jpg" true true true "jpg"
         Sample.world0)
  = Raise cv2_error /\
  snd (locate_thumbnail Sample.open_image Sample.detectAndCompute Sample.knn_clear
         Sample.find_error Sample.resize_nearest Sample.splitext
         Sample.draw_matches "thumb.jpg" "master.jpg" true true true "jpg"
         Sample.world0)
  = Raise cv2_error.
Proof.
  split; [|split; [|split]].
  - apply (proj1 (locate_thumbnail_failures_propagate
             Sample.open_image Sample.detectAndCompute Sample.knn_clear
             Sample.find_translation Sample.resize_nearest Sample.splitext
             Sample.draw_matches "missing.jpg" "master.jpg" true true true "jpg"
             Sample.world0 Sample.world0 IOError "" "" (Sample.grid 0 0)
             (Sample.grid 0 0) [])).
    reflexivity.
  - apply (proj1 (proj2 (locate_thumbnail_failures_propagate
             Sample.open_image Sample.detectAndCompute Sample.knn_clear
             Sample.find_translation Sample.resize_nearest Sample.splitext
             Sample.draw_matches "thumb.jpg" "missing.jpg" true true true "jpg"
             Sample.world0 Sample.world0 IOError "thumb" "" (Sample.grid 20 20)
             (Sample.grid 0 0) []))); reflexivity.
  - destruct (match_images Sample.detectAndCompute Sample.knn_error
                (Sample.grid 20 20) (Sample.grid 100 100)
                (logged Sample.world0
                   [(INFO, MsgAttempting "thumb.jpg" "master.jpg")]))
      as [w1 [kp_pairs|e]] eqn:Hm; [vm_compute in Hm; discriminate|].
    assert (He : e = cv2_error) by (vm_compute in Hm; now injection Hm as _ <-).
    subst e.
    destruct (proj1 (proj2 (proj2 (locate_thumbnail_failures_propagate
                Sample.open_image Sample.detectAndCompute Sample.knn_error
                Sample.find_translation Sample.resize_nearest Sample.splitext
                Sample.draw_matches "thumb.jpg" "master.jpg" true true true "jpg"
                Sample.world0 w1 cv2_error "thumb" "master" (Sample.grid 20 20)
                (Sample.grid 100 100) [])))
                eq_refl eq_refl Hm) as [Hrun _].
    now rewrite Hrun.
  - destruct (match_images Sample.detectAndCompute Sample.knn_clear
                (Sample.grid 20 20) (Sample.grid 100 100)
                (logged Sample.world0
                   [(INFO, MsgAttempting "thumb.jpg" "master.jpg")]))
      as [w1 [kp_pairs|e]] eqn:Hm; [|vm_compute in Hm; discriminate].
    assert (Hlen : (4 <= length kp_pairs)%nat)
      by (vm_compute in Hm; injection Hm as _ <-; simpl; lia).
    destruct (proj2 (proj2 (proj2 (locate_thumbnail_failures_propagate
                Sample.open_image Sample.detectAndCompute Sample.knn_clear
                Sample.find_error Sample.resize_nearest Sample.splitext
                Sample.draw_matches "thumb.jpg" "master.jpg" true true true "jpg"
                Sample.world0 w1 cv2_error "thumb" "master" (Sample.grid 20 20)
                (Sample.grid 100 100) kp_pairs)))
                eq_refl eq_refl Hm Hlen eq_refl) as [Hrun _].
    now rewrite Hrun.
Defined.

(** X13: without display and visualization every call of
    [locate_thumbnail] has exactly one of three outcomes: it raises, and
    then prints no report, writes no file and logs no warning of too few
    matches; or it returns having logged that warning once and printed and
    written nothing; or it returns having printed exactly one report,
    logged no such warning, and written the reconstruction exactly when
    [save_reconstruction] is set.  No window is opened. *)
Theorem locate_thumbnail_one_outcome
    (open_image : string -> result (string * Image))
    (Descriptors : Type)
    (detectAndCompute : Image -> list KeyPoint * Descriptors)
    (knnMatch : Descriptors -> Descriptors -> result (list (DMatch * DMatch)))
    (cv2_findHomography :
       list (Q * Q) -> list (Q * Q) -> result (Homography * list bool))
    (cv2_resize : Image -> Z * Z -> result Image)
    (splitext : string -> string * string)
    (draw_matches :
       Image -> Image -> option Image -> option CropBox ->
       list (KeyPoint * KeyPoint) -> option (list bool) -> result Image)
    (thumbnail_filename source_filename : string)
    (save_reconstruction : bool) (reconstruction_format : string)
    (w : World) :
  exists msgs reports files r,
    locate_thumbnail open_image detectAndCompute knnMatch cv2_findHomography
      cv2_resize splitext draw_matches thumbnail_filename source_filename
      false false save_reconstruction reconstruction_format w
    = (extended w msgs reports files [], r) /\
    (((exists e, r = Raise e) /\ reports = [] /\ files = [] /\
      found_only_count msgs = 0%nat) \/
     (r = Ok tt /\ reports = [] /\ files = [] /\
      found_only_count msgs = 1%nat) \/
     (r = Ok tt /\ (exists report, reports = [report]) /\
      found_only_count msgs = 0%nat /\
      length files = if save_reconstruction then 1%nat else 0%nat)).
Proof. apply locate_thumbnail_outcome. Qed.

(* ================================================================== *)
(** ** At most one report for each call *)
(* ================================================================== *)

Section EmitsAtMost.

Variable P : Report -> Prop.

Lemma emits_at_most_logs {A} (c : M A) :
  (forall w, exists msgs r, c w = (logged w msgs, r)) -> emits_at_most 0 P c.
Proof.
  intros H w. destruct (H w) as (msgs & r & ->).
  exists []. cbn [fst]. rewrite stdout_logged, app_nil_r. auto.
Qed.

Lemma emits_at_most_ret {A} (a : A) : emits_at_most 0 P (ret a).
Proof. intros w. exists []. simpl. rewrite app_nil_r. auto. Qed.

Lemma emits_at_most_lift {A} (r : result A) : emits_at_most 0 P (lift r).
Proof. intros w. exists []. simpl. rewrite app_nil_r. auto. Qed.

Lemma emits_at_most_logging (l : Level) (m : Message) :
  emits_at_most 0 P (logging l m).
Proof. intros w. exists []. simpl. rewrite app_nil_r. auto. Qed.

Lemma emits_at_most_imwrite (f : string) (img : Image) :
  emits_at_most 0 P (imwrite f img).
Proof. intros w. exists []. simpl. rewrite app_nil_r. auto. Qed.

Lemma emits_at_most_imshow (t : Message) (img : Image) :
  emits_at_most 0 P (imshow t img).
Proof. intros w. exists []. simpl. rewrite app_nil_r. auto. Qed.

Lemma emits_at_most_print_json (r : Report) :
  P r -> emits_at_most 1 P (print_json r).
Proof. intros H w. exists [r]. simpl. auto. Qed.

Lemma emits_at_most_bind {A B} (n m : nat) (Q : A -> Prop)
    (c : M A) (k : A -> M B) :
  emits_at_most n P c -> returns Q c ->
  (forall a, Q a -> emits_at_most m P (k a)) ->
  emits_at_most (n + m) P (bind c k).
Proof.
  intros Hc Hq Hk w. unfold bind.
  destruct (Hc w) as (new1 & E1 & F1 & L1).
  destruct (c w) as [w1 [a|e]] eqn:E; cbn [fst] in E1.
  - destruct (Hk a (Hq _ _ _ E) w1) as (new2 & E2 & F2 & L2).
    exists (new1 ++ new2). rewrite E2, E1, app_assoc, length_app.
    split; [reflexivity|]. split; [apply Forall_app; auto|lia].
  - exists new1. cbn [fst]. split; [exact E1|]. split; [exact F1|lia].
Qed.

(** A step that prints nothing, then a continuation. *)
Lemma emits_at_most_after {A B} (n : nat) (Q : A -> Prop)
    (c : M A) (k : A -> M B) :
  emits_at_most 0 P c -> returns Q c ->
  (forall a, Q a -> emits_at_most n P (k a)) ->
  emits_at_most n P (bind c k).
Proof.
  intros Hc Hq Hk. change n with (0 + n)%nat.
  eapply emits_at_most_bind; eassumption.
Qed.

(** A step, then a continuation that prints nothing. *)
Lemma emits_at_most_before {A B} (n : nat) (c : M A) (k : A -> M B) :
  emits_at_most n P c -> (forall a, emits_at_most 0 P (k a)) ->
  emits_at_most n P (bind c k).
Proof.
  intros Hc Hk. rewrite <- (Nat.add_0_r n).
  apply emits_at_most_bind with (Q := fun _ => True); auto.
  apply returns_any.
Qed.

Lemma emits_at_most_skip {A B} (n : nat) (c : M A) (k : A -> M B) :
  emits_at_most 0 P c -> (forall a, emits_at_most n P (k a)) ->
  emits_at_most n P (bind c k).
Proof.
  intros Hc Hk. apply emits_at_most_after with (Q := fun _ => True); auto.
  apply returns_any.
Qed.

Lemma emits_at_most_zero_one {A} (c : M A) :
  emits_at_most 0 P c -> emits_at_most 1 P c.
Proof.
  intros H w. destruct (H w) as (new & E & F & L).
  exists new. split; [exact E|]. split; [exact F|lia].
Qed.

End EmitsAtMost.

Section LocateAtMost.

Variable open_image : string -> result (string * Image).
Variable Descriptors : Type.
Variable detectAndCompute : Image -> list KeyPoint * Descriptors.
Variable knnMatch : Descriptors -> Descriptors -> result (list (DMatch * DMatch)).
Variable cv2_findHomography :
  list (Q * Q) -> list (Q * Q) -> result (Homography * list bool).
Variable cv2_resize : Image -> Z * Z -> result Image.
Variable splitext : string -> string * string.
Variable draw_matches :
  Image -> Image -> option Image -> option CropBox ->
  list (KeyPoint * KeyPoint) -> option (list bool) -> result Image.

(** The rotation [reconstruct_thumbnail] returns is one of the four
    classes. *)
Lemma reconstruct_thumbnail_returns_class (thumbnail_image source_image : Image)
    (kp_pairs : list (KeyPoint * KeyPoint)) (H : Homography)
    (downsize_reconstruction : bool) :
  returns (fun r => rotation_class (snd r))
          (reconstruct_thumbnail cv2_resize thumbnail_image source_image
             kp_pairs H downsize_reconstruction).
Proof.
  intros w w' [[img crop] rotation] Hrun.
  destruct (reconstruct_thumbnail_spec cv2_resize thumbnail_image source_image
              kp_pairs H downsize_reconstruction w)
    as (crop0 & rot0 & img0 & msgs & r & _ & Hrot & Hrun0 & Hinv & _).
  rewrite Hrun0 in Hrun. injection Hrun as _ ->.
  destruct (Hinv _ _ _ eq_refl) as [_ ->]. cbn [snd].
  destruct (projected_corners_cons (width thumbnail_image)
              (height thumbnail_image) H) as (c & rest & Hc).
  rewrite Hc in Hrot.
  destruct (autorotate_image_total
              (Numpy.getitem_slices source_image (fst crop0) (snd crop0)) c rest)
    as (r1 & i1 & E & Hcases).
  rewrite E in Hrot. injection Hrot as <- _.
  unfold rotation_class.
  destruct Hcases as [Hc1|[Hc1|[Hc1|Hc1]]]; injection Hc1 as -> _; tauto.
Qed.

Lemma locate_thumbnail_emits_at_most
    (thumbnail_filename source_filename : string)
    (display save_visualization save_reconstruction : bool)
    (reconstruction_format : string) :
  emits_at_most 1 (fun r => rotation_class (rotation_degrees r))
    (locate_thumbnail open_image detectAndCompute knnMatch cv2_findHomography
       cv2_resize splitext draw_matches thumbnail_filename source_filename
       display save_visualization save_reconstruction reconstruction_format).
Proof.
  unfold locate_thumbnail.
  apply emits_at_most_skip; [apply emits_at_most_lift|].
  intros [thumbnail_basename thumbnail_image].
  apply emits_at_most_skip; [apply emits_at_most_lift|].
  intros [source_basename source_image].
  apply emits_at_most_skip; [apply emits_at_most_logging|]. intros _.
  apply emits_at_most_skip.
  { apply emits_at_most_logs. intros w.
    destruct (match_images_logs detectAndCompute knnMatch thumbnail_image
                source_image w) as [r Hr]. eauto. }
  intros kp_pairs.
  apply emits_at_most_before.
  { destruct (4 <=? length kp_pairs)%nat.
    - apply emits_at_most_skip; [apply emits_at_most_logging|]. intros _.
      apply emits_at_most_skip;
        [apply emits_at_most_logs, find_homography_logs|].
      intros [H mask].
      eapply emits_at_most_after.
      + apply emits_at_most_logs. intros w.
        destruct (reconstruct_thumbnail_spec cv2_resize thumbnail_image
                    source_image kp_pairs H
                    reconstruct_thumbnail_default_downsize w)
          as (? & ? & ? & msgs & r & _ & _ & Hrun & _). eauto.
      + apply reconstruct_thumbnail_returns_class.
      + intros [[new_thumbnail corners] rotation] Hclass. cbn [snd] in Hclass.
        apply emits_at_most_before.
        * apply emits_at_most_print_json. exact Hclass.
        * intros _.
          apply emits_at_most_skip; [|intros _; apply emits_at_most_ret].
          destruct save_reconstruction; [|apply emits_at_most_ret].
          apply emits_at_most_skip;
            [apply emits_at_most_imwrite|intros _; apply emits_at_most_logging].
    - apply emits_at_most_zero_one.
      apply emits_at_most_skip;
        [apply emits_at_most_logging|intros _; apply emits_at_most_ret]. }
  intros locals.
  apply emits_at_most_skip.
  { destruct (display || save_visualization); [|apply emits_at_most_ret].
    apply emits_at_most_skip; [|intros v; apply emits_at_most_ret].
    apply emits_at_most_logs. apply visualize_matches_logs. }
  intros vis_image.
  apply emits_at_most_skip.
  { destruct save_visualization; [|apply emits_at_most_ret].
    destruct vis_image as [v|]; [|apply emits_at_most_lift].
    destruct (splitext thumbnail_filename) as [root ext].
    apply emits_at_most_skip;
      [apply emits_at_most_imwrite|intros _; apply emits_at_most_logging]. }
  intros _.
  destruct display; [|apply emits_at_most_ret].
  destruct (title locals); [|apply emits_at_most_lift].
  destruct vis_image; [apply emits_at_most_imshow|apply emits_at_most_lift].
Qed.

End LocateAtMost.

(** X14: whatever the flags and the collaborators, one call of
    [locate_thumbnail] prints at most one report, and the rotation of a
    printed report is 0, 90, 180 or 270. *)
Theorem locate_thumbnail_at_most_one_report
    (open_image : string -> result (string * Image))
    (Descriptors : Type)
    (detectAndCompute : Image -> list KeyPoint * Descriptors)
    (knnMatch : Descriptors -> Descriptors -> result (list (DMatch * DMatch)))
    (cv2_findHomography :
       list (Q * Q) -> list (Q * Q) -> result (Homography * list bool))
    (cv2_resize : Image -> Z * Z -> result Image)
    (splitext : string -> string * string)
    (draw_matches :
       Image -> Image -> option Image -> option CropBox ->
       list (KeyPoint * KeyPoint) -> option (list bool) -> result Image)
    (thumbnail_filename source_filename : string)
    (display save_visualization save_reconstruction : bool)
    (reconstruction_format : string) (w : World) :
  exists reports,
    stdout (fst (locate_thumbnail open_image detectAndCompute knnMatch
                   cv2_findHomography cv2_resize splitext draw_matches
                   thumbnail_filename source_filename display save_visualization
                   save_reconstruction reconstruction_format w))
    = stdout w ++ reports /\
    (length reports <= 1)%nat /\
    Forall (fun r => rotation_class (rotation_degrees r)) reports.
Proof.
  destruct (locate_thumbnail_emits_at_most open_image detectAndCompute knnMatch
              cv2_findHomography cv2_resize splitext draw_matches
              thumbnail_filename source_filename display save_visualization
              save_reconstruction reconstruction_format w)
    as (reports & E & F & L).
  exists reports. auto.
Qed.

(* ================================================================== *)
(** ** Properties of [main] *)
(* ================================================================== *)

Lemma pairs_ind {A} (P : list A -> Prop) :
  P [] -> (forall a, P [a]) -> (forall a b l, P l -> P (a :: b :: l)) ->
  forall l, P l.
Proof.
  intros H0 H1 H2.
  assert (H : forall l, P l /\ forall a, P (a :: l)).
  { induction l as [|b l [IH1 IH2]]; split; auto. }
  intros l. apply H.
Qed.

Lemma length_two_more_mod {A} (a b : A) (l : list A) :
  (length (a :: b :: l) mod 2 = length l mod 2)%nat.
Proof.
  cbn [length]. replace (S (S (length l))) with (length l + 1 * 2)%nat by lia.
  apply Nat.Div0.mod_add.
Qed.

Lemma length_two_more_div {A} (a b : A) (l : list A) :
  (length (a :: b :: l) / 2 = S (length l / 2))%nat.
Proof.
  cbn [length]. replace (S (S (length l))) with (length l + 1 * 2)%nat by lia.
  rewrite Nat.div_add by lia. lia.
Qed.

Lemma found_only_count_app (a b : list (Level * Message)) :
  found_only_count (a ++ b) = (found_only_count a + found_only_count b)%nat.
Proof. unfold found_only_count. now rewrite filter_app, length_app. Qed.

Section MainProperties.

Variable open_image : string -> result (string * Image).
Variable Descriptors : Type.
Variable detectAndCompute : Image -> list KeyPoint * Descriptors.
Variable knnMatch : Descriptors -> Descriptors -> result (list (DMatch * DMatch)).
Variable cv2_findHomography :
  list (Q * Q) -> list (Q * Q) -> result (Homography * list bool).
Variable cv2_resize : Image -> Z * Z -> result Image.
Variable splitext : string -> string * string.
Variable draw_matches :
  Image -> Image -> option Image -> option CropBox ->
  list (KeyPoint * KeyPoint) -> option (list bool) -> result Image.
Variable pdb_pm : World -> World.

Let loop :=
  main_loop open_image detectAndCompute knnMatch cv2_findHomography
    cv2_resize splitext draw_matches pdb_pm.


(** Without display, visualization and debugger, every pair adds one
    report, one warning of too few matches or one error record. *)
Lemma main_loop_accounting (args : Args) (files : list string) :
  args_display args = false ->
  args_save_visualization args = false ->
  args_debug args = false ->
  (length files mod 2 = 0)%nat ->
  forall st,
  exists msgs reports files_written errors,
    loop args files st
    = ({| world := extended (world st) msgs reports files_written [];
          error_log := error_log st ++ errors |}, Finished) /\
    (length reports + found_only_count msgs + length errors
     = length files / 2)%nat /\
    length files_written
    = (if args_save_thumbnail args then length reports else 0%nat).
Proof.
  intros Hdisplay Hvis Hdebug.
  induction files as [| thumbnail | thumbnail source rest IH] using pairs_ind;
    intros Heven st.
  - exists [], [], [], []. rewrite extended_nil, app_nil_r.
    destruct st. split; [reflexivity|].
    split; [reflexivity|]. now destruct (args_save_thumbnail args).
  - discriminate.
  - rewrite length_two_more_mod in Heven. rewrite length_two_more_div.
    unfold loop. cbn [main_loop]. rewrite Hdisplay, Hvis, Hdebug.
    destruct (locate_thumbnail_outcome open_image detectAndCompute knnMatch
                cv2_findHomography cv2_resize splitext draw_matches
                thumbnail source (args_save_thumbnail args)
                (args_thumbnail_format args) (world st))
      as (msgs & reports & written1 & r & Hrun & Hcases).
    rewrite Hrun.
    destruct Hcases as [([e ->] & -> & -> & Hc)
                       |[(-> & -> & -> & Hc)|(-> & [report ->] & Hc & Hw)]].
    + destruct (IH Heven
                  {| world := extended (world st) msgs [] [] [];
                     error_log := error_log st ++ [(thumbnail, source, e)] |})
        as (msgs2 & reports2 & written2 & errors2 & Hloop & Hcount & Hwritten).
      fold loop. rewrite Hloop. cbn [world error_log].
      rewrite extended_extended, <- app_assoc. cbn [app].
      exists (msgs ++ msgs2), reports2, written2, ((thumbnail, source, e) :: errors2).
      split; [reflexivity|].
      rewrite found_only_count_app. cbn [length]. split; [lia|exact Hwritten].
    + destruct (IH Heven
                  {| world := extended (world st) msgs [] [] [];
                     error_log := error_log st |})
        as (msgs2 & reports2 & written2 & errors2 & Hloop & Hcount & Hwritten).
      fold loop. rewrite Hloop. cbn [world error_log].
      rewrite extended_extended. cbn [app].
      exists (msgs ++ msgs2), reports2, written2, errors2.
      split; [reflexivity|].
      rewrite found_only_count_app. split; [lia|exact Hwritten].
    + destruct (IH Heven
                  {| world := extended (world st) msgs [report] written1 [];
                     error_log := error_log st |})
        as (msgs2 & reports2 & written2 & errors2 & Hloop & Hcount & Hwritten).
      fold loop. rewrite Hloop. cbn [world error_log].
      rewrite extended_extended. cbn [app].
      exists (msgs ++ msgs2), (report :: reports2), (written1 ++ written2), errors2.
      split; [reflexivity|].
      rewrite found_only_count_app, length_app. cbn [length].
      split; [lia|]. rewrite Hw, Hwritten.
      now destruct (args_save_thumbnail args).
Qed.

End MainProperties.



(** X16: a batch run without display, visualization and debugger, on an
    even number of files and a valid format: [main] returns, no window is
    opened, and every pair leaves exactly one trace: the reports printed,
    the warnings of too few matches and the error records together are as
    many as the pairs; with [--save-thumbnail] one file is written for each
    report, and none otherwise. *)
Theorem main_batch_accounting
    (open_image : string -> result (string * Image))
    (Descriptors : Type)
    (detectAndCompute : Image -> list KeyPoint * Descriptors)
    (knnMatch : Descriptors -> Descriptors -> result (list (DMatch * DMatch)))
    (cv2_findHomography :
       list (Q * Q) -> list (Q * Q) -> result (Homography * list bool))
    (cv2_resize : Image -> Z * Z -> result Image)
    (splitext : string -> string * string)
    (draw_matches :
       Image -> Image -> option Image -> option CropBox ->
       list (KeyPoint * KeyPoint) -> option (list bool) -> result Image)
    (pdb_pm : World -> World)
    (args : Args) (st : MainState) :
  args_display args = false ->
  args_save_visualization args = false ->
  args_debug args = false ->
  (length (args_files args) mod 2 = 0)%nat ->
  args_thumbnail_format args = "jpg"%string \/
  args_thumbnail_format args = "png"%string ->
  exists msgs reports files_written errors,
    main open_image detectAndCompute knnMatch cv2_findHomography cv2_resize
         splitext draw_matches pdb_pm args st
    = ({| world := extended (world st) msgs reports files_written [];
          error_log := error_log st ++ errors |}, Finished) /\
    (length reports + found_only_count msgs + length errors
     = length (args_files args) / 2)%nat /\
    length files_written
    = (if args_save_thumbnail args then length reports else 0%nat).
Proof.
  intros Hdisplay Hvis Hdebug Heven Hfmt.
  unfold main. rewrite Heven. cbn [Nat.eqb negb].
  replace (String.eqb (args_thumbnail_format args) "jpg"
           || String.eqb (args_thumbnail_format args) "png") with true.
  - cbn [negb]. now apply main_loop_accounting.
  - symmetry. apply orb_true_iff.
    destruct Hfmt as [E|E]; [left|right]; now apply String.eqb_eq.
Qed.

Lemma main_batch_accounting_witness :
  exists msgs reports files_written errors,
    main Sample.open_image Sample.detectAndCompute Sample.knn_clear
         Sample.find_translation Sample.resize_nearest Sample.splitext
         Sample.draw_matches Sample.pdb_pm
         (mkArgs ["thumb.jpg"%string; "master.jpg"%string;
                  "missing.jpg"%string; "master.jpg"%string]
                 false true "png" false false)
         Sample.state0
    = ({| world := extended (world Sample.state0) msgs reports files_written [];
          error_log := error_log Sample.state0 ++ errors |}, Finished) /\
    (length reports + found_only_count msgs + length errors = 2)%nat /\
    length files_written = length reports.
Proof.
  apply (main_batch_accounting Sample.open_image Sample.detectAndCompute
           Sample.knn_clear Sample.find_translation Sample.resize_nearest
           Sample.splitext Sample.draw_matches Sample.pdb_pm
           (mkArgs ["thumb.jpg"%string; "master.jpg"%string;
                    "missing.jpg"%string; "master.jpg"%string]
                   false true "png" false false)
           Sample.state0); try reflexivity.
  right. reflexivity.
Defined.

(** The sample batch: one report, one error record. *)
Example main_sample_batch :
  let '(st, exit) :=
    main Sample.open_image Sample.detectAndCompute Sample.knn_clear
         Sample.find_translation Sample.resize_nearest Sample.splitext
         Sample.draw_matches Sample.pdb_pm
         (mkArgs ["thumb.jpg"%string; "master.jpg"%string;
                  "missing.jpg"%string; "master.jpg"%string]
                 false true "png" false false)
         Sample.state0 in
  exit = Finished /\
  length (stdout (world st)) = 1%nat /\
  error_log st = [("missing.jpg"%string, "master.jpg"%string, IOError)].
Proof. vm_compute. repeat split. Qed.

(* ================================================================== *)
(** ** A crop box across the top or the left edge *)
(* ================================================================== *)

(** A slice from a negative bound to a bound that is not negative, no
    longer than the axis, selects nothing. *)
Lemma slice_across_start_empty (lo hi : Z) (len : nat) :
  - Z.of_nat len <= lo < 0 -> 0 <= hi -> hi - lo <= Z.of_nat len ->
  Z.to_nat (Numpy.slice_bound hi len - Numpy.slice_bound lo len) = 0%nat.
Proof.
  intros Hlo Hhi Hlen. unfold Numpy.slice_bound.
  replace (lo <? 0) with true by (symmetry; apply Z.ltb_lt; lia).
  replace (lo + Z.of_nat len <? 0) with false by (symmetry; apply Z.ltb_ge; lia).
  replace (hi <? 0) with false by (symmetry; apply Z.ltb_ge; lia).
  destruct (Z.of_nat len <? hi) eqn:E;
    [apply Z.ltb_lt in E | apply Z.ltb_ge in E]; lia.
Qed.

(** X17: when the bounding box of the projected corners starts above the
    top edge of the source ([-source_height <= y_min < 0 <= y_max]) or left
    of its left edge, and is no taller (no wider) than the source, the
    negative bound is counted from the far end of the axis and the region
    is empty: [reconstruct_thumbnail] still returns, with that crop box and
    an image without pixels. *)
Theorem reconstruct_thumbnail_box_across_edge
    (cv2_resize : Image -> Z * Z -> result Image)
    (thumbnail_image source_image : Image)
    (kp_pairs : list (KeyPoint * KeyPoint)) (H : Homography) (w : World)
    (crop : CropBox) :
  let corners :=
    projected_corners (width thumbnail_image) (height thumbnail_image) H in
  let source_h := Z.of_nat (height source_image) in
  let source_w := Z.of_nat (width source_image) in
  bounding_box_of corners crop ->
  (- source_h <= fst (fst crop) < 0 /\ 0 <= snd (fst crop) /\
   snd (fst crop) - fst (fst crop) <= source_h) \/
  (- source_w <= fst (snd crop) < 0 /\ 0 <= snd (snd crop) /\
   snd (snd crop) - fst (snd crop) <= source_w) ->
  exists rotation img w',
    reconstruct_thumbnail cv2_resize thumbnail_image source_image kp_pairs H
                          false w = (w', Ok (img, crop, rotation)) /\
    (height img * width img = 0)%nat.
Proof.
  intros corners source_h source_w Hbox Hacross.
  destruct (reconstruct_thumbnail_spec cv2_resize thumbnail_image source_image
              kp_pairs H false w)
    as (crop0 & rotation & img & msgs & r & Hbox0 & Hrot & Hrun & _ & Hret).
  fold corners in Hbox0, Hrot.
  rewrite (bounding_box_unique Hbox0 Hbox) in *.
  exists rotation, img, (logged w msgs).
  split; [now rewrite Hrun, (Hret eq_refl)|].
  set (region := Numpy.getitem_slices source_image (fst crop) (snd crop)) in *.
  assert (Hempty : (height region * width region = 0)%nat).
  { subst region. unfold Numpy.getitem_slices, Numpy.slice_indices.
    cbn [height width].
    destruct Hacross as [(Hlo & Hhi & Hlen)|(Hlo & Hhi & Hlen)].
    - rewrite (slice_across_start_empty _ Hlo Hhi Hlen). reflexivity.
    - rewrite (slice_across_start_empty _ Hlo Hhi Hlen). lia. }
  destruct (projected_corners_cons (width thumbnail_image)
              (height thumbnail_image) H) as (c & rest & Hc).
  fold corners in Hc. rewrite Hc in Hrot.
  destruct (autorotate_image_total region c rest) as (r1 & i1 & E & Hcases).
  rewrite E in Hrot. injection Hrot as <- <-.
  destruct Hcases as [Hc1|[Hc1|[Hc1|Hc1]]]; injection Hc1 as _ ->;
    unfold region in *; cbn in Hempty |- *; lia.
Qed.

Lemma reconstruct_thumbnail_box_across_edge_witness :
  exists rotation img w',
    reconstruct_thumbnail Sample.resize_nearest (Sample.grid 20 20)
      (Sample.grid 100 100) [] (Sample.translation 30 (-10)) false Sample.world0
    = (w', Ok (img, ((-10, 10), (30, 50)), rotation)) /\
    (height img * width img = 0)%nat.
Proof.
  assert (Hbox : bounding_box_of
                   (projected_corners (width (Sample.grid 20 20))
                      (height (Sample.grid 20 20)) (Sample.translation 30 (-10)))
                   ((-10, 10), (30, 50))).
  { vm_compute. repeat split; auto 10; repeat constructor; discriminate. }
  apply (@reconstruct_thumbnail_box_across_edge Sample.resize_nearest
           (Sample.grid 20 20) (Sample.grid 100 100) []
           (Sample.translation 30 (-10)) Sample.world0 _ Hbox).
  left. simpl. lia.
Defined.

(* ================================================================== *)
(** ** Properties of [match_images] *)
(* ================================================================== *)

(** X18: [match_images] logs one record, the numbers of keypoints detected
    in the two images, and changes nothing else; it raises what the
    matcher raises; otherwise its result is that of [filter_matches] on
    the raw matches with the ratio 0.75, so that it returns at most one
    correspondence for each raw match, each pairing a keypoint detected
    in the template with a keypoint detected in the source. *)
Theorem match_images_result
    (Descriptors : Type)
    (detectAndCompute : Image -> list KeyPoint * Descriptors)
    (knnMatch : Descriptors -> Descriptors -> result (list (DMatch * DMatch)))
    (template source : Image) (w : World) :
  let kp1 := fst (detectAndCompute template) in
  let kp2 := fst (detectAndCompute source) in
  let matched := knnMatch (snd (detectAndCompute template))
                          (snd (detectAndCompute source)) in
  exists r,
    match_images detectAndCompute knnMatch template source w
    = (logged w [(DEBUG, MsgFeatures (length kp1) (length kp2))], r) /\
    (forall e, matched = Raise e -> r = Raise e) /\
    (forall raw_matches,
        matched = Ok raw_matches ->
        r = filter_matches kp1 kp2 raw_matches (3 # 4) /\
        forall kp_pairs,
          r = Ok kp_pairs ->
          (length kp_pairs <= length raw_matches)%nat /\
          Forall (fun p => In (fst p) kp1 /\ In (snd p) kp2) kp_pairs).
Proof.
  intros kp1 kp2 matched. subst kp1 kp2 matched. unfold match_images.
  destruct (detectAndCompute template) as [kp1 desc1].
  destruct (detectAndCompute source) as [kp2 desc2].
  cbn [fst snd]. rewrite bind_logging.
  destruct (knnMatch desc1 desc2) as [raw|e].
  - rewrite bind_lift_ok.
    exists (filter_matches kp1 kp2 raw filter_matches_default_ratio).
    split.
    + destruct (filter_matches kp1 kp2 raw filter_matches_default_ratio);
        reflexivity.
    + split; [discriminate|].
      intros raw_matches E. injection E as <-.
      split; [reflexivity|].
      intros kp_pairs Hr.
      rewrite filter_matches_spec in Hr.
      pose proof (mapM_length _ _ Hr) as Hlen.
      split.
      * rewrite Hlen. apply filter_length_le.
      * apply mapM_Forall2 in Hr. clear Hlen.
        induction Hr as [|m p l ps Hmp _ IH]; [constructor|].
        constructor; [|exact IH].
        apply correspondence_ok in Hmp. tauto.
  - rewrite bind_lift_raise. exists (Raise e).
    split; [reflexivity|]. split; [|discriminate].
    intros e' E. now injection E as <-.
Qed.

Lemma match_images_result_witness :
  exists kp_pairs,
    match_images Sample.detectAndCompute Sample.knn_ambiguous
      (Sample.grid 20 20) (Sample.grid 100 100) Sample.world0
    = (logged Sample.world0 [(DEBUG, MsgFeatures 4 4)], Ok kp_pairs) /\
    (length kp_pairs <= 4)%nat /\
    Forall (fun p => In (fst p) Sample.kp1 /\ In (snd p) Sample.kp2) kp_pairs.
Proof.
  destruct (match_images_result Sample.detectAndCompute Sample.knn_ambiguous
              (Sample.grid 20 20) (Sample.grid 100 100) Sample.world0)
    as (r & Hrun & _ & Hok).
  destruct (Hok Sample.raw_matches eq_refl) as [Hr Hpairs].
  destruct r as [kp_pairs|e]; [|vm_compute in Hr; discriminate].
  exists kp_pairs. split; [exact Hrun|]. exact (Hpairs kp_pairs eq_refl).
Defined.
